(** * paper_research_agent: query optimisation, pagination and dialogue agent

    A shallow embedding of the decision logic of the repository:
    - [openalex_search.py]: [OpenAlexSearch._convert_filter_value],
      [search_papers], [get_all_papers];
    - [src/utils/query_processor.py]: [QueryProcessor.extract_keywords],
      [optimize_query], [split_long_query];
    - [src/agents/paper_research_agent.py]: [PaperResearchAgent].

    Python strings are embedded as [string]; a character is read as the code
    point of the same number, so the development covers the strings whose code
    points are below 256.  Python integers are [Z].  Exceptions are an explicit
    [result] type. *)

From Stdlib Require Import ZArith Ascii String List Lia Bool.
From Stdlib Require Import DecimalString DecimalPos.
From stdpp Require Import base option list gmap strings.

Local Open Scope Z_scope.

(** ** Exceptions *)

Inductive exn : Type :=
| KeyError
| ValueError
| TypeError
| AttributeError
| JSONDecodeError
| RequestException
| OtherException (msg : string).

Inductive result (A : Type) : Type :=
| Ok (a : A)
| Raise (e : exn).

Arguments Ok {A} a.
Arguments Raise {A} e.

Definition bind {A B : Type} (r : result A) (k : A -> result B) : result B :=
  match r with
  | Ok a => k a
  | Raise e => Raise e
  end.

Global Instance result_fmap : FMap result :=
  fun A B f r => match r with Ok a => Ok (f a) | Raise e => Raise e end.

Notation "x <-! r ;; k" := (bind r (fun x => k))
  (at level 100, r at next level, right associativity).

(** ** Python strings *)

Module PyStr.

(** [str.isspace] on the code points below 256: TAB, LF, VT, FF, CR, the
    four separators FS, GS, RS, US, the space, NEL and the no-break space. *)
Definition isspace (c : ascii) : bool :=
  let n := nat_of_ascii c in
  ((9 <=? n) && (n <=? 13) || (28 <=? n) && (n <=? 32)
   || (n =? 133) || (n =? 160))%nat.

Fixpoint lstrip (s : string) : string :=
  match s with
  | EmptyString => EmptyString
  | String c s' => if isspace c then lstrip s' else s
  end.

Fixpoint rstrip (s : string) : string :=
  match s with
  | EmptyString => EmptyString
  | String c s' =>
      match rstrip s' with
      | EmptyString => if isspace c then EmptyString else String c EmptyString
      | r => String c r
      end
  end.

(** [s.strip()] *)
Definition strip (s : string) : string := rstrip (lstrip s).

(** A string is free of leading white space. *)
Definition no_leading_space (s : string) : Prop :=
  match s with
  | EmptyString => True
  | String c _ => isspace c = false
  end.

(** [s.startswith(p)] *)
Definition startswith (s p : string) : bool := String.prefix p s.

(** [s[n:]] for [n >= 0] *)
Fixpoint slice_from (n : nat) (s : string) : string :=
  match n, s with
  | O, _ => s
  | S n', String _ s' => slice_from n' s'
  | S _, EmptyString => EmptyString
  end.

(** [s[:n]] for [n >= 0] *)
Fixpoint slice_to (n : nat) (s : string) : string :=
  match n, s with
  | S n', String c s' => String c (slice_to n' s')
  | _, _ => EmptyString
  end.

(** [s[:m]] for any integer [m]: a negative [m] counts from the end. *)
Definition slice_upto (m : Z) (s : string) : string :=
  if 0 <=? m then slice_to (Z.to_nat m) s
  else slice_to (Z.to_nat (Z.of_nat (String.length s) + m)) s.

(** [len(s)] *)
Definition len (s : string) : Z := Z.of_nat (String.length s).

(** Truth value of a string: non-empty. *)
Definition truthy (s : string) : bool :=
  match s with EmptyString => false | _ => true end.

Definition digit_value (c : ascii) : option Z :=
  let n := nat_of_ascii c in
  if ((48 <=? n) && (n <=? 57))%nat then Some (Z.of_nat n - 48) else None.

(** The digit part of an integer literal of [int(str)]: decimal digits,
    with single underscores allowed between two digits. *)
Fixpoint parse_digits (acc : Z) (after_digit : bool) (s : string) : option Z :=
  match s with
  | EmptyString => if after_digit then Some acc else None
  | String c s' =>
      match digit_value c with
      | Some d => parse_digits (acc * 10 + d) true s'
      | None =>
          if Ascii.eqb c "_" && after_digit
          then parse_digits acc false s'
          else None
      end
  end.

(** [int(s)] on a string: surrounding whitespace is ignored, then an
    optional sign, then the digits.  Anything else is a [ValueError].
    Integers are unbounded: the limit that the interpreter puts on the number
    of digits of a conversion (4300 unless configured) is not modelled. *)
Definition to_int (s : string) : result Z :=
  let parsed :=
    match strip s with
    | String "+" r => parse_digits 0 false r
    | String "-" r => Z.opp <$> parse_digits 0 false r
    | r => parse_digits 0 false r
    end in
  match parsed with
  | Some z => Ok z
  | None => Raise ValueError
  end.

(** The number written by a sequence of decimal digits read after [acc]. *)
Fixpoint uint_value (acc : Z) (d : Decimal.uint) : Z :=
  match d with
  | Decimal.Nil => acc
  | Decimal.D0 d => uint_value (acc * 10) d
  | Decimal.D1 d => uint_value (acc * 10 + 1) d
  | Decimal.D2 d => uint_value (acc * 10 + 2) d
  | Decimal.D3 d => uint_value (acc * 10 + 3) d
  | Decimal.D4 d => uint_value (acc * 10 + 4) d
  | Decimal.D5 d => uint_value (acc * 10 + 5) d
  | Decimal.D6 d => uint_value (acc * 10 + 6) d
  | Decimal.D7 d => uint_value (acc * 10 + 7) d
  | Decimal.D8 d => uint_value (acc * 10 + 8) d
  | Decimal.D9 d => uint_value (acc * 10 + 9) d
  end.

(** No character of the string is white space. *)
Fixpoint no_space (s : string) : Prop :=
  match s with
  | EmptyString => True
  | String c s' => isspace c = false /\ no_space s'
  end.

(** [str(z)] for an integer: decimal digits, [-] in front when negative. *)
Definition of_int (z : Z) : string :=
  DecimalString.NilZero.string_of_int (Z.to_int z).

End PyStr.

(** ** Year-filter normaliser: [OpenAlexSearch._convert_filter_value] *)

(** [try: year_int = int(year); return then(year_int)
     except ValueError: return value] *)
Definition except_ValueError {A : Type} (body : result A) (handler : result A)
  : result A :=
  match body with
  | Raise ValueError => handler
  | r => r
  end.

Definition _convert_filter_value (value : string) : result string :=
  let value := PyStr.strip value in
  if PyStr.startswith value ">=" then
    let year := PyStr.strip (PyStr.slice_from 2 value) in
    Ok (year +:+ "-")
  else if PyStr.startswith value "<=" then
    let year := PyStr.strip (PyStr.slice_from 2 value) in
    Ok ("-" +:+ year)
  else if PyStr.startswith value ">" then
    let year := PyStr.strip (PyStr.slice_from 1 value) in
    except_ValueError
      (year_int <-! PyStr.to_int year ;;
       Ok (PyStr.of_int (year_int + 1) +:+ "-"))
      (Ok value)
  else if PyStr.startswith value "<" then
    let year := PyStr.strip (PyStr.slice_from 1 value) in
    except_ValueError
      (year_int <-! PyStr.to_int year ;;
       Ok ("-" +:+ PyStr.of_int (year_int - 1)))
      (Ok value)
  else
    Ok value.

(** ** Regular expressions of [query_processor.py] *)

Module PyRe.

Definition in_range (lo hi : nat) (c : ascii) : bool :=
  let n := nat_of_ascii c in ((lo <=? n) && (n <=? hi))%nat.

(** [[a-z]] *)
Definition is_az (c : ascii) : bool := in_range 97 122 c.

(** [\w] of a [str] pattern: letters, digits and the underscore.  Below
    256 the letters and numeric characters outside ASCII are the two
    ordinal indicators, the micro sign, the superscripts 1, 2, 3, the three
    vulgar fractions and the accented letters (all of 192..255 but the
    multiplication and division signs). *)
Definition is_word (c : ascii) : bool :=
  let n := nat_of_ascii c in
  in_range 97 122 c || in_range 65 90 c || in_range 48 57 c
  || (n =? 95)%nat
  || (n =? 170)%nat || (n =? 178)%nat || (n =? 179)%nat || (n =? 181)%nat
  || (n =? 185)%nat || (n =? 186)%nat || in_range 188 190 c
  || in_range 192 214 c || in_range 216 246 c || in_range 248 255 c.

(** [str.lower] on one character: the capital letters of ASCII and the
    accented capitals 192..222 (but the multiplication sign, 215) move up by
    32; every other character below 256 is its own lower case. *)
Definition lower_char (c : ascii) : ascii :=
  let n := nat_of_ascii c in
  if in_range 65 90 c || (in_range 192 222 c && negb (n =? 215)%nat)
  then ascii_of_nat (n + 32)
  else c.

Fixpoint lower (s : string) : string :=
  match s with
  | EmptyString => EmptyString
  | String c s' => String (lower_char c) (lower s')
  end.

(** A run of [[a-z]] that started at a word boundary is a match of
    [\b[a-z]{3,}\b] when it has three letters or more and ends at a word
    boundary. *)
Definition emit (run : option string) : list string :=
  match run with
  | Some r => if (3 <=? String.length r)%nat then [r] else []
  | None => []
  end.

(** [re.findall(r'\b[a-z]{3,}\b', text)], scanning left to right.
    [prev_word] tells whether the previous character is a word character,
    [run] holds the letters read since the last word boundary, when only
    letters of [[a-z]] were read since. *)
Fixpoint findall_words (prev_word : bool) (run : option string)
    (text : string) : list string :=
  match text with
  | EmptyString => emit run
  | String c t =>
      if is_az c then
        match run with
        | Some r => findall_words true (Some (r +:+ String c EmptyString)) t
        | None =>
            findall_words true
              (if prev_word then None else Some (String c EmptyString)) t
        end
      else if is_word c then findall_words true None t
      else emit run ++ findall_words false None t
  end.

(** [[.!?]]: the sentence ends of ASCII.  The pattern of the source also
    lists the full-width full stop, exclamation and question marks, which
    are above code point 255. *)
Definition is_sentence_end (c : ascii) : bool :=
  Ascii.eqb c "." || Ascii.eqb c "!" || Ascii.eqb c "?".

(** [re.split(r'[.!?。！？]\s*', s)]: the pieces between the matches, the
    empty ones included.  [skipping] is set while the [\s*] of a match
    is consuming white space.  The head of the result is the piece that
    starts at the current position. *)
Fixpoint split_sentences (skipping : bool) (s : string) : list string :=
  match s with
  | EmptyString => [EmptyString]
  | String c t =>
      if is_sentence_end c then EmptyString :: split_sentences true t
      else if skipping && PyStr.isspace c then split_sentences true t
      else
        match split_sentences false t with
        | p :: ps => String c p :: ps
        | [] => [String c EmptyString]
        end
  end.

End PyRe.

(** ** [QueryProcessor] *)

Module QueryProcessor.

Definition ENGLISH_STOPWORDS : list string :=
  ["a"; "an"; "and"; "are"; "as"; "at"; "be"; "by"; "for"; "from"; "has";
   "he"; "in"; "is"; "it"; "its"; "of"; "on"; "that"; "the"; "to"; "was";
   "will"; "with"; "the"; "this"; "but"; "they"; "have"; "had"; "what";
   "said"; "each"; "which"; "their"; "time"; "if"; "up"; "out"; "many";
   "then"; "them"; "these"; "so"; "some"; "her"; "would"; "make"; "like";
   "into"; "him"; "has"; "two"; "more"; "very"; "after"; "words"; "long";
   "about"; "get"; "through"; "much"; "before"; "back"; "here"; "when";
   "where"; "why"; "how"; "all"; "can"; "her"; "was"; "one"; "our";
   "out"; "day"; "get"; "come"; "made"; "may"; "part"; "over"; "new";
   "sound"; "take"; "only"; "little"; "work"; "know"; "place"; "year";
   "live"; "me"; "back"; "give"; "most"; "very"; "after"; "thing"; "our";
   "just"; "name"; "good"; "sentence"; "man"; "think"; "say"; "great";
   "where"; "help"; "through"; "much"; "before"; "line"; "right"; "too";
   "mean"; "old"; "any"; "same"; "tell"; "boy"; "follow"; "came"; "want";
   "show"; "also"; "around"; "form"; "three"; "small"; "set"; "put";
   "end"; "does"; "another"; "well"; "large"; "must"; "big"; "even";
   "such"; "because"; "turn"; "here"; "why"; "ask"; "went"; "men";
   "read"; "need"; "land"; "different"; "home"; "us"; "move"; "try";
   "kind"; "hand"; "picture"; "again"; "change"; "off"; "play"; "spell";
   "air"; "away"; "animal"; "house"; "point"; "page"; "letter"; "mother";
   "answer"; "found"; "study"; "still"; "learn"; "should"; "America";
   "world"; "high"; "every"; "near"; "add"; "food"; "between"; "own";
   "below"; "country"; "plant"; "last"; "school"; "father"; "keep";
   "tree"; "never"; "start"; "city"; "earth"; "eye"; "light"; "thought";
   "head"; "under"; "story"; "saw"; "left"; "don't"; "few"; "while";
   "along"; "might"; "close"; "something"; "seem"; "next"; "hard";
   "open"; "example"; "begin"; "life"; "always"; "those"; "both";
   "paper"; "together"; "got"; "group"; "often"; "run"; "important";
   "until"; "children"; "side"; "feet"; "car"; "mile"; "night"; "walk";
   "white"; "sea"; "began"; "grow"; "took"; "river"; "four"; "carry";
   "state"; "once"; "book"; "hear"; "stop"; "without"; "second"; "later";
   "miss"; "idea"; "enough"; "eat"; "face"; "watch"; "far"; "indian";
   "really"; "almost"; "let"; "above"; "girl"; "sometimes"; "mountain";
   "cut"; "young"; "talk"; "soon"; "list"; "song"; "leave"; "family"].

(** Every word of [JAPANESE_STOPWORDS] is written in kana or kanji, so no
    string of this development is one of them. *)
Definition in_JAPANESE_STOPWORDS (w : string) : bool := false.

Definition in_ENGLISH_STOPWORDS (w : string) : bool :=
  bool_decide (w ∈ ENGLISH_STOPWORDS).

(** The object: [use_llm] and [llm_extractor].  The extractor is the call
    [llm_extractor.extract_keywords(text, max_keywords=...)], whose answer
    comes from the completion provider. *)
Record t : Type := {
  use_llm : bool;
  llm_extractor : option (string -> Z -> result (list string))
}.

(** [Counter(words)]: the distinct words with their number of
    occurrences, in the order of their first occurrence. *)
Fixpoint counter_add (w : string) (c : list (string * nat))
  : list (string * nat) :=
  match c with
  | [] => [(w, 1%nat)]
  | (w', n) :: c' =>
      if String.eqb w w' then (w', S n) :: c' else (w', n) :: counter_add w c'
  end.

Definition Counter (words : list string) : list (string * nat) :=
  foldl (fun c w => counter_add w c) [] words.

(** Stable sort by decreasing count: an entry goes behind every entry
    whose count is at least its own. *)
Fixpoint insert_desc (x : string * nat) (l : list (string * nat))
  : list (string * nat) :=
  match l with
  | [] => [x]
  | y :: l' =>
      if (x.2 <=? y.2)%nat then y :: insert_desc x l' else x :: y :: l'
  end.

(** [c.most_common(n)] *)
Definition most_common (n : Z) (c : list (string * nat))
  : list (string * nat) :=
  take (Z.to_nat n) (foldl (fun acc x => insert_desc x acc) [] c).

Definition _extract_keywords_regex (text : string) (max_keywords : Z)
    (min_word_length : Z) (use_stopwords : bool) : list string :=
  let text := PyRe.lower text in
  let english_words := PyRe.findall_words false None text in
  let japanese_words : list string := [] in
  let words := english_words ++ japanese_words in
  let words :=
    if use_stopwords
    then filter (fun w => in_ENGLISH_STOPWORDS w = false
                          ∧ in_JAPANESE_STOPWORDS w = false) words
    else words in
  let words := filter (fun w => min_word_length <= PyStr.len w) words in
  let word_counts := Counter words in
  (most_common max_keywords word_counts).*1.

(** [extract_keywords]: the provider first, when there is one; its empty
    answer or any exception of its own leads to the regular expressions. *)
Definition extract_keywords (self : t) (text : string) (max_keywords : Z)
    (min_word_length : Z) (use_stopwords : bool) : list string :=
  let fallback :=
    _extract_keywords_regex text max_keywords min_word_length use_stopwords in
  match use_llm self, llm_extractor self with
  | true, Some llm =>
      match llm text max_keywords with
      | Ok (k :: ks) => k :: ks
      | Ok [] => fallback
      | Raise _ => fallback
      end
  | _, _ => fallback
  end.

(** [" ".join(l)] *)
Fixpoint join_spaces (l : list string) : string :=
  match l with
  | [] => EmptyString
  | [w] => w
  | w :: l' => w +:+ " " +:+ join_spaces l'
  end.

Definition keywords_or_original (self : t) (query : string)
    (max_keywords : Z) : string :=
  match extract_keywords self query max_keywords 3 true with
  | [] => PyStr.strip query
  | keywords => join_spaces keywords
  end.

Definition optimize_query (self : t) (query : string) (method : string)
    (max_keywords : Z) : string :=
  if String.eqb method "original" then PyStr.strip query
  else if String.eqb method "keywords" then
    keywords_or_original self query max_keywords
  else
    (* auto *)
    if 50 <? PyStr.len query
    then keywords_or_original self query max_keywords
    else PyStr.strip query.

(** One turn of the loop over the sentences: the state is
    [(sub_queries, current_query)]. *)
Definition pack_sentence (max_length : Z) (st : list string * string)
    (sentence : string) : list string * string :=
  let '(sub_queries, current_query) := st in
  let sentence := PyStr.strip sentence in
  if negb (PyStr.truthy sentence) then st
  else if PyStr.len current_query + PyStr.len sentence + 1 <=? max_length then
    if PyStr.truthy current_query
    then (sub_queries, current_query +:+ " " +:+ sentence)
    else (sub_queries, sentence)
  else
    if PyStr.truthy current_query
    then (sub_queries ++ [current_query], sentence)
    else (sub_queries, sentence).

Definition split_long_query (query : string) (max_length : Z)
  : list string :=
  if PyStr.len query <=? max_length then [query]
  else
    let sentences := PyRe.split_sentences false query in
    let '(sub_queries, current_query) :=
      foldl (pack_sentence max_length) ([], EmptyString) sentences in
    let sub_queries :=
      if PyStr.truthy current_query
      then sub_queries ++ [current_query]
      else sub_queries in
    match sub_queries with
    | [] => [PyStr.slice_upto max_length query]
    | _ => sub_queries
    end.

End QueryProcessor.

(** ** Python values held by the dictionaries

    The values of the analysis reply and of [collected_info] come from JSON:
    [None], booleans, integers and strings are embedded; floating point
    numbers and nested containers are left out. *)

Inductive pyval : Type :=
| PNone
| PBool (b : bool)
| PInt (z : Z)
| PStr (s : string).

Global Instance pyval_eq_dec : EqDecision pyval.
Proof. solve_decision. Defined.

Module PyVal.

(** Truth value: [if v]. *)
Definition truthy (v : pyval) : bool :=
  match v with
  | PNone => false
  | PBool b => b
  | PInt z => negb (z =? 0)
  | PStr s => PyStr.truthy s
  end.

(** [int(v)] *)
Definition to_int (v : pyval) : result Z :=
  match v with
  | PNone => Raise TypeError
  | PBool b => Ok (if b then 1 else 0)
  | PInt z => Ok z
  | PStr s => PyStr.to_int s
  end.

End PyVal.

(** ** [OpenAlexSearch] *)

(** The parameters of one GET on the works endpoint. *)
Record Request : Type := {
  req_search : pyval;
  req_per_page : Z;
  req_page : Z;
  req_sort : string;
  req_filter : option string
}.

(** What the code reads of the decoded reply: [result.get("results", [])]
    and [result.get("meta", {}).get("page_count", 1)]; [None] is an absent
    key. *)
Record Response (Paper : Type) : Type := {
  resp_results : option (list Paper);
  resp_page_count : option Z
}.

Arguments resp_results {Paper} _.
Arguments resp_page_count {Paper} _.

(** [l[:m]] on a list, for any integer [m]. *)
Definition list_slice_upto {A : Type} (m : Z) (l : list A) : list A :=
  if 0 <=? m then take (Z.to_nat m) l
  else take (Z.to_nat (Z.of_nat (length l) + m)) l.

(** [",".join(l)] *)
Fixpoint join_commas (l : list string) : string :=
  match l with
  | [] => EmptyString
  | [w] => w
  | w :: l' => w +:+ "," +:+ join_commas l'
  end.

(** [[f(x) for x in l]] when [f] may raise: the first exception ends it. *)
Fixpoint map_result {A B : Type} (f : A -> result B) (l : list A)
  : result (list B) :=
  match l with
  | [] => Ok []
  | x :: l' =>
      y <-! f x ;;
      ys <-! map_result f l' ;;
      Ok (y :: ys)
  end.

Module OpenAlexSearch.
Section WithSession.

Context {Paper : Type}.

(** [Config.DEFAULT_PER_PAGE] and [Config.MAX_PER_PAGE], read from the
    environment when the module is loaded. *)
Variable DEFAULT_PER_PAGE MAX_PER_PAGE : Z.

(** [self.session.get(BASE_URL, params=params)], [raise_for_status()] and
    [response.json()]: one round trip. *)
Variable transport : Request -> result (Response Paper).

(** [self.query_processor] *)
Variable query_processor : option QueryProcessor.t.

(** [self._convert_filter_value(value)] on a value of the dictionary:
    [value.strip()] exists on strings only. *)
Definition convert_filter_pyval (value : pyval) : result string :=
  match value with
  | PStr s => _convert_filter_value s
  | _ => Raise AttributeError
  end.

(** [self.query_processor.optimize_query(query, method="auto")]:
    [len(query)] is the first use of the query. *)
Definition optimize_pyval (qp : QueryProcessor.t) (query : pyval)
  : result pyval :=
  match query with
  | PStr s => Ok (PStr (QueryProcessor.optimize_query qp s "auto" 10))
  | _ => Raise TypeError
  end.

(** The part of [search_papers] before the round trip: the parameters. *)
Definition search_params (query : pyval) (per_page : option Z) (page : Z)
    (sort : string) (filter_params : option (list (string * pyval)))
    (optimize_query : option bool) : result Request :=
  let optimize_query :=
    match optimize_query with
    | None => bool_decide (is_Some query_processor)
    | Some b => b
    end in
  query <-! (match optimize_query, query_processor with
             | true, Some qp => optimize_pyval qp query
             | _, _ => Ok query
             end) ;;
  let per_page := default DEFAULT_PER_PAGE per_page in
  filter <-! (match filter_params with
              | None | Some [] => Ok None
              | Some items =>
                  filter_strings <-!
                    map_result
                      (fun kv : string * pyval =>
                         converted_value <-! convert_filter_pyval kv.2 ;;
                         Ok (kv.1 +:+ ":" +:+ converted_value))
                      items ;;
                  Ok (Some (join_commas filter_strings))
              end) ;;
  Ok {| req_search := query;
        req_per_page := Z.min per_page MAX_PER_PAGE;
        req_page := page;
        req_sort := sort;
        req_filter := filter |}.

Definition search_papers (query : pyval) (per_page : option Z) (page : Z)
    (sort : string) (filter_params : option (list (string * pyval)))
    (optimize_query : option bool) : result (Response Paper) :=
  params <-! search_params query per_page page sort filter_params
               optimize_query ;;
  transport params.

(** [if max_results and len(all_papers) >= max_results] *)
Definition cap_reached (max_results : option Z) (all_papers : list Paper)
  : option Z :=
  match max_results with
  | Some k =>
      if negb (k =? 0) && (k <=? Z.of_nat (length all_papers))
      then Some k else None
  | None => None
  end.

(** The [while True] loop of [get_all_papers].  [fuel] bounds the number
    of turns; [sent] is the list of the requests sent so far.  The outcome
    is [None] when the fuel runs out, and else the requests sent together
    with the list returned or the exception raised. *)
Fixpoint get_all_papers_loop (fuel : nat) (query : pyval)
    (max_results : option Z) (sort : string)
    (filter_params : option (list (string * pyval)))
    (optimize_query : option bool)
    (page : Z) (all_papers : list Paper) (sent : list Request)
  : option (list Request * result (list Paper)) :=
  match fuel with
  | O => None
  | S fuel' =>
      match search_params query (Some MAX_PER_PAGE) page sort filter_params
              optimize_query with
      | Raise e => Some (sent, Raise e)
      | Ok params =>
          let sent := sent ++ [params] in
          match transport params with
          | Raise e => Some (sent, Raise e)
          | Ok result =>
              let papers := default [] (resp_results result) in
              match papers with
              | [] => Some (sent, Ok all_papers)
              | _ =>
                  let all_papers := all_papers ++ papers in
                  match cap_reached max_results all_papers with
                  | Some k => Some (sent, Ok (list_slice_upto k all_papers))
                  | None =>
                      let page_count :=
                        default 1 (resp_page_count result) in
                      if page_count <=? page then Some (sent, Ok all_papers)
                      else
                        get_all_papers_loop fuel' query max_results sort
                          filter_params optimize_query (page + 1)
                          all_papers sent
                  end
              end
          end
      end
  end.

Definition get_all_papers (fuel : nat) (query : pyval)
    (max_results : option Z) (sort : string)
    (filter_params : option (list (string * pyval)))
    (optimize_query : option bool)
  : option (list Request * result (list Paper)) :=
  get_all_papers_loop fuel query max_results sort filter_params
    optimize_query 1 [] [].

End WithSession.
End OpenAlexSearch.

(** ** [PaperResearchAgent] *)

Inductive ConversationState : Type :=
| COLLECTING_INFO
| SEARCHING
| COMPLETED.

Global Instance ConversationState_eq_dec : EqDecision ConversationState.
Proof. solve_decision. Defined.

(** The texts of the conversation.  The replies of the agent are fixed
    Japanese sentences with holes; each constructor is one of these sentences
    and carries what fills its holes. *)
Inductive message : Type :=
| UserText (text : string)
| ConfirmSearch (query year_filter max_results : pyval)
| Question (question : option pyval)
| RawQuerySearch (user_input : string)
| PleaseWait
| SearchCompleted.

Record turn : Type := { role : string; content : message }.

(** The two holes of the analysis prompt: the last five turns and the
    latest input. *)
Record AnalysisPrompt : Type := {
  prompt_history : list turn;
  prompt_user_input : string
}.

(** A decoded JSON reply: an object, or something else. *)
Inductive json : Type :=
| JObject (d : gmap string pyval)
| JArray (items : list pyval)
| JScalar (v : pyval).

Module PyJson.

(** [needle in haystack] on strings. *)
Fixpoint contains (haystack needle : string) : bool :=
  String.prefix needle haystack
  || match haystack with
     | EmptyString => false
     | String _ rest => contains rest needle
     end.

(** [key not in reply] *)
Definition not_in (key : string) (reply : json) : result bool :=
  match reply with
  | JObject d => Ok (bool_decide (d !! key = None))
  | JArray items => Ok (bool_decide (PStr key ∉ items))
  | JScalar (PStr s) => Ok (negb (contains s key))
  | JScalar _ => Raise TypeError
  end.

(** [reply[key] = v] *)
Definition setitem (key : string) (v : pyval) (reply : json) : result json :=
  match reply with
  | JObject d => Ok (JObject (<[key := v]> d))
  | _ => Raise TypeError
  end.

(** [if key not in reply: reply[key] = v] *)
Definition backfill (key : string) (v : pyval) (reply : json) : result json :=
  missing <-! not_in key reply ;;
  if missing then setitem key v reply else Ok reply.

(** [analysis.get(key, dflt)] *)
Definition get (analysis : json) (key : string) (dflt : pyval) : result pyval :=
  match analysis with
  | JObject d => Ok (default dflt (d !! key))
  | _ => Raise AttributeError
  end.

(** [analysis.get(key, text)] where the default is a sentence of the agent:
    [None] stands for that sentence. *)
Definition get_or_text (analysis : json) (key : string)
  : result (option pyval) :=
  match analysis with
  | JObject d => Ok (d !! key)
  | _ => Raise AttributeError
  end.

(** The text from after an opening brace: [[^}]+\}] when the first
    character is known not to be a closing brace. *)
Fixpoint upto_closing (s : string) : option string :=
  match s with
  | EmptyString => None
  | String c t =>
      if Ascii.eqb c "}" then Some (String c EmptyString)
      else String c <$> upto_closing t
  end.

(** [re.search(r'\{[^}]+\}', text, re.DOTALL)], the text matched. *)
Fixpoint search_object (text : string) : option string :=
  match text with
  | EmptyString => None
  | String c t =>
      if Ascii.eqb c "{" then
        match t with
        | EmptyString => None
        | String c' _ =>
            if Ascii.eqb c' "}" then search_object t
            else
              match upto_closing t with
              | Some m => Some (String c m)
              | None => search_object t
              end
        end
      else search_object t
  end.

End PyJson.

Module PaperResearchAgent.
Section WithEnvironment.

Context {Paper FormattedPaper : Type}.

(** The attributes of the object that the methods below read or write. *)
Record t : Type := {
  state : ConversationState;
  conversation_history : list turn;
  collected_info : gmap string pyval;
  search_results : list FormattedPaper
}.

Definition set_state (self : t) (s : ConversationState) : t :=
  {| state := s;
     conversation_history := conversation_history self;
     collected_info := collected_info self;
     search_results := search_results self |}.

Definition set_collected_info (self : t) (info : gmap string pyval) : t :=
  {| state := state self;
     conversation_history := conversation_history self;
     collected_info := info;
     search_results := search_results self |}.

Definition set_search_results (self : t) (l : list FormattedPaper) : t :=
  {| state := state self;
     conversation_history := conversation_history self;
     collected_info := collected_info self;
     search_results := l |}.

Definition append_history (self : t) (r : string) (m : message) : t :=
  {| state := state self;
     conversation_history :=
       conversation_history self ++ [{| role := r; content := m |}];
     collected_info := collected_info self;
     search_results := search_results self |}.

(** The dictionary [{"query": q, "year_filter": y, "max_results": m}]. *)
Definition info_dict (q y m : pyval) : gmap string pyval :=
  <["max_results" := m]> (<["year_filter" := y]> (<["query" := q]> ∅)).

Definition default_info : gmap string pyval :=
  info_dict (PStr EmptyString) (PStr EmptyString) (PStr "25").

(** [__init__] *)
Definition init : t :=
  {| state := COLLECTING_INFO;
     conversation_history := [];
     collected_info := default_info;
     search_results := [] |}.

(** [l[-5:]] *)
Definition last_five {A : Type} (l : list A) : list A :=
  drop (length l - 5) l.

Definition _create_analysis_prompt (self : t) (user_input : string)
  : AnalysisPrompt :=
  {| prompt_history := last_five (conversation_history self);
     prompt_user_input := user_input |}.

(** *** The analysis call *)

(** The dictionary returned by the fall-back branches. *)
Definition fallback_analysis : gmap string pyval :=
  <["question" := PStr EmptyString]>
    (<["max_results" := PStr "25"]>
       (<["year_filter" := PStr EmptyString]>
          (<["extracted_query" := PStr EmptyString]>
             (<["sufficient" := PBool true]> ∅)))).

(** [Config] and the libraries: the provider name and the two keys, the
    two completion calls with the text they return, and [json.loads]. *)
Variable LLM_PROVIDER OPENAI_API_KEY ANTHROPIC_API_KEY : string.
Variable openai_chat : AnalysisPrompt -> result string.
Variable anthropic_messages : AnalysisPrompt -> result string.
Variable json_loads : string -> result json.

(** The body of the [try] of [_call_llm_for_analysis]. *)
Definition call_llm_body (prompt : AnalysisPrompt) : result json :=
  reply <-!
    (if String.eqb LLM_PROVIDER "openai" then
       if negb (PyStr.truthy OPENAI_API_KEY) then Raise ValueError
       else
         result_text <-! openai_chat prompt ;;
         json_loads result_text
     else if String.eqb LLM_PROVIDER "anthropic" then
       if negb (PyStr.truthy ANTHROPIC_API_KEY) then Raise ValueError
       else
         result_text <-! anthropic_messages prompt ;;
         match PyJson.search_object result_text with
         | Some json_match => json_loads json_match
         | None => json_loads result_text
         end
     else Ok (JObject fallback_analysis)) ;;
  reply <-! PyJson.backfill "sufficient" (PBool false) reply ;;
  reply <-! PyJson.backfill "extracted_query" (PStr EmptyString) reply ;;
  reply <-! PyJson.backfill "year_filter" (PStr EmptyString) reply ;;
  reply <-! PyJson.backfill "max_results" (PStr "25") reply ;;
  reply <-! PyJson.backfill "question" (PStr EmptyString) reply ;;
  Ok reply.

(** [_call_llm_for_analysis]: both handlers return the fall-back
    dictionary, whatever the exception. *)
Definition _call_llm_for_analysis (prompt : AnalysisPrompt) : result json :=
  match call_llm_body prompt with
  | Ok reply => Ok reply
  | Raise _ => Ok (JObject fallback_analysis)
  end.

(** *** One turn *)

(** [_collect_information], over the method that answers
    [self._call_llm_for_analysis(analysis_prompt)]. *)
Definition _collect_information
    (call_analysis : AnalysisPrompt -> result json)
    (self : t) (user_input : string) : t * (message * bool) :=
  let analysis_prompt := _create_analysis_prompt self user_input in
  let body : result (t * (message * bool)) :=
    analysis <-! call_analysis analysis_prompt ;;
    sufficient <-! PyJson.get analysis "sufficient" (PBool false) ;;
    if PyVal.truthy sufficient then
      query <-! PyJson.get analysis "extracted_query" (PStr user_input) ;;
      year_filter <-! PyJson.get analysis "year_filter" (PStr EmptyString) ;;
      max_results <-! PyJson.get analysis "max_results" (PStr "25") ;;
      Ok (set_collected_info self (info_dict query year_filter max_results),
          (ConfirmSearch query year_filter max_results, true))
    else
      question <-! PyJson.get_or_text analysis "question" ;;
      Ok (self, (Question question, false)) in
  match body with
  | Ok r => r
  | Raise _ =>
      (set_collected_info self
         (info_dict (PStr user_input) (PStr EmptyString) (PStr "25")),
       (RawQuerySearch user_input, true))
  end.

Definition process_user_input
    (call_analysis : AnalysisPrompt -> result json)
    (self : t) (user_input : string) : t * (message * bool) :=
  let self := append_history self "user" (UserText user_input) in
  match state self with
  | COLLECTING_INFO =>
      let '(self, (response, should_search)) :=
        _collect_information call_analysis self user_input in
      let self := append_history self "assistant" response in
      if should_search
      then (set_state self SEARCHING, (response, true))
      else (self, (response, false))
  | SEARCHING => (self, (PleaseWait, false))
  | COMPLETED => (self, (SearchCompleted, false))
  end.

(** *** The search *)

(** [self.search]: an [OpenAlexSearch(auto_optimize_query=False)], with its
    session and the two page sizes of [Config]; and
    [self.search.format_paper_info]. *)
Variable DEFAULT_PER_PAGE MAX_PER_PAGE : Z.
Variable transport : Request -> result (Response Paper).
Variable format_paper_info : Paper -> result FormattedPaper.

Definition default_sort : string := "publication_date:desc".

(** [self.collected_info["query"]] *)
Definition getitem (d : gmap string pyval) (key : string) : result pyval :=
  match d !! key with
  | Some v => Ok v
  | None => Raise KeyError
  end.

(** The body of the [try] of [execute_search], up to the list assigned to
    [self.search_results]. *)
Definition search_attempt (fuel : nat) (self : t)
  : option (result (list FormattedPaper)) :=
  match
    (query <-! getitem (collected_info self) "query" ;;
     let year_filter :=
       default (PStr EmptyString) (collected_info self !! "year_filter") in
     max_results <-!
       PyVal.to_int
         (default (PStr "25") (collected_info self !! "max_results")) ;;
     let filter_params :=
       if PyVal.truthy year_filter
       then Some [("publication_year", year_filter)]
       else None in
     Ok (query, max_results, filter_params))
  with
  | Raise e => Some (Raise e)
  | Ok (query, max_results, filter_params) =>
      let fetched : option (result (list Paper)) :=
        if 200 <? max_results then
          snd <$>
            OpenAlexSearch.get_all_papers DEFAULT_PER_PAGE MAX_PER_PAGE
              transport None fuel query (Some max_results) default_sort
              filter_params None
        else
          Some
            (result <-!
               OpenAlexSearch.search_papers DEFAULT_PER_PAGE MAX_PER_PAGE
                 transport None query (Some (Z.min max_results 200)) 1
                 default_sort filter_params None ;;
             Ok (default [] (resp_results result)))
      in
      match fetched with
      | None => None
      | Some (Raise e) => Some (Raise e)
      | Some (Ok papers) => Some (map_result format_paper_info papers)
      end
  end.

Definition execute_search (fuel : nat) (self : t)
  : option (t * list FormattedPaper) :=
  if bool_decide (state self ≠ SEARCHING) then Some (self, [])
  else
    match search_attempt fuel self with
    | None => None
    | Some (Ok formatted) =>
        Some (set_state (set_search_results self formatted) COMPLETED,
              formatted)
    | Some (Raise _) => Some (set_state self COMPLETED, [])
    end.

(** A number of turns of the loop of [get_all_papers] that is enough for
    the search of [self]: one more than the number of records asked for. *)
Definition search_fuel (self : t) : nat :=
  match PyVal.to_int (default (PStr "25") (collected_info self !! "max_results")) with
  | Ok max_results => S (Z.to_nat max_results)
  | Raise _ => 1%nat
  end.

Definition reset (self : t) : t :=
  {| state := COLLECTING_INFO;
     conversation_history := [];
     collected_info := default_info;
     search_results := [] |}.

End WithEnvironment.

Arguments t FormattedPaper : clear implicits.

End PaperResearchAgent.

(** ** Objects and inputs used by the examples *)

(** A [QueryProcessor] whose completion provider is not available
    ([use_llm] is [False] after the failed initialisation). *)
Definition qp_regex : QueryProcessor.t :=
  {| QueryProcessor.use_llm := false; QueryProcessor.llm_extractor := None |}.

(** A query of 55 characters, 40 of which are leading spaces. *)
Definition padded_query : string :=
  "                                        the transformer".

(** One sentence of 120 characters, with no sentence end in it. *)
Definition long_sentence : string :=
  "transformer neural networks for natural language processing with attention mechanisms and machine translation benchmarks".

(** A transport that serves the pages [pages], numbered from 1: the reply
    to a request for page [i] holds the records of that page, none beyond
    the last page, and the page count it reports does not end the loop
    before the last page. *)
Definition serves {Paper : Type}
    (transport : Request -> result (Response Paper))
    (pages : list (list Paper)) : Prop :=
  forall req, 1 <= req_page req ->
    exists resp,
      transport req = Ok resp
      /\ default [] (resp_results resp) =
           nth (Z.to_nat (req_page req - 1)) pages []
      /\ (req_page req < Z.of_nat (length pages) ->
           req_page req < default 1 (resp_page_count resp)).

(** The transport of a test: it serves [pages] and reports their number. *)
Definition mock_transport {Paper : Type} (pages : list (list Paper))
    (req : Request) : result (Response Paper) :=
  Ok {| resp_results := Some (nth (Z.to_nat (req_page req - 1)) pages []);
        resp_page_count := Some (Z.of_nat (length pages)) |}.

(** Five records on three pages. *)
Definition three_pages : list (list nat) :=
  [[1; 2]; [3; 4]; [5]]%nat.

(** An analysis step that fails on every input. *)
Definition failing_analysis (prompt : AnalysisPrompt) : result json :=
  Raise (OtherException "analysis failed").

(** An agent that waits for the search to be run: 300 records asked for,
    from 2020 on. *)
Definition searching_agent : PaperResearchAgent.t nat :=
  {| PaperResearchAgent.state := SEARCHING;
     PaperResearchAgent.conversation_history :=
       [ {| role := "user"; content := UserText "graph neural networks" |} ];
     PaperResearchAgent.collected_info :=
       PaperResearchAgent.info_dict (PStr "graph neural networks")
         (PStr ">=2020") (PStr "300");
     PaperResearchAgent.search_results := [] |}.

(** The same agent with a result count that [int] rejects. *)
Definition searching_agent_bad_count : PaperResearchAgent.t nat :=
  PaperResearchAgent.set_collected_info searching_agent
    (PaperResearchAgent.info_dict (PStr "graph neural networks")
       (PStr ">=2020") (PStr "many")).

(** An agent whose search is over, with two records kept. *)
Definition completed_agent : PaperResearchAgent.t nat :=
  PaperResearchAgent.set_state
    (PaperResearchAgent.set_search_results searching_agent [1; 2]%nat)
    COMPLETED.

(** A transport that is down. *)
Definition failing_transport (req : Request) : result (Response nat) :=
  Raise RequestException.

(** The projection of a record, for records that are numbers. *)
Definition format_nat (paper : nat) : result nat := Ok paper.

(** A reply of the provider that is a JSON array of the five key names,
    and the decoder on it. *)
Definition array_reply_text : string :=
  "[sufficient, extracted_query, year_filter, max_results, question]".

Definition array_json_loads (text : string) : result json :=
  if String.eqb text array_reply_text
  then Ok (JArray [PStr "sufficient"; PStr "extracted_query";
                   PStr "year_filter"; PStr "max_results"; PStr "question"])
  else Raise JSONDecodeError.

(** The records of the replies to the requests [sent], in the order of the
    requests: what [all_papers.extend(papers)] gathers. *)
Definition fetched {Paper : Type}
    (transport : Request -> result (Response Paper))
    (sent : list Request) : list Paper :=
  concat ((fun req =>
             match transport req with
             | Ok resp => default [] (resp_results resp)
             | Raise _ => []
             end) <$> sent).

(** Every character of the string is one of the letters [a] to [z]. *)
Fixpoint all_az (s : string) : Prop :=
  match s with
  | EmptyString => True
  | String c s' => PyRe.is_az c = true /\ all_az s'
  end.

(** The sentences that [split_long_query] packs: the pieces between the
    sentence ends, trimmed, the empty ones left out. *)
Definition sentences_of (query : string) : list string :=
  filter (fun s => PyStr.truthy s = true)
    (PyStr.strip <$> PyRe.split_sentences false query).

(** The state of the loop of [split_long_query] holds the sentences
    [sentences]: nothing yet, or the sub-queries followed by the current one
    read as the sentences read, with single spaces between them. *)
Definition packed (st : list string * string) (sentences : list string)
  : Prop :=
  (st.2 = EmptyString /\ st.1 = [] /\ sentences = [])
  \/ (st.2 <> EmptyString /\ sentences <> []
      /\ QueryProcessor.join_spaces (st.1 ++ [st.2])
         = QueryProcessor.join_spaces sentences).

(** An analysis that finds the information sufficient: the reply of the
    happy path. *)
Definition happy_reply : gmap string pyval :=
  <["sufficient" := PBool true]>
    (<["extracted_query" := PStr "transformer attention"]>
       (<["year_filter" := PStr ">=2021"]>
          (<["max_results" := PStr "30"]> ∅))).

Definition happy_analysis (prompt : AnalysisPrompt) : result json :=
  Ok (JObject happy_reply).

(** The agent of [searching_agent] asking for 201 records, and two pages
    of 150 records each. *)
Definition searching_agent_201 : PaperResearchAgent.t nat :=
  PaperResearchAgent.set_collected_info searching_agent
    (PaperResearchAgent.info_dict (PStr "graph neural networks")
       (PStr ">=2020") (PStr "201")).

Definition two_full_pages : list (list nat) :=
  [seq 0 150; seq 150 150].


(** * Records of the service and their projection

    A record of the service is decoded JSON, nested: scalars, lists, and
    dicts given by their items in order (the keys of a dict are distinct, so
    a lookup takes the first binding of a key).  Numbers are the integers. *)

#[local] Set Warnings "-register-all".
Inductive jvalue : Type :=
| JVal (v : pyval)
| JList (items : list jvalue)
| JDict (items : list (string * jvalue)).

Module PyObj.

Definition JNone : jvalue := JVal PNone.

(** Truth value: [if v]. *)
Definition truthy (v : jvalue) : bool :=
  match v with
  | JVal v => PyVal.truthy v
  | JList [] => false
  | JList _ => true
  | JDict [] => false
  | JDict _ => true
  end.

Fixpoint lookup (key : string) (items : list (string * jvalue))
  : option jvalue :=
  match items with
  | [] => None
  | (k, v) :: rest => if String.eqb k key then Some v else lookup key rest
  end.

(** [d.get(key, dflt)]: only a dict has [get]. *)
Definition get (d : jvalue) (key : string) (dflt : jvalue) : result jvalue :=
  match d with
  | JDict items => Ok (default dflt (lookup key items))
  | _ => Raise AttributeError
  end.

(** [for x in v]: the elements of a list, the keys of a dict, the
    characters of a string; nothing else is iterable. *)
Definition iter (v : jvalue) : result (list jvalue) :=
  match v with
  | JList items => Ok items
  | JDict items => Ok (map (fun kv => JVal (PStr kv.1)) items)
  | JVal (PStr s) =>
      Ok (map (fun c => JVal (PStr (String c EmptyString)))
            (list_ascii_of_string s))
  | JVal _ => Raise TypeError
  end.

(** [s.replace(old, "")] for a non-empty [old]: the occurrences of [old]
    are taken out from left to right, [skip] being what is left to drop of
    the occurrence found last. *)
Fixpoint remove_from (old : string) (skip : nat) (s : string) : string :=
  match s with
  | EmptyString => EmptyString
  | String c rest =>
      match skip with
      | S skip' => remove_from old skip' rest
      | O =>
          if String.prefix old s
          then remove_from old (Nat.pred (String.length old)) rest
          else String c (remove_from old O rest)
      end
  end.

Definition remove (old s : string) : string := remove_from old O s.

(** [v.replace(old, "")]: only a string has [replace] *)
Definition replace (v : jvalue) (old : string) : result jvalue :=
  match v with
  | JVal (PStr s) => Ok (JVal (PStr (remove old s)))
  | _ => Raise AttributeError
  end.

End PyObj.

(** The dict that [format_paper_info] returns, by its keys. *)
Module PaperInfo.

Record t : Type := mk {
  id : jvalue;
  title : jvalue;
  authors : list jvalue;
  publication_year : jvalue;
  publication_date : jvalue;
  doi : jvalue;
  abstract : jvalue;
  citation_count : jvalue;
  pdf_url : jvalue;
  open_access : jvalue;
  primary_location : jvalue }.

End PaperInfo.

Module OpenAlexFormat.
Import PyObj.

Definition DOI_PREFIX : string := "https://doi.org/".

(** The body of the loop over the authorships. *)
Definition author_name (authorship : jvalue) : result jvalue :=
  author <-! get authorship "author" (JDict []) ;;
  get author "display_name" (JVal (PStr "Unknown")).

Definition format_paper_info (paper : jvalue) : result PaperInfo.t :=
  authorships <-! get paper "authorships" (JList []) ;;
  authorships <-! iter authorships ;;
  authors <-! map_result author_name authorships ;;
  doi <-! get paper "doi" JNone ;;
  doi <-! (if truthy doi then replace doi DOI_PREFIX else Ok doi) ;;
  open_access <-! get paper "open_access" (JDict []) ;;
  is_oa <-! get open_access "is_oa" JNone ;;
  pdf_url <-! (if truthy is_oa then get open_access "oa_url" JNone
               else Ok JNone) ;;
  id <-! get paper "id" JNone ;;
  title <-! get paper "title" (JVal (PStr "No title")) ;;
  publication_year <-! get paper "publication_year" JNone ;;
  publication_date <-! get paper "publication_date" JNone ;;
  abstract <-! get paper "abstract" (JVal (PStr EmptyString)) ;;
  citation_count <-! get paper "cited_by_count" (JVal (PInt 0)) ;;
  is_oa' <-! get open_access "is_oa" (JVal (PBool false)) ;;
  primary_location <-! get paper "primary_location" (JDict []) ;;
  landing_page_url <-! get primary_location "landing_page_url" JNone ;;
  Ok {| PaperInfo.id := id;
        PaperInfo.title := title;
        PaperInfo.authors := authors;
        PaperInfo.publication_year := publication_year;
        PaperInfo.publication_date := publication_date;
        PaperInfo.doi := doi;
        PaperInfo.abstract := abstract;
        PaperInfo.citation_count := citation_count;
        PaperInfo.pdf_url := pdf_url;
        PaperInfo.open_access := is_oa';
        PaperInfo.primary_location := landing_page_url |}.

End OpenAlexFormat.

(** A record as the service sends it, and one whose primary location is
    null. *)
Definition sample_paper : jvalue :=
  JDict
    [ ("id", JVal (PStr "https://openalex.org/W1"));
      ("title", JVal (PStr "Graph neural networks"));
      ("authorships",
       JList [ JDict [("author", JDict [("display_name", JVal (PStr "A. Author"))])];
               JDict [("author", JDict [("id", JVal (PStr "A2"))])];
               JDict [("institutions", JList [])] ]);
      ("publication_year", JVal (PInt 2021));
      ("doi", JVal (PStr "https://doi.org/10.1000/xyz"));
      ("open_access",
       JDict [("is_oa", JVal (PBool true));
              ("oa_url", JVal (PStr "https://example.org/w1.pdf"))]);
      ("cited_by_count", JVal (PInt 12));
      ("primary_location",
       JDict [("landing_page_url", JVal (PStr "https://example.org/w1"))]) ].

Definition paper_without_location : jvalue :=
  JDict
    [ ("id", JVal (PStr "https://openalex.org/W2"));
      ("title", JVal (PStr "A preprint"));
      ("primary_location", JVal PNone) ].

(** The agent of [searching_agent] over formatted records, asking for 25. *)
Definition searching_agent_25 : PaperResearchAgent.t PaperInfo.t :=
  {| PaperResearchAgent.state := SEARCHING;
     PaperResearchAgent.conversation_history := [];
     PaperResearchAgent.collected_info :=
       PaperResearchAgent.info_dict (PStr "graph neural networks")
         (PStr EmptyString) (PStr "25");
     PaperResearchAgent.search_results := [] |}.

(** The shape of a record that [format_paper_info] asks for. *)
Definition is_dict (v : jvalue) : bool :=
  match v with
  | JDict _ => true
  | _ => false
  end.

Definition is_str (v : jvalue) : bool :=
  match v with
  | JVal (PStr _) => true
  | _ => false
  end.

Definition authorship_shape (authorship : jvalue) : bool :=
  match authorship with
  | JDict items => is_dict (default (JDict []) (PyObj.lookup "author" items))
  | _ => false
  end.

Definition paper_shape (paper : jvalue) : bool :=
  match paper with
  | JDict items =>
      match PyObj.iter (default (JList []) (PyObj.lookup "authorships" items))
      with
      | Ok authorships => forallb authorship_shape authorships
      | Raise _ => false
      end
      && (let doi := default PyObj.JNone (PyObj.lookup "doi" items) in
          negb (PyObj.truthy doi) || is_str doi)
      && is_dict (default (JDict []) (PyObj.lookup "open_access" items))
      && is_dict (default (JDict []) (PyObj.lookup "primary_location" items))
  | _ => false
  end.

(** A service with one page of two records, the second without a primary
    location. *)
Definition one_page_transport (req : Request) : result (Response jvalue) :=
  Ok {| resp_results := Some [sample_paper; paper_without_location];
        resp_page_count := Some 1 |}.

(** * The summary of a search and the sessions of the web API *)

Module SearchSummary.
Import PyObj.

(** [sep.join(items)]: every item has to be a string. *)
Fixpoint join (sep : string) (items : list jvalue) : result string :=
  match items with
  | [] => Ok EmptyString
  | item :: rest =>
      match item with
      | JVal (PStr s) =>
          match rest with
          | [] => Ok s
          | _ => joined <-! join sep rest ;; Ok (s +:+ sep +:+ joined)
          end
      | _ => Raise TypeError
      end
  end.

(** What the summary tells of one record: the values put into the text, in
    the order of the text.  [entry_doi] is [None] when the line of the DOI
    is left out. *)
Record Entry : Type := {
  entry_number : Z;
  entry_title : jvalue;
  entry_authors : string;
  entry_more_authors : bool;
  entry_year : jvalue;
  entry_citations : jvalue;
  entry_doi : option jvalue }.

(** The text returned, by its parts: the sentence that there are no
    results, or the count and the entries of the first records. *)
Inductive Summary : Type :=
| NoResults
| Results (count : nat) (top : list Entry).

(** The body of the loop. *)
Definition entry (i : Z) (paper : PaperInfo.t) : result Entry :=
  authors <-! join ", " (take 3 (PaperInfo.authors paper)) ;;
  Ok {| entry_number := i;
        entry_title := PaperInfo.title paper;
        entry_authors := authors;
        entry_more_authors := (3 <? length (PaperInfo.authors paper))%nat;
        entry_year := PaperInfo.publication_year paper;
        entry_citations := PaperInfo.citation_count paper;
        entry_doi := if truthy (PaperInfo.doi paper)
                     then Some (PaperInfo.doi paper) else None |}.

(** [for i, paper in enumerate(papers, i)] *)
Fixpoint entries (i : Z) (papers : list PaperInfo.t) : result (list Entry) :=
  match papers with
  | [] => Ok []
  | paper :: rest =>
      e <-! entry i paper ;;
      es <-! entries (i + 1) rest ;;
      Ok (e :: es)
  end.

Definition get_search_summary (self : PaperResearchAgent.t PaperInfo.t)
  : result Summary :=
  match PaperResearchAgent.search_results self with
  | [] => Ok NoResults
  | results =>
      top <-! entries 1 (take 5 results) ;;
      Ok (Results (length results) top)
  end.

End SearchSummary.

Module App.

(** How a handler ends: with its reply, with an [HTTPException] of its own,
    or with an exception it does not handle. *)
Inductive outcome (A : Type) : Type :=
| Reply (a : A)
| HTTPException (status_code : Z)
| Unhandled (e : exn).

Arguments Reply {A} a.
Arguments HTTPException {A} status_code.
Arguments Unhandled {A} e.

(** The agents of the sessions keep formatted records. *)
Abbreviation agent := (PaperResearchAgent.t PaperInfo.t).

Record ChatReply : Type := {
  chat_session_id : string;
  chat_response : message;
  chat_should_search : bool;
  chat_collected_info : option (gmap string pyval) }.

Record SearchReply : Type := {
  search_session_id : string;
  search_results : list PaperInfo.t;
  search_summary : SearchSummary.Summary;
  search_count : nat }.

Section WithEnvironment.

(** The construction of the keyword extractor in [PaperResearchAgent()],
    which raises when the provider configured is not supported or has no
    key; the analysis call of the agents; the search object of the agents. *)
Variable new_llm_extractor : result unit.
Variable call_analysis : AnalysisPrompt -> result json.
Variable DEFAULT_PER_PAGE MAX_PER_PAGE : Z.
Variable transport : Request -> result (Response jvalue).

(** [PaperResearchAgent()] *)
Definition new_agent : result agent :=
  _ <-! new_llm_extractor ;;
  Ok PaperResearchAgent.init.

(** [not request.session_id or request.session_id not in sessions] *)
Definition is_new (sessions : gmap string agent) (session_id : option string)
  : bool :=
  match session_id with
  | None => true
  | Some id => negb (PyStr.truthy id) || bool_decide (sessions !! id = None)
  end.

(** [chat]; [uuid4] is the identifier that [str(uuid.uuid4())] draws. *)
Definition chat (uuid4 : string) (sessions : gmap string agent)
    (session_id : option string) (message : string)
  : gmap string agent * outcome ChatReply :=
  match
    (if is_new sessions session_id
     then a <-! new_agent ;; Ok (uuid4, a)
     else
       match session_id ≫= (fun id => pair id <$> sessions !! id) with
       | Some found => Ok found
       | None => Raise KeyError
       end)
  with
  | Raise e => (sessions, Unhandled e)
  | Ok (session_id, a) =>
      let '(a, (response, should_search)) :=
        PaperResearchAgent.process_user_input call_analysis a message in
      (<[session_id := a]> sessions,
       Reply {| chat_session_id := session_id;
                chat_response := response;
                chat_should_search := should_search;
                chat_collected_info :=
                  if should_search
                  then Some (PaperResearchAgent.collected_info a)
                  else None |})
  end.

Definition search (fuel : nat) (sessions : gmap string agent)
    (session_id : string)
  : option (gmap string agent * outcome SearchReply) :=
  match sessions !! session_id with
  | None => Some (sessions, HTTPException 404)
  | Some a =>
      match
        PaperResearchAgent.execute_search DEFAULT_PER_PAGE MAX_PER_PAGE
          transport OpenAlexFormat.format_paper_info fuel a
      with
      | None => None
      | Some (a, results) =>
          let sessions := <[session_id := a]> sessions in
          match SearchSummary.get_search_summary a with
          | Raise _ => Some (sessions, HTTPException 500)
          | Ok summary =>
              Some (sessions,
                    Reply {| search_session_id := session_id;
                             search_results := results;
                             search_summary := summary;
                             search_count := length results |})
          end
      end
  end.

Definition reset_session (sessions : gmap string agent) (session_id : string)
  : gmap string agent * outcome string :=
  match sessions !! session_id with
  | None => (sessions, HTTPException 404)
  | Some a =>
      (<[session_id := PaperResearchAgent.reset a]> sessions,
       Reply session_id)
  end.

End WithEnvironment.

End App.

(** A record whose only author has no name, and a service with one page
    holding it. *)
Definition paper_with_unnamed_author : jvalue :=
  JDict
    [ ("id", JVal (PStr "https://openalex.org/W3"));
      ("title", JVal (PStr "Anonymous"));
      ("authorships",
       JList [ JDict [("author", JDict [("display_name", JVal PNone)])] ]) ].

Definition unnamed_author_transport (req : Request)
  : result (Response jvalue) :=
  Ok {| resp_results := Some [paper_with_unnamed_author];
        resp_page_count := Some 1 |}.

Definition sample_transport (req : Request) : result (Response jvalue) :=
  Ok {| resp_results := Some [sample_paper];
        resp_page_count := Some 1 |}.

(** One session, waiting for its search. *)
Definition one_session : gmap string App.agent :=
  {[ "s1" := searching_agent_25 ]}.

(** The records whose first three authors are all strings, and the
    others. *)
Definition named (paper : PaperInfo.t) : Prop :=
  Forall (fun name => is_str name = true) (take 3 (PaperInfo.authors paper)).

Definition unnamed (paper : PaperInfo.t) : Prop :=
  Exists (fun name => is_str name = false) (take 3 (PaperInfo.authors paper)).

(** The projections of [sample_paper] and [paper_with_unnamed_author], the
    summary of the first, and the sessions after their searches. *)
Definition sample_info : PaperInfo.t :=
  {| PaperInfo.id := JVal (PStr "https://openalex.org/W1");
     PaperInfo.title := JVal (PStr "Graph neural networks");
     PaperInfo.authors :=
       [JVal (PStr "A. Author"); JVal (PStr "Unknown"); JVal (PStr "Unknown")];
     PaperInfo.publication_year := JVal (PInt 2021);
     PaperInfo.publication_date := PyObj.JNone;
     PaperInfo.doi := JVal (PStr "10.1000/xyz");
     PaperInfo.abstract := JVal (PStr EmptyString);
     PaperInfo.citation_count := JVal (PInt 12);
     PaperInfo.pdf_url := JVal (PStr "https://example.org/w1.pdf");
     PaperInfo.open_access := JVal (PBool true);
     PaperInfo.primary_location := JVal (PStr "https://example.org/w1") |}.

Definition sample_summary : SearchSummary.Summary :=
  SearchSummary.Results 1
    [ {| SearchSummary.entry_number := 1;
         SearchSummary.entry_title := JVal (PStr "Graph neural networks");
         SearchSummary.entry_authors := "A. Author, Unknown, Unknown";
         SearchSummary.entry_more_authors := false;
         SearchSummary.entry_year := JVal (PInt 2021);
         SearchSummary.entry_citations := JVal (PInt 12);
         SearchSummary.entry_doi := Some (JVal (PStr "10.1000/xyz")) |} ].

Definition unnamed_info : PaperInfo.t :=
  {| PaperInfo.id := JVal (PStr "https://openalex.org/W3");
     PaperInfo.title := JVal (PStr "Anonymous");
     PaperInfo.authors := [PyObj.JNone];
     PaperInfo.publication_year := PyObj.JNone;
     PaperInfo.publication_date := PyObj.JNone;
     PaperInfo.doi := PyObj.JNone;
     PaperInfo.abstract := JVal (PStr EmptyString);
     PaperInfo.citation_count := JVal (PInt 0);
     PaperInfo.pdf_url := PyObj.JNone;
     PaperInfo.open_access := JVal (PBool false);
     PaperInfo.primary_location := PyObj.JNone |}.

Definition one_session_after (results : list PaperInfo.t)
  : gmap string App.agent :=
  <["s1" := PaperResearchAgent.set_state
              (PaperResearchAgent.set_search_results searching_agent_25
                 results)
              COMPLETED]> one_session.

(** * Properties *)

(** ** Strings *)

Module PyStrFacts.
Import PyStr.

Lemma lstrip_no_leading_space s : no_leading_space (lstrip s).
Proof.
  induction s as [|c s IH]; simpl; [exact I|].
  destruct (isspace c) eqn:Hc; [exact IH|]. exact Hc.
Qed.

Lemma lstrip_id s : no_leading_space s -> lstrip s = s.
Proof. destruct s as [|c s]; simpl; [reflexivity|]. intros ->. reflexivity. Qed.

Lemma rstrip_no_leading_space s :
  no_leading_space s -> no_leading_space (rstrip s).
Proof.
  destruct s as [|c s]; simpl; [exact id|]. intros Hc.
  destruct (rstrip s); [rewrite Hc|]; exact Hc.
Qed.

Lemma rstrip_idem s : rstrip (rstrip s) = rstrip s.
Proof.
  induction s as [|c s IH]; simpl; [reflexivity|].
  destruct (rstrip s) as [|d r] eqn:Hr.
  - destruct (isspace c) eqn:Hc; simpl; [reflexivity|]. rewrite Hc. reflexivity.
  - simpl in IH |- *. rewrite IH. reflexivity.
Qed.

Lemma strip_idem s : strip (strip s) = strip s.
Proof.
  unfold strip.
  rewrite (lstrip_id (rstrip (lstrip s))).
  - apply rstrip_idem.
  - apply rstrip_no_leading_space, lstrip_no_leading_space.
Qed.

(** A string without trailing white space keeps none when its first
    character is removed. *)
Lemma rstrip_tail c s : rstrip (String c s) = String c s -> rstrip s = s.
Proof.
  simpl. destruct (rstrip s) as [|d r] eqn:Hr.
  - destruct (isspace c); intros H; [discriminate|].
    injection H as <-. reflexivity.
  - intros H. injection H as <-. reflexivity.
Qed.

Lemma rstrip_lstrip_fixed s : rstrip s = s -> rstrip (lstrip s) = lstrip s.
Proof.
  induction s as [|c s IH]; simpl lstrip; [exact id|]. intros H.
  destruct (isspace c); [|exact H].
  apply IH. exact (rstrip_tail _ _ H).
Qed.

Lemma strip_fixed_lstrip s : strip s = s -> lstrip s = s.
Proof.
  intros H. apply lstrip_id. rewrite <- H.
  apply rstrip_no_leading_space, lstrip_no_leading_space.
Qed.

Lemma strip_fixed_rstrip s : strip s = s -> rstrip s = s.
Proof. intros H. rewrite <- H at 1. unfold strip. rewrite rstrip_idem. exact H. Qed.

(** The rest of a trimmed string, after [n] characters, is trimmed by
    removing its leading white space. *)
Lemma strip_rest c s : strip (String c s) = String c s -> strip s = lstrip s.
Proof.
  intros H. apply strip_fixed_rstrip in H. apply rstrip_tail in H.
  unfold strip. apply rstrip_lstrip_fixed. exact H.
Qed.

Lemma strip_rest2 c d s :
  strip (String c (String d s)) = String c (String d s) -> strip s = lstrip s.
Proof.
  intros H. apply strip_fixed_rstrip in H. do 2 apply rstrip_tail in H.
  unfold strip. apply rstrip_lstrip_fixed. exact H.
Qed.

(** [int(s)] raises nothing but [ValueError]. *)
Lemma to_int_cases s : (exists z, to_int s = Ok z) \/ to_int s = Raise ValueError.
Proof.
  unfold to_int.
  match goal with |- context [match ?p with Some _ => _ | None => _ end] =>
    destruct p as [z|] end; [left; exists z|right]; reflexivity.
Qed.

(** [int] trims its argument itself. *)
Lemma to_int_strip s : to_int (strip s) = to_int s.
Proof. unfold to_int. rewrite strip_idem. reflexivity. Qed.

(** *** Decimal numerals *)

Lemma strip_no_space s : no_space s -> strip s = s.
Proof.
  intros Hs. unfold strip.
  assert (Hr : forall t, no_space t -> rstrip t = t).
  { induction t as [|c t IH]; simpl; [reflexivity|]. intros [Hc Ht].
    rewrite (IH Ht). destruct t; [rewrite Hc|]; reflexivity. }
  rewrite lstrip_id; [apply Hr, Hs|].
  destruct s; simpl in *; [exact I|apply Hs].
Qed.

Lemma no_space_uint d : no_space (NilEmpty.string_of_uint d).
Proof. induction d; simpl; auto. Qed.

(** The digits printed for [d] are read back as the number they write. *)
Lemma parse_digits_uint d : forall acc after_digit,
  parse_digits acc after_digit (NilEmpty.string_of_uint d) =
    match d with
    | Decimal.Nil => if after_digit then Some acc else None
    | _ => Some (uint_value acc d)
    end.
Proof.
  induction d; intros acc after_digit; [reflexivity|..];
    cbn [NilEmpty.string_of_uint parse_digits uint_value];
    match goal with
    | |- context [digit_value ?c] =>
        change (digit_value c) with (Some (Z.of_nat (nat_of_ascii c) - 48))
    end;
    cbv beta iota; rewrite IHd;
    match goal with
    | |- context [Z.of_nat ?n - 48] =>
        let v := eval vm_compute in (Z.of_nat n - 48) in
        change (Z.of_nat n - 48) with v
    end;
    rewrite ?Z.add_0_r; destruct d; reflexivity.
Qed.

Lemma uint_value_pos d : forall acc,
  uint_value (Zpos acc) d = Zpos (Pos.of_uint_acc d acc).
Proof.
  induction d; intros acc; cbn [uint_value Pos.of_uint_acc]; [reflexivity|..];
    rewrite <- IHd; f_equal; lia.
Qed.

Lemma uint_value_zero d : uint_value 0 d = Z.of_N (Pos.of_uint d).
Proof.
  induction d; cbn [uint_value Pos.of_uint]; [reflexivity|exact IHd|..];
    apply (uint_value_pos d).
Qed.

Lemma parse_digits_to_uint p :
  parse_digits 0 false (NilEmpty.string_of_uint (Pos.to_uint p)) = Some (Zpos p).
Proof.
  rewrite parse_digits_uint.
  pose proof (DecimalPos.Unsigned.to_uint_nonnil p) as Hnil.
  pose proof (DecimalPos.Unsigned.of_to p) as Hback.
  destruct (Pos.to_uint p) eqn:Hd; [done|..];
    rewrite uint_value_zero, Hback; reflexivity.
Qed.

(** What [str] prints for a positive number: its digits, the first of which
    is not a sign. *)
Lemma of_int_pos p :
  of_int (Zpos p) = NilEmpty.string_of_uint (Pos.to_uint p)
  /\ match of_int (Zpos p) with
     | EmptyString => False
     | String c _ => c <> "+"%char /\ c <> "-"%char /\ c <> "="%char
     end.
Proof.
  unfold of_int. cbn [Z.to_int NilZero.string_of_int NilZero.string_of_uint].
  pose proof (DecimalPos.Unsigned.to_uint_nonnil p) as Hnil.
  destruct (Pos.to_uint p); [done|..]; (split; [reflexivity|]);
    cbn [NilEmpty.string_of_uint]; repeat split; discriminate.
Qed.

Lemma of_int_no_space z : no_space (of_int z).
Proof.
  destruct z as [|p|p].
  - vm_compute. auto.
  - rewrite (proj1 (of_int_pos p)). apply no_space_uint.
  - unfold of_int. cbn [Z.to_int NilZero.string_of_int].
    split; [reflexivity|].
    change (NilZero.string_of_uint (Pos.to_uint p)) with (of_int (Zpos p)).
    rewrite (proj1 (of_int_pos p)). apply no_space_uint.
Qed.

Lemma of_int_lstrip z : lstrip (of_int z) = of_int z.
Proof.
  apply lstrip_id. pose proof (of_int_no_space z) as H.
  destruct (of_int z); simpl in *; [exact I|apply H].
Qed.

Lemma of_int_not_equals_sign z : startswith (of_int z) "=" = false.
Proof.
  destruct z as [|p|p]; [reflexivity| |reflexivity].
  destruct (of_int_pos p) as [_ Hfirst].
  destruct (of_int (Zpos p)) as [|c r]; [done|].
  destruct Hfirst as (_ & _ & Heq).
  unfold startswith. cbn [String.prefix].
  destruct (ascii_dec "=" c); [congruence|reflexivity].
Qed.

(** [int(str(z)) = z] *)
Lemma to_int_of_int z : to_int (of_int z) = Ok z.
Proof.
  unfold to_int. rewrite (strip_no_space _ (of_int_no_space z)).
  destruct z as [|p|p].
  - reflexivity.
  - destruct (of_int_pos p) as [Hdigits Hfirst].
    assert (Hparse : parse_digits 0 false (of_int (Zpos p)) = Some (Zpos p))
      by (rewrite Hdigits; apply parse_digits_to_uint).
    destruct (of_int (Zpos p)) as [|c r]; [done|].
    destruct Hfirst as (Hplus & Hminus & _).
    replace (match String c r with
             | String "+" r0 => parse_digits 0 false r0
             | String "-" r0 => Z.opp <$> parse_digits 0 false r0
             | r0 => parse_digits 0 false r0
             end) with (parse_digits 0 false (String c r)).
    + rewrite Hparse. reflexivity.
    + destruct c as [[] [] [] [] [] [] [] []]; try reflexivity; congruence.
  - unfold of_int. cbn [Z.to_int NilZero.string_of_int].
    change (NilZero.string_of_uint (Pos.to_uint p)) with (of_int (Zpos p)).
    rewrite (proj1 (of_int_pos p)), parse_digits_to_uint. reflexivity.
Qed.

End PyStrFacts.

(** ** Year-filter normaliser *)

Section ConvertFilterValue.
Import PyStr PyStrFacts.

(** The normaliser never raises: [int] raises [ValueError] only, which the
    two handlers catch. *)
Lemma convert_filter_value_total value :
  exists r, _convert_filter_value value = Ok r.
Proof.
  unfold _convert_filter_value. cbv zeta.
  destruct (startswith _ ">="); [eauto|].
  destruct (startswith _ "<="); [eauto|].
  destruct (startswith _ ">").
  { destruct (to_int_cases (strip (slice_from 1 (strip value)))) as [[z ->]| ->];
      simpl; eauto. }
  destruct (startswith _ "<"); [|eauto].
  destruct (to_int_cases (strip (slice_from 1 (strip value)))) as [[z ->]| ->];
    simpl; eauto.
Qed.

Lemma prefix_empty s : String.prefix EmptyString s = true.
Proof. destruct s; reflexivity. Qed.

Lemma startswith_2 a b s c d :
  startswith (String a (String b s)) (String c (String d EmptyString)) =
    bool_decide (a = c /\ b = d).
Proof.
  unfold startswith. cbn [String.prefix]. rewrite prefix_empty.
  destruct (ascii_dec c a), (ascii_dec d b); subst; symmetry;
    first [ apply bool_decide_eq_true_2; done
          | apply bool_decide_eq_false_2; intros [? ?]; congruence ].
Qed.

Lemma startswith_1 a s c :
  startswith (String a s) (String c EmptyString) = bool_decide (a = c).
Proof.
  unfold startswith. cbn [String.prefix]. rewrite prefix_empty.
  destruct (ascii_dec c a); subst; symmetry;
    first [ apply bool_decide_eq_true_2; done
          | apply bool_decide_eq_false_2; congruence ].
Qed.

(** [">=Y"] on a trimmed input. *)
Lemma convert_ge_trimmed Y :
  strip (">=" +:+ Y) = ">=" +:+ Y ->
  _convert_filter_value (">=" +:+ Y) = Ok (lstrip Y +:+ "-").
Proof.
  change (">=" +:+ Y) with (String ">" (String "=" Y)). intros Hv.
  unfold _convert_filter_value. cbv zeta. rewrite Hv.
  rewrite startswith_2. rewrite bool_decide_eq_true_2 by done.
  simpl slice_from. rewrite (strip_rest2 _ _ _ Hv). reflexivity.
Qed.

(** ["<=Y"] on a trimmed input. *)
Lemma convert_le_trimmed Y :
  strip ("<=" +:+ Y) = "<=" +:+ Y ->
  _convert_filter_value ("<=" +:+ Y) = Ok ("-" +:+ lstrip Y).
Proof.
  change ("<=" +:+ Y) with (String "<" (String "=" Y)). intros Hv.
  unfold _convert_filter_value. cbv zeta. rewrite Hv.
  rewrite !startswith_2.
  rewrite bool_decide_eq_false_2 by (intros [? _]; discriminate).
  rewrite bool_decide_eq_true_2 by done.
  simpl slice_from. rewrite (strip_rest2 _ _ _ Hv). reflexivity.
Qed.

(** The two strict comparisons, on a trimmed input: the branch taken and
    what it computes. *)
Lemma convert_gt_trimmed Y :
  strip (">" +:+ Y) = ">" +:+ Y -> startswith Y "=" = false ->
  _convert_filter_value (">" +:+ Y) =
    except_ValueError
      (year_int <-! to_int Y ;; Ok (of_int (year_int + 1) +:+ "-"))
      (Ok (">" +:+ Y)).
Proof.
  change (">" +:+ Y) with (String ">" Y). intros Hv HY.
  unfold _convert_filter_value. cbv zeta. rewrite Hv.
  assert (Hge : startswith (String ">" Y) ">=" = false).
  { destruct Y as [|c Y]; [reflexivity|]. rewrite startswith_2.
    rewrite startswith_1 in HY. apply bool_decide_eq_false in HY.
    apply bool_decide_eq_false. intros [_ ?]. contradiction. }
  assert (Hle : startswith (String ">" Y) "<=" = false).
  { destruct Y as [|c Y]; [reflexivity|]. rewrite startswith_2.
    apply bool_decide_eq_false. intros [? _]. discriminate. }
  rewrite Hge, Hle. rewrite startswith_1. rewrite bool_decide_eq_true_2 by done.
  simpl slice_from. rewrite to_int_strip. reflexivity.
Qed.

Lemma convert_lt_trimmed Y :
  strip ("<" +:+ Y) = "<" +:+ Y -> startswith Y "=" = false ->
  _convert_filter_value ("<" +:+ Y) =
    except_ValueError
      (year_int <-! to_int Y ;; Ok ("-" +:+ of_int (year_int - 1)))
      (Ok ("<" +:+ Y)).
Proof.
  change ("<" +:+ Y) with (String "<" Y). intros Hv HY.
  unfold _convert_filter_value. cbv zeta. rewrite Hv.
  assert (Hge : startswith (String "<" Y) ">=" = false).
  { destruct Y as [|c Y]; [reflexivity|]. rewrite startswith_2.
    apply bool_decide_eq_false. intros [? _]. discriminate. }
  assert (Hle : startswith (String "<" Y) "<=" = false).
  { destruct Y as [|c Y]; [reflexivity|]. rewrite startswith_2.
    rewrite startswith_1 in HY. apply bool_decide_eq_false in HY.
    apply bool_decide_eq_false. intros [_ ?]. contradiction. }
  rewrite Hge, Hle. rewrite !startswith_1.
  rewrite bool_decide_eq_false_2 by discriminate.
  rewrite bool_decide_eq_true_2 by done.
  simpl slice_from. rewrite to_int_strip. reflexivity.
Qed.

Lemma startswith_longer s c d :
  startswith s (String c EmptyString) = false ->
  startswith s (String c (String d EmptyString)) = false.
Proof.
  unfold startswith. destruct s as [|a s]; [reflexivity|].
  cbn [String.prefix]. rewrite prefix_empty.
  destruct (ascii_dec c a); [discriminate|reflexivity].
Qed.

(** No comparison sign in front: the trimmed input is returned. *)
Lemma convert_other_trimmed value :
  strip value = value ->
  startswith value ">" = false -> startswith value "<" = false ->
  _convert_filter_value value = Ok value.
Proof.
  intros Hv Hgt Hlt. unfold _convert_filter_value. cbv zeta. rewrite Hv.
  rewrite (startswith_longer _ _ "=" Hgt), (startswith_longer _ _ "=" Hlt).
  rewrite Hgt, Hlt. reflexivity.
Qed.

Example convert_scenarios :
  _convert_filter_value "<=2018" = Ok "-2018"
  /\ _convert_filter_value ">2019" = Ok "2020-"
  /\ _convert_filter_value ">=2020" = Ok "2020-"
  /\ _convert_filter_value "<2020" = Ok "-2019"
  /\ _convert_filter_value "2020-2023" = Ok "2020-2023"
  /\ _convert_filter_value ">recent" = Ok ">recent"
  /\ _convert_filter_value "> 2_019" = Ok "2020-"
  /\ _convert_filter_value "<0" = Ok "--1".
Proof. repeat split; reflexivity. Qed.

(** The four comparisons in front of a number in decimal notation. *)
Lemma convert_filter_value_numerals (y : Z) :
  _convert_filter_value (">=" +:+ of_int y) = Ok (of_int y +:+ "-")
  /\ _convert_filter_value ("<=" +:+ of_int y) = Ok ("-" +:+ of_int y)
  /\ _convert_filter_value (">" +:+ of_int y) = Ok (of_int (y + 1) +:+ "-")
  /\ _convert_filter_value ("<" +:+ of_int y) = Ok ("-" +:+ of_int (y - 1)).
Proof.
  pose proof (of_int_no_space y) as Hy.
  assert (Htrim : forall sign : string, no_space sign ->
            strip (sign +:+ of_int y) = sign +:+ of_int y).
  { intros sign Hsign. apply strip_no_space.
    induction sign as [|c sign IH]; [exact Hy|].
    destruct Hsign as [Hc Hsign]. split; [exact Hc|apply IH, Hsign]. }
  assert (H2 : forall a b : ascii, isspace a = false -> isspace b = false ->
            no_space (String a (String b EmptyString))) by (intros; repeat split; assumption).
  assert (H1 : forall a : ascii, isspace a = false ->
            no_space (String a EmptyString)) by (intros; repeat split; assumption).
  split; [|split; [|split]].
  - rewrite convert_ge_trimmed by (apply Htrim, H2; reflexivity).
    rewrite of_int_lstrip. reflexivity.
  - rewrite convert_le_trimmed by (apply Htrim, H2; reflexivity).
    rewrite of_int_lstrip. reflexivity.
  - rewrite convert_gt_trimmed
      by first [apply Htrim, H1; reflexivity | apply of_int_not_equals_sign].
    rewrite to_int_of_int. reflexivity.
  - rewrite convert_lt_trimmed
      by first [apply Htrim, H1; reflexivity | apply of_int_not_equals_sign].
    rewrite to_int_of_int. reflexivity.
Qed.




End ConvertFilterValue.


(** ** Query optimiser *)

Section OptimizeQuery.
Import QueryProcessor.

Example optimize_query_examples :
  optimize_query qp_regex "  deep learning  " "original" 10 = "deep learning"
  /\ optimize_query qp_regex "  deep learning  " "auto" 10 = "deep learning"
  /\ optimize_query qp_regex "the attention mechanism of the transformer"
       "keywords" 10 = "attention mechanism transformer"
  /\ PyStr.len padded_query = 55
  /\ PyStr.len (PyStr.strip padded_query) = 15
  /\ optimize_query qp_regex padded_query "auto" 10 = "transformer"
  /\ optimize_query qp_regex padded_query "keywords" 10 = "transformer"
  /\ optimize_query qp_regex padded_query "original" 10 = "the transformer".
Proof. repeat split; vm_compute; reflexivity. Qed.

(** C4, as the code has it: with method ["auto"] the length compared with 50
    is that of the query as given, white space at its ends included.  Above
    50 the call is the one of ["keywords"], and else the one of ["original"],
    which returns the trimmed query. *)
Theorem optimize_query_auto (self : t) (query : string) (max_keywords : Z) :
  optimize_query self query "auto" max_keywords =
    (if 50 <? PyStr.len query
     then optimize_query self query "keywords" max_keywords
     else optimize_query self query "original" max_keywords)
  /\ optimize_query self query "original" max_keywords = PyStr.strip query.
Proof.
  split; [|reflexivity].
  unfold optimize_query. simpl. destruct (50 <? PyStr.len query); reflexivity.
Qed.

(** C4, as it is worded, fails on a query that is longer than 50 characters
    only by the white space around it: [padded_query] has 55 characters, 15
    when trimmed, and ["auto"] extracts its keywords where ["original"]
    returns it trimmed. *)
Lemma optimize_query_auto_trimmed_counterexample :
  ~ (forall (self : t) (query : string) (max_keywords : Z),
       (50 < PyStr.len (PyStr.strip query) ->
        optimize_query self query "auto" max_keywords =
          optimize_query self query "keywords" max_keywords)
       /\ (PyStr.len (PyStr.strip query) <= 50 ->
           optimize_query self query "auto" max_keywords =
             optimize_query self query "original" max_keywords
           /\ optimize_query self query "auto" max_keywords =
               PyStr.strip query)).
Proof.
  intros H. destruct (H qp_regex padded_query 10) as [_ Hshort].
  assert (Hlen : PyStr.len (PyStr.strip padded_query) <= 50)
    by (vm_compute; discriminate).
  destruct (Hshort Hlen) as [Heq _]. vm_compute in Heq. discriminate Heq.
Qed.

(** C10: a method that is neither ["original"] nor ["keywords"] is treated
    as ["auto"]. *)
Theorem optimize_query_unknown_method (self : t) (query method : string)
    (max_keywords : Z) :
  method <> "original" -> method <> "keywords" ->
  optimize_query self query method max_keywords =
    optimize_query self query "auto" max_keywords.
Proof.
  intros Horig Hkw. unfold optimize_query.
  apply String.eqb_neq in Horig, Hkw. rewrite Horig, Hkw. reflexivity.
Qed.

Lemma optimize_query_unknown_method_witness :
  optimize_query qp_regex padded_query "AUTO" 10 =
    optimize_query qp_regex padded_query "auto" 10
  /\ optimize_query qp_regex padded_query EmptyString 10 =
      optimize_query qp_regex padded_query "auto" 10.
Proof.
  split; apply optimize_query_unknown_method; discriminate.
Defined.

End OptimizeQuery.

(** ** Splitting a long query *)

Section SplitLongQuery.
Import QueryProcessor.

Example split_long_query_examples :
  split_long_query "Deep nets. Graph nets! ok?  yes" 12 =
    ["Deep nets"; "Graph nets"; "ok yes"]
  /\ split_long_query "short query" 100 = ["short query"]
  /\ split_long_query "......" 5 = ["....."]
  /\ split_long_query "aaaaaaaaaaaa" 5 = ["aaaaaaaaaaaa"].
Proof. repeat split; vm_compute; reflexivity. Qed.

(** A query that fits is returned alone and unchanged. *)
Lemma split_long_query_short (query : string) (max_length : Z) :
  PyStr.len query <= max_length -> split_long_query query max_length = [query].
Proof.
  intros H. unfold split_long_query.
  apply Z.leb_le in H. rewrite H. reflexivity.
Qed.

(** C3 fails on the code: a sentence longer than [max_length] is never cut.
    [long_sentence] has 120 characters and no sentence end; with the default
    bound of 100 the only sub-query returned is the whole sentence, which is
    neither within the bound nor cut down to 100 characters. *)
Theorem split_long_query_overlong_sentence :
  PyStr.len long_sentence = 120
  /\ split_long_query long_sentence 100 = [long_sentence]
  /\ split_long_query long_sentence 100 <> [PyStr.slice_upto 100 long_sentence]
  /\ ~ Forall (fun sub_query => PyStr.len sub_query <= 100)
        (split_long_query long_sentence 100).
Proof.
  assert (Hrun : split_long_query long_sentence 100 = [long_sentence])
    by (vm_compute; reflexivity).
  split; [vm_compute; reflexivity|].
  split; [exact Hrun|].
  split.
  - rewrite Hrun. vm_compute. discriminate.
  - rewrite Hrun. intros H. apply Forall_inv in H. vm_compute in H.
    apply H. reflexivity.
Qed.

End SplitLongQuery.

(** ** Paginated retrieval *)

Section Pagination.
Import OpenAlexSearch.

Context {Paper : Type}.
Variable DEFAULT_PER_PAGE MAX_PER_PAGE : Z.
Variable transport : Request -> result (Response Paper).
Variable query_processor : option QueryProcessor.t.

Local Abbreviation params_of :=
  (search_params DEFAULT_PER_PAGE MAX_PER_PAGE query_processor).
Local Abbreviation loop :=
  (get_all_papers_loop DEFAULT_PER_PAGE MAX_PER_PAGE transport query_processor).

(** The request carries the page number it was built for. *)
Lemma search_params_page query per_page page sort filter_params optimize req :
  params_of query per_page page sort filter_params optimize = Ok req ->
  req_page req = page.
Proof.
  unfold search_params, bind.
  repeat match goal with
         | |- context [match ?x with _ => _ end] => destruct x
         end;
    intros H; try discriminate H; injection H as <-; reflexivity.
Qed.

Lemma map_result_ok {A B : Type} (f : A -> result B) (l : list A) :
  (forall x, x ∈ l -> exists y, f x = Ok y) ->
  exists ys, map_result f l = Ok ys.
Proof.
  induction l as [|x l IH]; intros Hf; simpl; [eauto|].
  destruct (Hf x) as [y ->]; [left|]. simpl.
  destruct IH as [ys ->]; [intros z Hz; apply Hf; right; exact Hz|].
  simpl. eauto.
Qed.

Lemma filter_strings_ok (items : list (string * string)) :
  exists ys,
    map_result
      (fun kv : string * pyval =>
         converted_value <-! convert_filter_pyval kv.2 ;;
         Ok (kv.1 +:+ ":" +:+ converted_value))
      (prod_map id PStr <$> items) = Ok ys.
Proof.
  apply map_result_ok. intros x Hx.
  apply list_elem_of_fmap in Hx as [[k v] [-> _]]. simpl.
  destruct (convert_filter_value_total v) as [r ->]. simpl. eauto.
Qed.

(** With a string for the query and strings for the filter values, as the
    signature of [search_papers] has them, building the request raises
    nothing. *)
Lemma search_params_ok (query : string) per_page page sort
    (filter_params : option (list (string * string))) optimize :
  exists req,
    params_of (PStr query) per_page page sort
      (fmap (M := list) (prod_map id PStr) <$> filter_params) optimize = Ok req.
Proof.
  unfold search_params.
  destruct (match optimize with
            | Some b => b
            | None => bool_decide (is_Some query_processor)
            end), query_processor as [qp|]; cbn [optimize_pyval bind].
  all: destruct filter_params as [items|]; cbn [fmap option_fmap option_map bind];
    [|eauto].
  all: destruct (filter_strings_ok items) as [ys Hys];
    destruct items as [|kv items]; [cbn; eauto|].
  all: cbn [fmap list_fmap] in Hys |- *; rewrite Hys; cbn; eauto.
Qed.

(** [max_results = 0] is the same as no [max_results]. *)
Lemma cap_reached_zero (all_papers : list Paper) :
  cap_reached (Some 0) all_papers = cap_reached None all_papers.
Proof. reflexivity. Qed.


(** The requests are sent one page after the other, from the page the loop
    starts at. *)
Lemma loop_sequential fuel query max_results sort filter_params optimize :
  forall page all_papers sent sent' r,
    loop fuel query max_results sort filter_params optimize page all_papers
      sent = Some (sent', r) ->
    exists asked,
      sent' = sent ++ asked
      /\ req_page <$> asked = seqZ page (Z.of_nat (length asked)).
Proof.
  induction fuel as [|fuel IH]; intros page all_papers sent sent' r; simpl;
    [discriminate|].
  destruct (params_of _ _ _ _ _ _) as [req|e] eqn:Hreq.
  2:{ intros H. injection H as <- <-. exists []. rewrite app_nil_r. done. }
  pose proof (search_params_page _ _ _ _ _ _ _ Hreq) as Hpage.
  assert (Hone : forall r0, Some (sent ++ [req], r0) = Some (sent', r) ->
    exists asked, sent' = sent ++ asked
      /\ req_page <$> asked = seqZ page (Z.of_nat (length asked))).
  { intros r0 H. injection H as <- <-. exists [req]. split; [done|].
    simpl. rewrite Hpage. reflexivity. }
  destruct (transport req) as [resp|e]; [|apply Hone].
  destruct (default [] (resp_results resp)) as [|x xs]; [apply Hone|].
  destruct (cap_reached _ _); [apply Hone|].
  destruct (default 1 (resp_page_count resp) <=? page); [apply Hone|].
  intros H. apply IH in H as (asked & -> & Hasked).
  exists (req :: asked). split; [rewrite <- app_assoc; done|].
  simpl length. rewrite Nat2Z.inj_succ, seqZ_cons by lia.
  rewrite Z.pred_succ. simpl. rewrite Hpage. f_equal. exact Hasked.
Qed.

(** A page without records ends the loop at once, whatever page count the
    reply reports: the list gathered so far is returned and no request
    follows. *)
Lemma loop_stops_on_empty_page fuel query max_results sort filter_params
    optimize page all_papers sent req resp :
  params_of query (Some MAX_PER_PAGE) page sort filter_params optimize = Ok req ->
  transport req = Ok resp ->
  default [] (resp_results resp) = [] ->
  loop (S fuel) query max_results sort filter_params optimize page all_papers
    sent = Some (sent ++ [req], Ok all_papers).
Proof. intros Hreq Hresp Hempty. simpl. rewrite Hreq, Hresp, Hempty. reflexivity. Qed.

(** With a positive [max_results], each turn that does not end the loop adds
    a record, so the loop ends within [max_results] turns. *)
Lemma loop_cap_terminates fuel query k sort filter_params optimize :
  0 < k ->
  forall page (all_papers : list Paper) sent,
    (0 < fuel)%nat ->
    k <= Z.of_nat fuel + Z.of_nat (length all_papers) ->
    is_Some (loop fuel query (Some k) sort filter_params optimize page
               all_papers sent).
Proof.
  intros Hk. induction fuel as [|fuel IH]; intros page all_papers sent Hfuel Hbound;
    [lia|]. simpl.
  destruct (params_of _ _ _ _ _ _) as [req|e]; [|eauto].
  destruct (transport req) as [resp|e]; [|eauto].
  destruct (default [] (resp_results resp)) as [|x xs]; [eauto|].
  unfold cap_reached.
  destruct (k <=? Z.of_nat (length (all_papers ++ x :: xs))) eqn:Hcap.
  { replace (k =? 0) with false by (symmetry; apply Z.eqb_neq; lia). simpl. eauto. }
  rewrite andb_false_r.
  destruct (default 1 (resp_page_count resp) <=? page); [eauto|].
  apply Z.leb_gt in Hcap. rewrite length_app in Hcap. simpl length in Hcap.
  apply IH; [|rewrite length_app; simpl length]; lia.
Qed.

(** *** A transport that serves a list of pages *)

Section Serving.

Variable pages : list (list Paper).
Hypothesis Hserves : serves transport pages.
Hypothesis Hnonempty : Forall (fun p => p <> []) pages.

Variable query : string.
Variable sort : string.
Variable filter_params : option (list (string * string)).
Variable optimize : option bool.

Local Abbreviation filters :=
  (fmap (M := list) (prod_map id PStr) <$> filter_params).

(** The turn of the loop at page [length done + 1]: the request that is
    sent and the reply to it. *)
Lemma serving_turn (done rest : list (list Paper)) :
  pages = done ++ rest ->
  exists req resp,
    params_of (PStr query) (Some MAX_PER_PAGE) (Z.of_nat (length done) + 1)
      sort filters optimize = Ok req
    /\ transport req = Ok resp
    /\ default [] (resp_results resp) = nth (length done) pages []
    /\ (rest <> [] -> tl rest <> [] ->
         (default 1 (resp_page_count resp) <=? Z.of_nat (length done) + 1)
         = false).
Proof.
  intros Hpages.
  destruct (search_params_ok query (Some MAX_PER_PAGE)
              (Z.of_nat (length done) + 1) sort filter_params optimize)
    as [req Hreq].
  pose proof (search_params_page _ _ _ _ _ _ _ Hreq) as Hpage.
  destruct (Hserves req) as (resp & Hresp & Hres & Hcount); [lia|].
  exists req, resp. split; [exact Hreq|]. split; [exact Hresp|]. split.
  - rewrite Hres, Hpage. f_equal. lia.
  - intros Hrest Htl. apply Z.leb_gt. rewrite Hpage in Hcount.
    apply Hcount. rewrite Hpages, length_app.
    destruct rest as [|p [|p' rest']]; [done|done|]. simpl length. lia.
Qed.

(** Without [max_results], the loop that has gathered the pages [done]
    returns the records of all the pages. *)
Lemma loop_serving_all :
  forall (rest done : list (list Paper)) fuel sent,
    pages = done ++ rest ->
    (length rest < fuel)%nat ->
    exists sent',
      loop fuel (PStr query) None sort filters optimize
        (Z.of_nat (length done) + 1) (concat done) sent
      = Some (sent', Ok (concat pages)).
Proof.
  induction rest as [|p rest IH]; intros done fuel sent Hpages Hfuel;
    (destruct fuel as [|fuel]; [simpl in Hfuel; lia|]);
    destruct (serving_turn done _ Hpages) as (req & resp & Hreq & Hresp & Hres & Hcount);
    simpl; rewrite Hreq, Hresp, Hres.
  - rewrite Hpages, app_nil_r, nth_overflow by lia. eauto.
  - rewrite Hpages, nth_middle.
    assert (Hp : p <> []).
    { pose proof Hnonempty as H. rewrite Hpages in H.
      apply Forall_app in H as [_ H]. apply Forall_inv in H. exact H. }
    destruct p as [|x xs]; [done|].
    assert (Hall : concat (done ++ (x :: xs) :: rest)
                   = (concat done ++ x :: xs) ++ concat rest).
    { rewrite concat_app, concat_cons, app_assoc. reflexivity. }
    destruct (default 1 (resp_page_count resp) <=? Z.of_nat (length done) + 1)
      eqn:Hlast.
    + destruct rest as [|p' rest'].
      * rewrite Hall. simpl. rewrite app_nil_r. eauto.
      * discriminate Hcount; done.
    + destruct (IH (done ++ [x :: xs]) fuel (sent ++ [req])) as [sent' Hrec].
      * rewrite <- app_assoc. exact Hpages.
      * simpl in Hfuel. lia.
      * rewrite length_app, concat_app in Hrec. simpl in Hrec.
        rewrite app_nil_r, Nat2Z.inj_add in Hrec.
        change (Z.of_nat 1) with 1 in Hrec.
        rewrite <- Hpages. rewrite Hrec. eauto.
Qed.

(** With [max_results = k], not yet reached and not above the number of
    records, the loop returns the first [k] records. *)
Lemma loop_serving_cap k :
  forall (rest done : list (list Paper)) fuel sent,
    pages = done ++ rest ->
    (length rest <= fuel)%nat ->
    Z.of_nat (length (concat done)) < k ->
    k <= Z.of_nat (length (concat pages)) ->
    exists sent',
      loop fuel (PStr query) (Some k) sort filters optimize
        (Z.of_nat (length done) + 1) (concat done) sent
      = Some (sent', Ok (take (Z.to_nat k) (concat pages))).
Proof.
  induction rest as [|p rest IH]; intros done fuel sent Hpages Hfuel Hlow Hhigh.
  { rewrite Hpages, app_nil_r in Hhigh. lia. }
  destruct fuel as [|fuel]; [simpl in Hfuel; lia|].
  destruct (serving_turn done _ Hpages) as (req & resp & Hreq & Hresp & Hres & Hcount).
  simpl. rewrite Hreq, Hresp, Hres. rewrite Hpages, nth_middle.
  assert (Hp : p <> []).
  { pose proof Hnonempty as H. rewrite Hpages in H.
    apply Forall_app in H as [_ H]. apply Forall_inv in H. exact H. }
  destruct p as [|x xs]; [done|].
  assert (Hall : concat (done ++ (x :: xs) :: rest)
                 = (concat done ++ x :: xs) ++ concat rest).
  { rewrite concat_app, concat_cons, app_assoc. reflexivity. }
  unfold cap_reached.
  replace (k =? 0) with false by (symmetry; apply Z.eqb_neq; lia). simpl negb.
  rewrite andb_true_l.
  destruct (k <=? Z.of_nat (length (concat done ++ x :: xs))) eqn:Hcap.
  - apply Z.leb_le in Hcap. unfold list_slice_upto.
    replace (0 <=? k) with true by (symmetry; apply Z.leb_le; lia).
    rewrite Hall, (take_app_le (concat done ++ x :: xs)) by lia. eauto.
  - apply Z.leb_gt in Hcap.
    destruct (default 1 (resp_page_count resp) <=? Z.of_nat (length done) + 1)
      eqn:Hlast.
    + destruct rest as [|p' rest'].
      * rewrite Hpages, Hall in Hhigh. simpl in Hhigh.
        rewrite app_nil_r in Hhigh. lia.
      * discriminate Hcount; done.
    + destruct (IH (done ++ [x :: xs]) fuel (sent ++ [req])) as [sent' Hrec].
      * rewrite <- app_assoc. exact Hpages.
      * simpl in Hfuel. lia.
      * rewrite concat_app. simpl. rewrite app_nil_r. exact Hcap.
      * exact Hhigh.
      * rewrite length_app, concat_app in Hrec. simpl in Hrec.
        rewrite app_nil_r, Nat2Z.inj_add in Hrec.
        change (Z.of_nat 1) with 1 in Hrec.
        rewrite <- Hpages. rewrite Hrec. eauto.
Qed.

End Serving.

(** C5.  When the transport serves a list of non-empty pages,
    [get_all_papers] without [max_results] returns the records of all the
    pages, in page order, and with [max_results = k], [0 < k < N], the first
    [k] of these [N] records (enough fuel given: one turn per page and one
    more).  On any transport, a reply without records ends the loop at once,
    whatever page count it reports; and the pages are asked for one after the
    other: 1, 2, 3, ... *)
Theorem get_all_papers_pages (pages : list (list Paper)) (query sort : string)
    (filter_params : option (list (string * string)))
    (optimize : option bool) :
  (serves transport pages -> Forall (fun p => p <> []) pages ->
   forall fuel, (length pages < fuel)%nat ->
     (exists sent,
        get_all_papers DEFAULT_PER_PAGE MAX_PER_PAGE transport query_processor
          fuel (PStr query) None sort
          (fmap (M := list) (prod_map id PStr) <$> filter_params) optimize
        = Some (sent, Ok (concat pages)))
     /\ (forall k, 0 < k < Z.of_nat (length (concat pages)) ->
         exists sent,
           get_all_papers DEFAULT_PER_PAGE MAX_PER_PAGE transport
             query_processor fuel (PStr query) (Some k) sort
             (fmap (M := list) (prod_map id PStr) <$> filter_params) optimize
           = Some (sent, Ok (take (Z.to_nat k) (concat pages)))))
  /\ (forall fuel q max_results srt fp opt page all_papers sent req resp,
       params_of q (Some MAX_PER_PAGE) page srt fp opt = Ok req ->
       transport req = Ok resp ->
       default [] (resp_results resp) = [] ->
       loop (S fuel) q max_results srt fp opt page all_papers sent
       = Some (sent ++ [req], Ok all_papers))
  /\ (forall fuel q max_results srt fp opt sent r,
       get_all_papers DEFAULT_PER_PAGE MAX_PER_PAGE transport query_processor
         fuel q max_results srt fp opt = Some (sent, r) ->
       req_page <$> sent = seqZ 1 (Z.of_nat (length sent))).
Proof.
  split; [|split].
  - intros Hserves Hnonempty fuel Hfuel. split.
    + exact (loop_serving_all pages Hserves Hnonempty query sort
               filter_params optimize pages [] fuel [] eq_refl Hfuel).
    + intros k [Hlow Hhigh].
      apply (loop_serving_cap pages Hserves Hnonempty query sort
               filter_params optimize k pages [] fuel [] eq_refl);
        [lia|exact Hlow|lia].
  - intros fuel q max_results srt fp opt page all_papers sent req resp
      Hreq Hresp Hempty.
    exact (loop_stops_on_empty_page fuel q max_results srt fp opt page
             all_papers sent req resp Hreq Hresp Hempty).
  - intros fuel q max_results srt fp opt sent r H.
    apply loop_sequential in H as (asked & -> & Hasked). exact Hasked.
Qed.


End Pagination.

Section PaginationExamples.
Import OpenAlexSearch.

Lemma mock_transport_serves {Paper : Type} (pages : list (list Paper)) :
  serves (mock_transport pages) pages.
Proof.
  intros req Hreq. eexists. split; [reflexivity|]. simpl. split; [reflexivity|].
  exact id.
Qed.

Example get_all_papers_examples :
  get_all_papers 25 200 (mock_transport three_pages) None 10 (PStr "graph")
    None "publication_date:desc" None None
  = Some ([ {| req_search := PStr "graph"; req_per_page := 200; req_page := 1;
               req_sort := "publication_date:desc"; req_filter := None |};
            {| req_search := PStr "graph"; req_per_page := 200; req_page := 2;
               req_sort := "publication_date:desc"; req_filter := None |};
            {| req_search := PStr "graph"; req_per_page := 200; req_page := 3;
               req_sort := "publication_date:desc"; req_filter := None |} ],
          Ok [1; 2; 3; 4; 5]%nat)
  /\ snd <$> get_all_papers 25 200 (mock_transport three_pages) None 10
               (PStr "graph") (Some 3) "publication_date:desc" None None
     = Some (Ok [1; 2; 3]%nat)
  /\ snd <$> get_all_papers 25 200 (mock_transport three_pages) None 10
               (PStr "graph") (Some 0) "publication_date:desc" None None
     = Some (Ok [1; 2; 3; 4; 5]%nat)
  /\ snd <$> get_all_papers 25 200
               (mock_transport [[1; 2]; []; [5]]%nat) None 10
               (PStr "graph") None "publication_date:desc" None None
     = Some (Ok [1; 2]%nat)
  /\ (req_filter <$>
        search_params 25 200 None (PStr "graph") None 1
          "publication_date:desc"
          (Some [("publication_year", PStr ">2019")]) None)
     = Ok (Some "publication_year:2020-").
Proof. repeat split. Qed.

Lemma get_all_papers_pages_witness :
  (exists sent,
     get_all_papers 25 200 (mock_transport three_pages) None 4 (PStr "graph")
       None "publication_date:desc" None None
     = Some (sent, Ok (concat three_pages)))
  /\ (exists sent,
       get_all_papers 25 200 (mock_transport three_pages) None 4 (PStr "graph")
         (Some 3) "publication_date:desc" None None
       = Some (sent, Ok (take 3 (concat three_pages)))).
Proof.
  destruct (get_all_papers_pages 25 200 (mock_transport three_pages) None
              three_pages "graph" "publication_date:desc" None None)
    as [Hserving _].
  assert (Hnonempty : Forall (fun p : list nat => p <> []) three_pages)
    by (repeat constructor; discriminate).
  destruct (Hserving (mock_transport_serves three_pages) Hnonempty 4%nat)
    as [Hall Hcap]; [simpl; lia|].
  split; [exact Hall|].
  apply (Hcap 3). simpl. lia.
Defined.

End PaginationExamples.


(** ** Dialogue agent *)

Section Agent.
Import PaperResearchAgent.

Context {Paper FormattedPaper : Type}.
Variable DEFAULT_PER_PAGE MAX_PER_PAGE : Z.
Variable transport : Request -> result (Response Paper).
Variable format_paper_info : Paper -> result FormattedPaper.

Local Abbreviation attempt :=
  (search_attempt DEFAULT_PER_PAGE MAX_PER_PAGE transport format_paper_info).
Local Abbreviation run :=
  (execute_search DEFAULT_PER_PAGE MAX_PER_PAGE transport format_paper_info).

(** The attempt comes to an end: with a result, or with an exception. *)
Lemma search_attempt_returns (self : t FormattedPaper) (fuel : nat) :
  (search_fuel self <= fuel)%nat -> is_Some (attempt fuel self).
Proof.
  unfold search_fuel, search_attempt. intros Hfuel.
  destruct (getitem (collected_info self) "query") as [query|e]; simpl; [|eauto].
  destruct (PyVal.to_int _) as [max_results|e]; simpl; [|eauto].
  destruct (200 <? max_results) eqn:Hmany.
  - apply Z.ltb_lt in Hmany.
    destruct (loop_cap_terminates DEFAULT_PER_PAGE MAX_PER_PAGE
                transport None fuel query max_results default_sort
                (if PyVal.truthy
                      (default (PStr EmptyString)
                         (collected_info self !! "year_filter"))
                 then Some [("publication_year",
                             default (PStr EmptyString)
                               (collected_info self !! "year_filter"))]
                 else None)
                None ltac:(lia) 1 [] [] ltac:(lia) ltac:(simpl; lia))
      as [[sent r] Hloop].
    unfold OpenAlexSearch.get_all_papers. rewrite Hloop. simpl.
    destruct r; eauto.
  - destruct (OpenAlexSearch.search_papers _ _ _ _ _ _ _ _ _ _); simpl; eauto.
Qed.

(** C2: called in state [SEARCHING], [execute_search] returns (given the
    fuel of [search_fuel]) and leaves the agent in state [COMPLETED], when the
    attempt succeeds and when it raises; when it raises, the list returned
    is empty and nothing but the state has changed. *)
Theorem execute_search_completes (self : t FormattedPaper) :
  state self = SEARCHING ->
  forall fuel, (search_fuel self <= fuel)%nat ->
    exists self' papers,
      run fuel self = Some (self', papers)
      /\ state self' = COMPLETED
      /\ state self' <> SEARCHING
      /\ (forall e, attempt fuel self = Some (Raise e) ->
           papers = [] /\ self' = set_state self COMPLETED)
      /\ (forall formatted, attempt fuel self = Some (Ok formatted) ->
           papers = formatted /\ search_results self' = formatted).
Proof.
  intros Hstate fuel Hfuel. unfold execute_search.
  rewrite bool_decide_eq_false_2 by (intros H; apply H; exact Hstate).
  destruct (search_attempt_returns self fuel Hfuel) as [[formatted|e] Hattempt];
    rewrite Hattempt.
  - eexists _, _. split; [reflexivity|]. simpl.
    split; [reflexivity|]. split; [discriminate|]. split.
    + intros e' H. discriminate H.
    + intros formatted' [= <-]. split; reflexivity.
  - eexists _, _. split; [reflexivity|]. simpl.
    split; [reflexivity|]. split; [discriminate|]. split.
    + intros e' _. split; reflexivity.
    + intros formatted H. discriminate H.
Qed.

(** C6: outside [SEARCHING], [execute_search] returns the empty list and the
    agent is the one it was: state, history, collected information and
    stored results. *)
Theorem execute_search_outside_searching (self : t FormattedPaper) (fuel : nat) :
  state self <> SEARCHING ->
  run fuel self = Some (self, []).
Proof.
  intros Hstate. unfold execute_search.
  rewrite bool_decide_eq_true_2 by exact Hstate. reflexivity.
Qed.

(** C7: [reset] gives the agent of [__init__], whatever the agent was. *)
Theorem reset_restores_defaults (self : t FormattedPaper) :
  state (reset self) = COLLECTING_INFO
  /\ conversation_history (reset self) = []
  /\ collected_info (reset self) !! "query" = Some (PStr EmptyString)
  /\ collected_info (reset self) !! "year_filter" = Some (PStr EmptyString)
  /\ collected_info (reset self) !! "max_results" = Some (PStr "25")
  /\ dom (collected_info (reset self))
     = ({["query"; "year_filter"; "max_results"]} : gset string)
  /\ search_results (reset self) = []
  /\ reset self = init.
Proof.
  repeat split.
Qed.

(** *** The analysis step *)

(** [_call_llm_for_analysis] raises nothing: its two handlers return the
    fall-back dictionary. *)
Lemma call_llm_for_analysis_returns provider openai_key anthropic_key
    openai_chat anthropic_messages json_loads prompt :
  exists reply,
    _call_llm_for_analysis provider openai_key anthropic_key openai_chat
      anthropic_messages json_loads prompt = Ok reply.
Proof. unfold _call_llm_for_analysis. destruct (call_llm_body _ _ _ _ _ _ _); eauto. Qed.

(** When the [try] of [_collect_information] raises, the handler takes the
    input as the query. *)
Lemma collect_information_analysis_raises call_analysis
    (self : t FormattedPaper) (user_input : string) (e : exn) :
  call_analysis (_create_analysis_prompt self user_input) = Raise e ->
  _collect_information call_analysis self user_input =
    (set_collected_info self
       (info_dict (PStr user_input) (PStr EmptyString) (PStr "25")),
     (RawQuerySearch user_input, true)).
Proof. intros H. unfold _collect_information. rewrite H. reflexivity. Qed.

(** C8: in [COLLECTING_INFO], when the analysis step raises on the input
    [X], the turn ends with [X] as the query, no year filter and 25 results,
    the flag set and the agent in [SEARCHING]. *)
Theorem process_user_input_analysis_raises
    (call_analysis : AnalysisPrompt -> result json)
    (self : t FormattedPaper) (X : string) (e : exn) :
  state self = COLLECTING_INFO ->
  call_analysis
    (_create_analysis_prompt (append_history self "user" (UserText X)) X)
  = Raise e ->
  exists self' response,
    process_user_input call_analysis self X = (self', (response, true))
    /\ collected_info self'
       = info_dict (PStr X) (PStr EmptyString) (PStr "25")
    /\ collected_info self' !! "query" = Some (PStr X)
    /\ collected_info self' !! "year_filter" = Some (PStr EmptyString)
    /\ collected_info self' !! "max_results" = Some (PStr "25")
    /\ state self' = SEARCHING.
Proof.
  intros Hstate Hraise. unfold process_user_input.
  replace (state (append_history self "user" (UserText X)))
    with COLLECTING_INFO by (symmetry; exact Hstate).
  rewrite (collect_information_analysis_raises _ _ _ e Hraise).
  eexists _, _. split; [reflexivity|]. simpl. repeat split.
Qed.

End Agent.

Section AgentExamples.
Import PaperResearchAgent.

Example execute_search_examples :
  execute_search 25 200 (mock_transport three_pages) format_nat 301
    searching_agent
  = Some (set_state (set_search_results searching_agent [1; 2; 3; 4; 5]%nat)
            COMPLETED,
          [1; 2; 3; 4; 5]%nat)
  /\ execute_search 25 200 failing_transport format_nat 301 searching_agent
     = Some (set_state searching_agent COMPLETED, [])
  /\ execute_search 25 200 (mock_transport three_pages) format_nat 1
       searching_agent_bad_count
     = Some (set_state searching_agent_bad_count COMPLETED, [])
  /\ execute_search 25 200 (mock_transport three_pages) format_nat 301
       completed_agent
     = Some (completed_agent, []).
Proof. repeat split; vm_compute; reflexivity. Qed.

Lemma execute_search_completes_witness :
  exists self' papers,
    execute_search 25 200 failing_transport format_nat 301 searching_agent
    = Some (self', papers)
    /\ state self' = COMPLETED
    /\ papers = [].
Proof.
  destruct (execute_search_completes 25 200 failing_transport format_nat
              searching_agent eq_refl 301%nat)
    as (self' & papers & Hrun & Hstate & _ & Hraise & _);
    [vm_compute; lia|].
  exists self', papers. split; [exact Hrun|]. split; [exact Hstate|].
  apply (Hraise RequestException). vm_compute. reflexivity.
Defined.

Lemma execute_search_outside_searching_witness :
  execute_search 25 200 (mock_transport three_pages) format_nat 301
    completed_agent = Some (completed_agent, [])
  /\ execute_search 25 200 (mock_transport three_pages) format_nat 301
       (init (FormattedPaper := nat)) = Some (init, []).
Proof.
  split; apply execute_search_outside_searching; discriminate.
Defined.

Lemma process_user_input_analysis_raises_witness :
  exists self' response,
    process_user_input failing_analysis (init (FormattedPaper := nat)) "X"
    = (self', (response, true))
    /\ collected_info self' !! "query" = Some (PStr "X")
    /\ state self' = SEARCHING.
Proof.
  destruct (process_user_input_analysis_raises failing_analysis
              (init (FormattedPaper := nat)) "X"
              (OtherException "analysis failed") eq_refl eq_refl)
    as (self' & response & Hturn & _ & Hquery & _ & _ & Hstate).
  exists self', response. split; [exact Hturn|]. split; assumption.
Defined.

(** The handler of [_collect_information] is reached with the analysis call
    of the repository as well: a reply that decodes to an array holding the
    five key names passes the checks of [_call_llm_for_analysis] and has no
    [get]. *)
Example process_user_input_array_reply :
  let call_analysis :=
    _call_llm_for_analysis "anthropic" EmptyString "key"
      (fun _ => Raise RequestException) (fun _ => Ok array_reply_text)
      array_json_loads in
  let '(self', (response, ready)) :=
    process_user_input call_analysis (init (FormattedPaper := nat)) "X" in
  response = RawQuerySearch "X" /\ ready = true
  /\ collected_info self' !! "query" = Some (PStr "X")
  /\ state self' = SEARCHING.
Proof. vm_compute. repeat split. Qed.

(** With a reply that cannot be decoded, the analysis call returns its
    fall-back dictionary and the query collected is empty. *)
Example process_user_input_undecodable_reply :
  let call_analysis :=
    _call_llm_for_analysis "anthropic" EmptyString "key"
      (fun _ => Raise RequestException) (fun _ => Ok "no json here")
      array_json_loads in
  let '(self', (response, ready)) :=
    process_user_input call_analysis (init (FormattedPaper := nat)) "X" in
  ready = true
  /\ collected_info self' !! "query" = Some (PStr EmptyString)
  /\ state self' = SEARCHING.
Proof. vm_compute. repeat split. Qed.

End AgentExamples.


(** * Further properties of the code *)

(** ** Year-filter normaliser: shape of the result *)

Section ConvertFilterValueMore.
Import PyStr PyStrFacts.

Lemma append_empty_r s : s +:+ EmptyString = s.
Proof.
  induction s as [|c s IH]; [reflexivity|].
  change (String c s +:+ EmptyString) with (String c (s +:+ EmptyString)).
  rewrite IH. reflexivity.
Qed.

Lemma rstrip_app a b :
  rstrip b = b -> b <> EmptyString -> rstrip (a +:+ b) = a +:+ b.
Proof.
  intros Hb Hne. induction a as [|c a IH]; [exact Hb|].
  change (String c a +:+ b) with (String c (a +:+ b)). simpl. rewrite IH.
  assert (Hab : a +:+ b <> EmptyString).
  { destruct a as [|c' a]; [exact Hne|].
    change (String c' a +:+ b) with (String c' (a +:+ b)). discriminate. }
  destruct (a +:+ b); [contradiction|reflexivity].
Qed.

(** Two trimmed strings put together give a trimmed string. *)
Lemma strip_app a b : strip a = a -> strip b = b -> strip (a +:+ b) = a +:+ b.
Proof.
  intros Ha Hb.
  destruct b as [|d b]; [rewrite append_empty_r; exact Ha|].
  unfold strip. rewrite lstrip_id.
  - apply rstrip_app; [apply strip_fixed_rstrip, Hb|discriminate].
  - destruct a as [|c a].
    + change (EmptyString +:+ String d b) with (String d b).
      rewrite <- Hb. apply rstrip_no_leading_space, lstrip_no_leading_space.
    + change (String c a +:+ String d b) with (String c (a +:+ String d b)).
      pose proof (lstrip_no_leading_space (String c a)) as H.
      rewrite (strip_fixed_lstrip _ Ha) in H. exact H.
Qed.

Lemma strip_dash : strip "-" = "-".
Proof. reflexivity. Qed.

Lemma of_int_trimmed z : strip (of_int z) = of_int z.
Proof. apply strip_no_space, of_int_no_space. Qed.

(** X1: the result of the normaliser has no white space at its ends, and
    white space at the ends of the input plays no part in it. *)
Theorem convert_filter_value_trimmed (value : string) :
  exists r,
    _convert_filter_value value = Ok r
    /\ strip r = r
    /\ _convert_filter_value (strip value) = Ok r.
Proof.
  assert (Hsame : _convert_filter_value (strip value)
                  = _convert_filter_value value).
  { unfold _convert_filter_value. cbv zeta. rewrite strip_idem. reflexivity. }
  rewrite Hsame.
  destruct (convert_filter_value_total value) as [r Hr]. exists r.
  split; [exact Hr|]. split; [|exact Hr].
  revert Hr. unfold _convert_filter_value. cbv zeta.
  destruct (startswith _ ">=").
  { intros [= <-]. apply strip_app; [apply strip_idem|apply strip_dash]. }
  destruct (startswith _ "<=").
  { intros [= <-]. apply strip_app; [apply strip_dash|apply strip_idem]. }
  destruct (startswith _ ">").
  { destruct (to_int_cases (strip (slice_from 1 (strip value)))) as [[z ->]| ->];
      simpl; intros [= <-].
    - apply strip_app; [apply of_int_trimmed|apply strip_dash].
    - apply strip_idem. }
  destruct (startswith _ "<").
  { destruct (to_int_cases (strip (slice_from 1 (strip value)))) as [[z ->]| ->];
      simpl; intros [= <-].
    - apply strip_app; [apply strip_dash|apply of_int_trimmed].
    - apply strip_idem. }
  intros [= <-]. apply strip_idem.
Qed.

(** What [str] prints starts with a digit or with the minus sign. *)
Lemma of_int_not_comparison z s c :
  c = ">"%char \/ c = "<"%char ->
  startswith (of_int z +:+ s) (String c EmptyString) = false.
Proof.
  intros Hc.
  assert (Hhead : exists d r, of_int z = String d r /\ d <> ">"%char /\ d <> "<"%char).
  { destruct z as [|p|p].
    - exists "0"%char, EmptyString. repeat split; discriminate.
    - pose proof (DecimalPos.Unsigned.to_uint_nonnil p) as Hnil.
      rewrite (proj1 (of_int_pos p)).
      destruct (Pos.to_uint p); [done|..]; cbn [NilEmpty.string_of_uint];
        eexists _, _; repeat split; discriminate.
    - unfold of_int. cbn [Z.to_int NilZero.string_of_int].
      eexists _, _. repeat split; discriminate. }
  destruct Hhead as (d & r & -> & Hgt & Hlt).
  change (String d r +:+ s) with (String d (r +:+ s)).
  rewrite startswith_1. apply bool_decide_eq_false_2.
  destruct Hc as [-> | ->]; assumption.
Qed.

(** X2: for a comparison with an integer in decimal notation, the result is
    a form that the normaliser leaves as it is: normalising twice is
    normalising once. *)
Theorem convert_filter_value_idempotent_on_numerals (y : Z) (sign : string) :
  sign = ">=" \/ sign = "<=" \/ sign = ">" \/ sign = "<" ->
  (r <-! _convert_filter_value (sign +:+ of_int y) ;; _convert_filter_value r)
  = _convert_filter_value (sign +:+ of_int y).
Proof.
  intros Hsign.
  destruct (convert_filter_value_numerals y) as (Hge & Hle & Hgt & Hlt).
  assert (Hafter : forall z,
    _convert_filter_value (of_int z +:+ "-") = Ok (of_int z +:+ "-")).
  { intros z. apply convert_other_trimmed.
    - apply strip_app; [apply of_int_trimmed|apply strip_dash].
    - apply of_int_not_comparison. left. reflexivity.
    - apply of_int_not_comparison. right. reflexivity. }
  assert (Hbefore : forall z,
    _convert_filter_value ("-" +:+ of_int z) = Ok ("-" +:+ of_int z)).
  { intros z. apply convert_other_trimmed.
    - apply strip_app; [apply strip_dash|apply of_int_trimmed].
    - reflexivity.
    - reflexivity. }
  destruct Hsign as [-> | [-> | [-> | ->]]].
  - rewrite Hge. simpl. apply Hafter.
  - rewrite Hle. simpl. apply Hbefore.
  - rewrite Hgt. simpl. apply Hafter.
  - rewrite Hlt. simpl. apply Hbefore.
Qed.

Lemma convert_filter_value_idempotent_on_numerals_witness :
  (r <-! _convert_filter_value (">" +:+ of_int 2019) ;; _convert_filter_value r)
  = _convert_filter_value (">" +:+ of_int 2019)
  /\ _convert_filter_value (">" +:+ of_int 2019) = Ok "2020-".
Proof.
  split; [|reflexivity].
  apply convert_filter_value_idempotent_on_numerals. right. right. left.
  reflexivity.
Defined.

End ConvertFilterValueMore.

(** ** Paginated retrieval: what holds on every transport *)

Section PaginationMore.
Import OpenAlexSearch.

Context {Paper : Type}.
Variable DEFAULT_PER_PAGE MAX_PER_PAGE : Z.
Variable transport : Request -> result (Response Paper).
Variable query_processor : option QueryProcessor.t.

Local Abbreviation params_of :=
  (search_params DEFAULT_PER_PAGE MAX_PER_PAGE query_processor).
Local Abbreviation loop :=
  (get_all_papers_loop DEFAULT_PER_PAGE MAX_PER_PAGE transport query_processor).
Local Abbreviation all_pages :=
  (get_all_papers DEFAULT_PER_PAGE MAX_PER_PAGE transport query_processor).

Lemma fetched_app (sent asked : list Request) :
  fetched transport (sent ++ asked)
  = fetched transport sent ++ fetched transport asked.
Proof. unfold fetched. rewrite fmap_app, concat_app. reflexivity. Qed.

Lemma list_slice_upto_prefix {A : Type} (m : Z) (l : list A) :
  list_slice_upto m l `prefix_of` l.
Proof.
  unfold list_slice_upto. destruct (0 <=? m); eexists; symmetry; apply take_drop.
Qed.

Lemma list_slice_upto_length {A : Type} (m : Z) (l : list A) :
  0 <= m -> Z.of_nat (length (list_slice_upto m l)) <= m.
Proof.
  intros Hm. unfold list_slice_upto.
  replace (0 <=? m) with true by (symmetry; apply Z.leb_le; exact Hm).
  rewrite length_take. lia.
Qed.

(** With a positive [max_results], the list gathered stays below it until
    the loop ends, and the list returned is within it. *)
Lemma loop_cap_bound fuel query k sort filter_params optimize :
  0 < k ->
  forall page all_papers sent sent' l,
    Z.of_nat (length all_papers) < k ->
    loop fuel query (Some k) sort filter_params optimize page all_papers sent
    = Some (sent', Ok l) ->
    Z.of_nat (length l) <= k.
Proof.
  intros Hk. induction fuel as [|fuel IH];
    intros page all_papers sent sent' l Hall; simpl; [discriminate|].
  destruct (params_of _ _ _ _ _ _) as [req|e]; [|discriminate].
  destruct (transport req) as [resp|e]; [|discriminate].
  destruct (default [] (resp_results resp)) as [|x xs].
  { intros [= _ <-]. lia. }
  unfold cap_reached.
  destruct (k <=? Z.of_nat (length (all_papers ++ x :: xs))) eqn:Hcap.
  { replace (k =? 0) with false by (symmetry; apply Z.eqb_neq; lia). simpl.
    intros [= _ <-]. apply list_slice_upto_length. lia. }
  rewrite andb_false_r. apply Z.leb_gt in Hcap.
  destruct (default 1 (resp_page_count resp) <=? page).
  { intros [= _ <-]. lia. }
  apply IH. exact Hcap.
Qed.

(** X3: with a positive [max_results], [get_all_papers] never returns more
    records than [max_results], whatever the transport replies. *)
Theorem get_all_papers_within_max_results (fuel : nat) (query : pyval)
    (k : Z) (sort : string) (filter_params : option (list (string * pyval)))
    (optimize : option bool) (sent : list Request) (l : list Paper) :
  0 < k ->
  all_pages fuel query (Some k) sort filter_params optimize
  = Some (sent, Ok l) ->
  Z.of_nat (length l) <= k.
Proof.
  intros Hk Hrun.
  apply (loop_cap_bound fuel query k sort filter_params optimize Hk 1 [] []
           sent l); [simpl; lia|exact Hrun].
Qed.

(** The list returned is made of the records fetched, in the order they
    were fetched: all of them without [max_results], and else the first of
    them. *)
Lemma loop_returns_fetched fuel query max_results sort filter_params optimize :
  forall page all_papers sent sent' l,
    loop fuel query max_results sort filter_params optimize page all_papers
      sent = Some (sent', Ok l) ->
    exists asked,
      sent' = sent ++ asked
      /\ l `prefix_of` (all_papers ++ fetched transport asked)
      /\ (max_results = None -> l = all_papers ++ fetched transport asked).
Proof.
  induction fuel as [|fuel IH]; intros page all_papers sent sent' l; simpl;
    [discriminate|].
  destruct (params_of _ _ _ _ _ _) as [req|e]; [|discriminate].
  destruct (transport req) as [resp|e] eqn:Hresp; [|discriminate].
  assert (Hone : fetched transport [req] = default [] (resp_results resp)).
  { unfold fetched. simpl. rewrite Hresp, app_nil_r. reflexivity. }
  destruct (default [] (resp_results resp)) as [|x xs] eqn:Hres.
  { intros [= <- <-]. exists [req]. rewrite Hone, app_nil_r. done. }
  destruct (cap_reached max_results (all_papers ++ x :: xs)) as [k|] eqn:Hcap.
  { intros [= <- <-]. exists [req]. rewrite Hone. split; [done|]. split.
    - apply list_slice_upto_prefix.
    - intros ->. discriminate Hcap. }
  destruct (default 1 (resp_page_count resp) <=? page).
  { intros [= <- <-]. exists [req]. rewrite Hone. done. }
  intros Hrec. apply IH in Hrec as (asked & -> & Hprefix & Hall).
  exists (req :: asked). split; [rewrite <- app_assoc; reflexivity|].
  change (req :: asked) with ([req] ++ asked).
  rewrite fetched_app, Hone, (app_assoc all_papers).
  exact (conj Hprefix Hall).
Qed.

(** X4: the records returned by [get_all_papers] are records of the replies,
    in page order and without gaps from the first one on; without
    [max_results] they are all the records of all the replies received. *)
Theorem get_all_papers_returns_fetched (fuel : nat) (query : pyval)
    (max_results : option Z) (sort : string)
    (filter_params : option (list (string * pyval)))
    (optimize : option bool) (sent : list Request) (l : list Paper) :
  all_pages fuel query max_results sort filter_params optimize
  = Some (sent, Ok l) ->
  l `prefix_of` fetched transport sent
  /\ (max_results = None -> l = fetched transport sent).
Proof.
  intros Hrun. apply loop_returns_fetched in Hrun as (asked & -> & Hprefix & Hall).
  exact (conj Hprefix Hall).
Qed.






End PaginationMore.

Section PaginationMoreExamples.
Import OpenAlexSearch.

Lemma get_all_papers_within_max_results_witness :
  exists sent l,
    get_all_papers 25 200 (mock_transport three_pages) None 10 (PStr "graph")
      (Some 3) "publication_date:desc" None None = Some (sent, Ok l)
    /\ Z.of_nat (length l) <= 3.
Proof.
  eexists _, _. split; [reflexivity|].
  eapply (get_all_papers_within_max_results 25 200
            (mock_transport three_pages) None 10 (PStr "graph") 3
            "publication_date:desc" None None); [lia|reflexivity].
Defined.

Lemma get_all_papers_returns_fetched_witness :
  exists sent l,
    get_all_papers 25 200 (mock_transport three_pages) None 10 (PStr "graph")
      None "publication_date:desc" None None = Some (sent, Ok l)
    /\ l = fetched (mock_transport three_pages) sent
    /\ l = [1; 2; 3; 4; 5]%nat.
Proof.
  eexists _, _. split; [reflexivity|]. split; [|reflexivity].
  eapply (get_all_papers_returns_fetched 25 200
            (mock_transport three_pages) None 10 (PStr "graph") None
            "publication_date:desc" None None); reflexivity.
Defined.



End PaginationMoreExamples.


(** ** Keywords by regular expressions *)

Section KeywordsMore.
Import QueryProcessor.

Lemma all_az_snoc r c : all_az r -> PyRe.is_az c = true ->
  all_az (r +:+ String c EmptyString).
Proof.
  intros Hr Hc. induction r as [|d r IH]; [split; [exact Hc|exact I]|].
  change (String d r +:+ String c EmptyString)
    with (String d (r +:+ String c EmptyString)).
  destruct Hr as [Hd Hr]. split; [exact Hd|apply IH, Hr].
Qed.

Lemma elem_of_emit w run :
  w ∈ PyRe.emit run -> run = Some w /\ (3 <= String.length w)%nat.
Proof.
  unfold PyRe.emit. destruct run as [r|]; [|intros H; inversion H].
  destruct (3 <=? String.length r)%nat eqn:Hlen; [|intros H; inversion H].
  intros H. apply list_elem_of_singleton in H as ->.
  split; [reflexivity|]. apply Nat.leb_le, Hlen.
Qed.

(** The words found are runs of three letters or more. *)
Lemma findall_words_letters text : forall prev_word run w,
  (forall r, run = Some r -> all_az r) ->
  w ∈ PyRe.findall_words prev_word run text ->
  all_az w /\ (3 <= String.length w)%nat.
Proof.
  induction text as [|c text IH]; intros prev_word run w Hrun; simpl.
  - intros H. apply elem_of_emit in H as [-> Hlen]. split; [apply Hrun; reflexivity|exact Hlen].
  - destruct (PyRe.is_az c) eqn:Haz.
    + destruct run as [r|].
      * apply IH. intros r' [= <-]. apply all_az_snoc; [apply Hrun; reflexivity|exact Haz].
      * apply IH. intros r'. destruct prev_word; [discriminate|].
        intros [= <-]. split; [exact Haz|exact I].
    + destruct (PyRe.is_word c).
      * apply IH. discriminate.
      * intros H. apply elem_of_app in H as [H|H].
        -- apply elem_of_emit in H as [-> Hlen].
           split; [apply Hrun; reflexivity|exact Hlen].
        -- revert H. apply IH. discriminate.
Qed.

(** The keys of the counter: a new word goes behind the others. *)
Lemma counter_add_keys w c :
  (counter_add w c).*1 = if decide (w ∈ c.*1) then c.*1 else c.*1 ++ [w].
Proof.
  induction c as [|[w' n] c IH].
  - destruct (decide (w ∈ ([] : list (string * nat)).*1)) as [H|_];
      [inversion H|reflexivity].
  - cbn [counter_add]. destruct (String.eqb w w') eqn:Heq.
    + apply String.eqb_eq in Heq as ->.
      destruct (decide (w' ∈ ((w', n) :: c).*1)) as [_|H]; [reflexivity|].
      exfalso. apply H. left.
    + apply String.eqb_neq in Heq.
      change (((w', n) :: counter_add w c).*1)
        with (w' :: (counter_add w c).*1).
      rewrite IH.
      change (((w', n) :: c).*1) with (w' :: c.*1).
      destruct (decide (w ∈ c.*1)) as [Hin|Hin];
        destruct (decide (w ∈ w' :: c.*1)) as [Hin'|Hin']; try reflexivity.
      * exfalso. apply Hin'. right. exact Hin.
      * exfalso. apply elem_of_cons in Hin' as [H|H]; contradiction.
Qed.

Lemma counter_keys words : forall c,
  NoDup c.*1 ->
  NoDup (foldl (fun c w => counter_add w c) c words).*1
  /\ forall w, w ∈ (foldl (fun c w => counter_add w c) c words).*1 ->
       w ∈ c.*1 \/ w ∈ words.
Proof.
  induction words as [|w0 words IH]; intros c Hc; simpl.
  - split; [exact Hc|]. intros w Hw. left. exact Hw.
  - assert (Hc' : NoDup (counter_add w0 c).*1).
    { rewrite counter_add_keys. case_decide; [exact Hc|].
      apply NoDup_app. split; [exact Hc|]. split.
      - intros x Hx Hx'. apply list_elem_of_singleton in Hx' as ->. contradiction.
      - apply NoDup_singleton. }
    destruct (IH _ Hc') as [Hnodup Hin]. split; [exact Hnodup|].
    intros w Hw. apply Hin in Hw as [Hw|Hw].
    + rewrite counter_add_keys in Hw. case_decide; [left; exact Hw|].
      apply elem_of_app in Hw as [Hw|Hw]; [left; exact Hw|].
      apply list_elem_of_singleton in Hw as ->. right. left.
    + right. right. exact Hw.
Qed.

Lemma insert_desc_perm x l : insert_desc x l ≡ₚ x :: l.
Proof.
  induction l as [|y l IH]; simpl; [reflexivity|].
  destruct (x.2 <=? y.2)%nat; [|reflexivity].
  rewrite IH. apply Permutation_swap.
Qed.

Lemma sort_desc_perm c : forall acc,
  foldl (fun acc x => insert_desc x acc) acc c ≡ₚ c ++ acc.
Proof.
  induction c as [|x c IH]; intros acc; simpl; [reflexivity|].
  rewrite IH, insert_desc_perm. symmetry. apply Permutation_middle.
Qed.

(** The keywords are distinct words of the list counted, no more than
    [max_keywords] of them. *)
Lemma most_common_keys n words :
  NoDup (most_common n (Counter words)).*1
  /\ (length (most_common n (Counter words)).*1 <= Z.to_nat n)%nat
  /\ forall w, w ∈ (most_common n (Counter words)).*1 -> w ∈ words.
Proof.
  unfold most_common, Counter.
  destruct (counter_keys words [] (NoDup_nil_2 (A := string))) as [Hnodup Hin].
  pose proof (sort_desc_perm
    (foldl (fun c w => counter_add w c) [] words) []) as Hperm.
  rewrite app_nil_r in Hperm.
  set (sorted := foldl (fun acc x => insert_desc x acc) []
                   (foldl (fun c w => counter_add w c) [] words)) in *.
  assert (Hsorted : NoDup sorted.*1) by (rewrite Hperm; exact Hnodup).
  rewrite fmap_take. split; [|split].
  - eapply sublist_NoDup; [exact Hsorted|apply sublist_take].
  - rewrite length_take. lia.
  - intros w Hw. apply subseteq_take in Hw. rewrite Hperm in Hw.
    apply Hin in Hw as [Hw|Hw]; [inversion Hw|exact Hw].
Qed.

(** A keyword has three letters or more. *)
Lemma findall_keywords_length text max_keywords min_word_length use_stopwords w :
  w ∈ _extract_keywords_regex text max_keywords min_word_length use_stopwords ->
  (3 <= String.length w)%nat.
Proof.
  unfold _extract_keywords_regex. cbv zeta. intros Hw.
  match type of Hw with context [Counter ?ws] =>
    destruct (most_common_keys max_keywords ws) as (_ & _ & Hin) end.
  apply Hin in Hw. clear Hin.
  apply list_elem_of_filter in Hw as [_ Hw].
  assert (Hfound : w ∈ PyRe.findall_words false None (PyRe.lower text)).
  { destruct use_stopwords.
    - apply list_elem_of_filter in Hw as [_ Hw].
      rewrite app_nil_r in Hw. exact Hw.
    - rewrite app_nil_r in Hw. exact Hw. }
  apply findall_words_letters in Hfound as [_ Hlen]; [exact Hlen|discriminate].
Qed.

(** X7: the keywords of the regular expressions are pairwise distinct, and
    there are no more of them than [max_keywords] (none when it is not
    positive). *)
Theorem extract_keywords_regex_distinct (text : string)
    (max_keywords min_word_length : Z) (use_stopwords : bool) :
  NoDup (_extract_keywords_regex text max_keywords min_word_length
           use_stopwords)
  /\ (length (_extract_keywords_regex text max_keywords min_word_length
                use_stopwords) <= Z.to_nat max_keywords)%nat.
Proof.
  unfold _extract_keywords_regex. cbv zeta.
  match goal with |- context [Counter ?ws] =>
    destruct (most_common_keys max_keywords ws) as (Hnodup & Hlen & _) end.
  split; assumption.
Qed.

(** X8: every keyword of the regular expressions is made of the letters
    [a] to [z] only, has three letters or more and no fewer than
    [min_word_length], and is no English stop word when [use_stopwords] is
    set. *)
Theorem extract_keywords_regex_words (text : string)
    (max_keywords min_word_length : Z) (use_stopwords : bool) (w : string) :
  w ∈ _extract_keywords_regex text max_keywords min_word_length use_stopwords ->
  all_az w
  /\ 3 <= PyStr.len w
  /\ min_word_length <= PyStr.len w
  /\ (use_stopwords = true -> w ∉ ENGLISH_STOPWORDS).
Proof.
  unfold _extract_keywords_regex. cbv zeta. intros Hw.
  match type of Hw with context [Counter ?ws] =>
    destruct (most_common_keys max_keywords ws) as (_ & _ & Hin) end.
  apply Hin in Hw. clear Hin.
  apply list_elem_of_filter in Hw as [Hmin Hw].
  assert (Hfound : w ∈ PyRe.findall_words false None (PyRe.lower text)
                   /\ (use_stopwords = true -> w ∉ ENGLISH_STOPWORDS)).
  { destruct use_stopwords.
    - apply list_elem_of_filter in Hw as [[Hstop _] Hw].
      rewrite app_nil_r in Hw. split; [exact Hw|]. intros _.
      unfold in_ENGLISH_STOPWORDS in Hstop.
      apply bool_decide_eq_false in Hstop. exact Hstop.
    - rewrite app_nil_r in Hw. split; [exact Hw|discriminate]. }
  destruct Hfound as [Hfound Hstop].
  apply findall_words_letters in Hfound as [Haz Hlen]; [|discriminate].
  split; [exact Haz|]. split; [unfold PyStr.len; lia|].
  split; [exact Hmin|exact Hstop].
Qed.

Lemma extract_keywords_regex_words_witness :
  "transformer" ∈ _extract_keywords_regex "The Transformer, the model" 10 3 true
  /\ all_az "transformer"
  /\ "transformer" ∉ ENGLISH_STOPWORDS.
Proof.
  assert (Hin : "transformer"
                ∈ _extract_keywords_regex "The Transformer, the model" 10 3 true)
    by (vm_compute; left).
  split; [exact Hin|].
  destruct (extract_keywords_regex_words _ _ _ _ _ Hin)
    as (Haz & _ & _ & Hstop).
  split; [exact Haz|]. apply Hstop. reflexivity.
Defined.

(** Without a provider the keywords are those of the regular
    expressions. *)
Lemma extract_keywords_without_llm (self : t) text max_keywords
    min_word_length use_stopwords :
  use_llm self = false ->
  extract_keywords self text max_keywords min_word_length use_stopwords
  = _extract_keywords_regex text max_keywords min_word_length use_stopwords.
Proof. intros H. unfold extract_keywords. rewrite H. reflexivity. Qed.

Lemma all_az_nonempty w : (3 <= String.length w)%nat -> w <> EmptyString.
Proof. destruct w; simpl; [lia|discriminate]. Qed.

Lemma join_spaces_nonempty w ws :
  w <> EmptyString -> join_spaces (w :: ws) <> EmptyString.
Proof.
  intros Hw. destruct w as [|c w]; [contradiction|].
  destruct ws as [|w' ws]; [discriminate|].
  cbn [join_spaces].
  change (String c w +:+ " " +:+ join_spaces (w' :: ws))
    with (String c (w +:+ " " +:+ join_spaces (w' :: ws))).
  discriminate.
Qed.

(** X9: when no provider is used ([use_llm] is [False]), [optimize_query]
    returns the empty string only for a query that is empty or all white
    space, whatever the method: a query with some text in it is never turned
    into an empty search. *)
Theorem optimize_query_keeps_some_text (self : t) (query method : string)
    (max_keywords : Z) :
  use_llm self = false ->
  optimize_query self query method max_keywords = EmptyString ->
  PyStr.strip query = EmptyString.
Proof.
  intros Hllm.
  assert (Hkw : keywords_or_original self query max_keywords = EmptyString ->
                PyStr.strip query = EmptyString).
  { unfold keywords_or_original.
    rewrite (extract_keywords_without_llm self _ _ _ _ Hllm).
    destruct (_extract_keywords_regex query max_keywords 3 true) as [|w ws] eqn:Hk;
      [exact id|].
    intros Hjoin. exfalso. revert Hjoin. apply join_spaces_nonempty.
    apply all_az_nonempty.
    assert (Hin : w ∈ _extract_keywords_regex query max_keywords 3 true)
      by (rewrite Hk; left).
    apply findall_keywords_length in Hin. exact Hin. }
  unfold optimize_query.
  destruct (String.eqb method "original"); [exact id|].
  destruct (String.eqb method "keywords"); [exact Hkw|].
  destruct (50 <? PyStr.len query); [exact Hkw|exact id].
Qed.

Lemma optimize_query_keeps_some_text_witness :
  optimize_query qp_regex "   " "keywords" 10 = EmptyString
  /\ PyStr.strip "   " = EmptyString.
Proof.
  split; [reflexivity|].
  apply (optimize_query_keeps_some_text qp_regex "   " "keywords" 10);
    reflexivity.
Defined.

(** X10: [optimize_query] with method ["original"] is idempotent, and what it
    returns has no white space at its ends. *)
Theorem optimize_query_original_idempotent (self : t) (query : string)
    (max_keywords max_keywords' : Z) :
  optimize_query self (optimize_query self query "original" max_keywords)
    "original" max_keywords'
  = optimize_query self query "original" max_keywords
  /\ PyStr.strip (optimize_query self query "original" max_keywords)
     = optimize_query self query "original" max_keywords.
Proof.
  unfold optimize_query. simpl. split; apply PyStrFacts.strip_idem.
Qed.

End KeywordsMore.


(** ** Splitting a long query: what is kept *)

Section SplitLongQueryMore.
Import QueryProcessor.

Lemma len_append a b : PyStr.len (a +:+ b) = PyStr.len a + PyStr.len b.
Proof.
  unfold PyStr.len. induction a as [|c a IH].
  - change (EmptyString +:+ b) with b. simpl. lia.
  - change (String c a +:+ b) with (String c (a +:+ b)).
    simpl String.length. lia.
Qed.

Lemma append_assoc a b c : (a +:+ b) +:+ c = a +:+ (b +:+ c).
Proof.
  induction a as [|x a IH]; [reflexivity|].
  change (String x a +:+ b) with (String x (a +:+ b)).
  change (String x (a +:+ b) +:+ c) with (String x ((a +:+ b) +:+ c)).
  rewrite IH. reflexivity.
Qed.

Lemma truthy_false s : PyStr.truthy s = false -> s = EmptyString.
Proof. destruct s; [reflexivity|discriminate]. Qed.

Lemma len_slice_to n s : PyStr.len (PyStr.slice_to n s) <= Z.of_nat n.
Proof.
  unfold PyStr.len. revert s. induction n as [|n IH]; intros s.
  - destruct s; simpl; lia.
  - destruct s as [|c s]; simpl; [lia|]. specialize (IH s). lia.
Qed.

(** One sentence more keeps the sub-queries within the bound. *)
Lemma pack_sentence_within_bound max_length sub_queries current_query s :
  Forall (fun s => PyStr.len s <= max_length) sub_queries ->
  PyStr.len current_query <= max_length ->
  PyStr.len (PyStr.strip s) <= max_length ->
  Forall (fun s => PyStr.len s <= max_length)
    (pack_sentence max_length (sub_queries, current_query) s).1
  /\ PyStr.len (pack_sentence max_length (sub_queries, current_query) s).2
     <= max_length.
Proof.
  intros Hsub Hcur Hs. unfold pack_sentence.
  destruct (negb (PyStr.truthy (PyStr.strip s))); [split; assumption|].
  destruct (PyStr.len current_query + PyStr.len (PyStr.strip s) + 1
            <=? max_length) eqn:Hfit.
  - apply Z.leb_le in Hfit.
    destruct (PyStr.truthy current_query); (split; [exact Hsub|]);
      [|exact Hs].
    simpl. rewrite !len_append. change (PyStr.len " ") with 1. lia.
  - destruct (PyStr.truthy current_query); (split; [|exact Hs]);
      [|exact Hsub].
    apply Forall_app. split; [exact Hsub|]. apply Forall_singleton. exact Hcur.
Qed.

(** The loop keeps every sub-query within the bound when every sentence
    is. *)
Lemma pack_within_bound max_length (sentences : list string) :
  forall sub_queries current_query,
    Forall (fun s => PyStr.len s <= max_length) sub_queries ->
    PyStr.len current_query <= max_length ->
    Forall (fun s => PyStr.len (PyStr.strip s) <= max_length) sentences ->
    Forall (fun s => PyStr.len s <= max_length)
      (foldl (pack_sentence max_length) (sub_queries, current_query)
         sentences).1
    /\ PyStr.len
         (foldl (pack_sentence max_length) (sub_queries, current_query)
            sentences).2 <= max_length.
Proof.
  induction sentences as [|s sentences IH];
    intros sub_queries current_query Hsub Hcur Hall; [split; assumption|].
  apply Forall_cons in Hall as [Hs Hall]. cbn [foldl].
  destruct (pack_sentence_within_bound max_length sub_queries current_query s
              Hsub Hcur Hs) as [Hsub' Hcur'].
  destruct (pack_sentence max_length (sub_queries, current_query) s)
    as [sub_queries' current_query'].
  apply IH; assumption.
Qed.

Lemma sentences_of_fit max_length query :
  0 <= max_length ->
  Forall (fun s => PyStr.len s <= max_length) (sentences_of query) ->
  Forall (fun s => PyStr.len (PyStr.strip s) <= max_length)
    (PyRe.split_sentences false query).
Proof.
  intros Hmax Hfit. apply Forall_forall. intros s Hs.
  destruct (PyStr.truthy (PyStr.strip s)) eqn:Htruthy.
  - rewrite Forall_forall in Hfit. apply Hfit. unfold sentences_of.
    apply list_elem_of_filter. split; [exact Htruthy|].
    apply list_elem_of_fmap_2. exact Hs.
  - apply truthy_false in Htruthy. rewrite Htruthy. exact Hmax.
Qed.

(** X11: [split_long_query] always returns at least one sub-query; and for
    a bound that is not negative, when no sentence of the query is longer
    than [max_length], no sub-query is. *)
Theorem split_long_query_within_bound (query : string) (max_length : Z) :
  split_long_query query max_length <> []
  /\ (0 <= max_length ->
      Forall (fun s => PyStr.len s <= max_length) (sentences_of query) ->
      Forall (fun sub_query => PyStr.len sub_query <= max_length)
        (split_long_query query max_length)).
Proof.
  unfold split_long_query.
  destruct (PyStr.len query <=? max_length) eqn:Hshort.
  { split; [discriminate|]. intros _ _. apply Forall_singleton.
    apply Z.leb_le, Hshort. }
  destruct (foldl (pack_sentence max_length) ([], EmptyString)
              (PyRe.split_sentences false query))
    as [sub_queries current_query] eqn:Hfold.
  split.
  - destruct (PyStr.truthy current_query);
      [destruct sub_queries; discriminate|].
    destruct sub_queries; discriminate.
  - intros Hmax Hfit.
    destruct (pack_within_bound max_length (PyRe.split_sentences false query)
                [] EmptyString (Forall_nil_2 _) Hmax
                (sentences_of_fit _ _ Hmax Hfit)) as [Hsub Hcur].
    rewrite Hfold in Hsub, Hcur. simpl in Hsub, Hcur.
    assert (Hfinal : Forall (fun s => PyStr.len s <= max_length)
              (if PyStr.truthy current_query
               then sub_queries ++ [current_query] else sub_queries)).
    { destruct (PyStr.truthy current_query); [|exact Hsub].
      apply Forall_app. split; [exact Hsub|]. apply Forall_singleton, Hcur. }
    destruct (if PyStr.truthy current_query
              then sub_queries ++ [current_query] else sub_queries)
      as [|x xs]; [|exact Hfinal].
    apply Forall_singleton. unfold PyStr.slice_upto.
    replace (0 <=? max_length) with true by (symmetry; apply Z.leb_le, Hmax).
    pose proof (len_slice_to (Z.to_nat max_length) query). lia.
Qed.

Lemma split_long_query_within_bound_witness :
  Forall (fun sub_query => PyStr.len sub_query <= 12)
    (split_long_query "Deep nets. Graph nets! ok?  yes" 12)
  /\ split_long_query "Deep nets. Graph nets! ok?  yes" 12
     = ["Deep nets"; "Graph nets"; "ok yes"].
Proof.
  split; [|reflexivity].
  apply split_long_query_within_bound; [lia|].
  vm_compute. repeat constructor; discriminate.
Defined.

Lemma truthy_true s : PyStr.truthy s = true -> s <> EmptyString.
Proof. destruct s; [discriminate|discriminate]. Qed.

Lemma truthy_nonempty s : s <> EmptyString -> PyStr.truthy s = true.
Proof. destruct s; [contradiction|reflexivity]. Qed.

Lemma join_spaces_snoc l x :
  l <> [] -> join_spaces (l ++ [x]) = join_spaces l +:+ " " +:+ x.
Proof.
  induction l as [|a l IH]; [contradiction|]. intros _.
  destruct l as [|b l]; [reflexivity|].
  change (join_spaces ((a :: b :: l) ++ [x]))
    with (a +:+ " " +:+ join_spaces ((b :: l) ++ [x])).
  rewrite IH by discriminate.
  change (join_spaces (a :: b :: l)) with (a +:+ " " +:+ join_spaces (b :: l)).
  rewrite !append_assoc. reflexivity.
Qed.

(** One sentence more: the state holds it behind the others. *)
Lemma pack_sentence_packed max_length st sentences s :
  packed st sentences ->
  packed (pack_sentence max_length st s)
    (sentences ++ (if PyStr.truthy (PyStr.strip s) then [PyStr.strip s] else [])).
Proof.
  destruct st as [sub_queries current_query]. unfold pack_sentence.
  destruct (PyStr.truthy (PyStr.strip s)) eqn:Hs; simpl negb; cbv iota.
  2:{ rewrite app_nil_r. exact id. }
  apply truthy_true in Hs.
  intros [(Hcur & Hsub & Hnone) | (Hcur & Hsome & Hjoin)]; simpl in *.
  - subst. right. simpl.
    destruct (PyStr.len EmptyString + PyStr.len (PyStr.strip s) + 1
              <=? max_length);
      simpl; (split; [exact Hs|]); (split; [discriminate|reflexivity]).
  - right. rewrite (truthy_nonempty _ Hcur).
    assert (Hne : sentences ++ [PyStr.strip s] <> [])
      by (destruct sentences; discriminate).
    destruct (PyStr.len current_query + PyStr.len (PyStr.strip s) + 1
              <=? max_length); simpl.
    + split.
      { destruct current_query; [contradiction|discriminate]. }
      split; [exact Hne|].
      rewrite (join_spaces_snoc sentences) by exact Hsome. rewrite <- Hjoin.
      destruct sub_queries as [|q sub_queries]; [reflexivity|].
      rewrite !(join_spaces_snoc (q :: sub_queries)) by discriminate.
      rewrite !append_assoc. reflexivity.
    + split; [exact Hs|]. split; [exact Hne|].
      rewrite (join_spaces_snoc sentences) by exact Hsome. rewrite <- Hjoin.
      apply join_spaces_snoc. destruct sub_queries; discriminate.
Qed.

Lemma pack_packed max_length (l : list string) : forall st sentences,
  packed st sentences ->
  packed (foldl (pack_sentence max_length) st l)
    (sentences ++ filter (fun s => PyStr.truthy s = true) (PyStr.strip <$> l)).
Proof.
  induction l as [|s l IH]; intros st sentences Hst.
  - simpl. rewrite app_nil_r. exact Hst.
  - cbn [foldl]. rewrite fmap_cons.
    pose proof (pack_sentence_packed max_length st sentences s Hst) as Hstep.
    apply IH in Hstep.
    destruct (PyStr.truthy (PyStr.strip s)) eqn:Hs.
    + rewrite filter_cons_True by exact Hs.
      rewrite <- app_assoc in Hstep. exact Hstep.
    + rewrite filter_cons_False by (rewrite Hs; discriminate).
      rewrite app_nil_r in Hstep. exact Hstep.
Qed.

(** X12: a query longer than [max_length] is split without loss: the
    sub-queries, read one after the other with single spaces between them,
    are the trimmed non-empty sentences of the query in their order; when the
    query has no such sentence, the result is the query cut by
    [query[:max_length]]. *)
Theorem split_long_query_keeps_sentences (query : string) (max_length : Z) :
  max_length < PyStr.len query ->
  (sentences_of query <> [] ->
   join_spaces (split_long_query query max_length)
   = join_spaces (sentences_of query))
  /\ (sentences_of query = [] ->
      split_long_query query max_length
      = [PyStr.slice_upto max_length query]).
Proof.
  intros Hlong. unfold split_long_query.
  replace (PyStr.len query <=? max_length) with false
    by (symmetry; apply Z.leb_gt; exact Hlong).
  pose proof (pack_packed max_length (PyRe.split_sentences false query)
                ([], EmptyString) []
                (or_introl (conj eq_refl (conj eq_refl eq_refl)))) as Hpacked.
  change ([] ++ filter (fun s => PyStr.truthy s = true)
                  (PyStr.strip <$> PyRe.split_sentences false query))
    with (sentences_of query) in Hpacked.
  destruct (foldl (pack_sentence max_length) ([], EmptyString)
              (PyRe.split_sentences false query))
    as [sub_queries current_query].
  destruct Hpacked as [(Hcur & Hsub & Hnone) | (Hcur & Hsome & Hjoin)];
    simpl in *.
  - subst. rewrite Hnone. simpl. split; [intros H; contradiction|reflexivity].
  - rewrite (truthy_nonempty _ Hcur). split; [|intros H; contradiction].
    intros _. rewrite <- Hjoin.
    destruct (sub_queries ++ [current_query]) eqn:Happ; [|reflexivity].
    destruct sub_queries; discriminate.
Qed.

Lemma split_long_query_keeps_sentences_witness :
  join_spaces (split_long_query "Deep nets. Graph nets! ok?  yes" 12)
  = "Deep nets Graph nets ok yes"
  /\ sentences_of "Deep nets. Graph nets! ok?  yes"
     = ["Deep nets"; "Graph nets"; "ok"; "yes"].
Proof.
  split; [|reflexivity].
  destruct (split_long_query_keeps_sentences
              "Deep nets. Graph nets! ok?  yes" 12) as [Hkeep _];
    [vm_compute; reflexivity|].
  rewrite Hkeep; [reflexivity|discriminate].
Defined.

End SplitLongQueryMore.

(** ** Dialogue agent: turns *)

Section AgentTurns.
Import PaperResearchAgent.

Context {FormattedPaper : Type}.
Variable call_analysis : AnalysisPrompt -> result json.

(** What [_collect_information] returns: the agent as it was, or with new
    collected information when the search is to be run. *)
Lemma collect_information_cases (self : t FormattedPaper) (user_input : string) :
  (exists response,
     _collect_information call_analysis self user_input
     = (self, (response, false)))
  \/ (exists info response,
       _collect_information call_analysis self user_input
       = (set_collected_info self info, (response, true))).
Proof.
  unfold _collect_information.
  destruct (call_analysis _) as [analysis|e]; simpl; [|right; eauto].
  destruct (PyJson.get analysis "sufficient" (PBool false)) as [sufficient|e];
    simpl; [|right; eauto].
  destruct (PyVal.truthy sufficient).
  - destruct (PyJson.get analysis "extracted_query" _) as [query|e];
      simpl; [|right; eauto].
    destruct (PyJson.get analysis "year_filter" _) as [year_filter|e];
      simpl; [|right; eauto].
    destruct (PyJson.get analysis "max_results" _) as [max_results|e];
      simpl; right; eauto.
  - destruct (PyJson.get_or_text analysis "question") as [question|e];
      simpl; [left|right]; eauto.
Qed.

(** X13: a turn only adds to the conversation history: the user's input
    first and, in [COLLECTING_INFO], the reply of the agent behind it; in the
    other two states nothing but the input is added.  The stored search
    results are not touched. *)
Theorem process_user_input_history (self : t FormattedPaper)
    (user_input : string) :
  exists self' response ready,
    process_user_input call_analysis self user_input
    = (self', (response, ready))
    /\ conversation_history self'
       = conversation_history self
         ++ {| role := "user"; content := UserText user_input |}
         :: (if decide (state self = COLLECTING_INFO)
             then [ {| role := "assistant"; content := response |} ]
             else [])
    /\ search_results self' = search_results self.
Proof.
  unfold process_user_input.
  change (state (append_history self "user" (UserText user_input)))
    with (state self).
  destruct (state self) eqn:Hstate.
  - destruct (collect_information_cases
                (append_history self "user" (UserText user_input)) user_input)
      as [[response ->] | (info & response & ->)];
      eexists _, response, _; (split; [reflexivity|]); simpl;
      rewrite <- app_assoc; split; reflexivity.
  - eexists _, _, _. split; [reflexivity|]. split; reflexivity.
  - eexists _, _, _. split; [reflexivity|]. split; reflexivity.
Qed.

(** X14: the flag returned by a turn tells the transition: when it is set,
    the agent was in [COLLECTING_INFO] and is now in [SEARCHING]; when it is
    not, neither the state nor the collected information has changed. *)
Theorem process_user_input_flag (self self' : t FormattedPaper)
    (user_input : string) (response : message) (ready : bool) :
  process_user_input call_analysis self user_input
  = (self', (response, ready)) ->
  (ready = true -> state self = COLLECTING_INFO /\ state self' = SEARCHING)
  /\ (ready = false ->
      state self' = state self
      /\ collected_info self' = collected_info self).
Proof.
  unfold process_user_input.
  change (state (append_history self "user" (UserText user_input)))
    with (state self).
  destruct (state self) eqn:Hstate.
  - destruct (collect_information_cases
                (append_history self "user" (UserText user_input)) user_input)
      as [[response0 ->] | (info & response0 & ->)];
      intros [= <- <- <-]; simpl; (split; [|]); intros H;
      try discriminate H; split; try reflexivity; exact Hstate.
  - intros [= <- <- <-]. simpl. split; [discriminate|].
    intros _. split; [exact Hstate|reflexivity].
  - intros [= <- <- <-]. simpl. split; [discriminate|].
    intros _. split; [exact Hstate|reflexivity].
Qed.

(** X15: when the analysis returns an object, the turn follows its
    [sufficient] entry.  If it is true, the collected information is read
    from the object, with the input for a missing query, no year filter and
    25 results for the other two, and the agent goes to [SEARCHING]; if it is
    not, the agent asks the question of the object and nothing else
    changes. *)
Theorem process_user_input_object_reply (self : t FormattedPaper)
    (user_input : string) (d : gmap string pyval) :
  state self = COLLECTING_INFO ->
  call_analysis
    (_create_analysis_prompt
       (append_history self "user" (UserText user_input)) user_input)
  = Ok (JObject d) ->
  exists self' response ready,
    process_user_input call_analysis self user_input
    = (self', (response, ready))
    /\ (PyVal.truthy (default (PBool false) (d !! "sufficient")) = true ->
        ready = true /\ state self' = SEARCHING
        /\ collected_info self'
           = info_dict (default (PStr user_input) (d !! "extracted_query"))
               (default (PStr EmptyString) (d !! "year_filter"))
               (default (PStr "25") (d !! "max_results")))
    /\ (PyVal.truthy (default (PBool false) (d !! "sufficient")) = false ->
        ready = false /\ state self' = COLLECTING_INFO
        /\ collected_info self' = collected_info self
        /\ response = Question (d !! "question")).
Proof.
  intros Hstate Hreply. unfold process_user_input.
  replace (state (append_history self "user" (UserText user_input)))
    with COLLECTING_INFO by (symmetry; exact Hstate).
  unfold _collect_information. rewrite Hreply. simpl.
  destruct (PyVal.truthy (default (PBool false) (d !! "sufficient")));
    simpl; eexists _, _, _; (split; [reflexivity|]); simpl;
    (split; intros H; [|]); try discriminate H; repeat split;
    try reflexivity; try exact Hstate.
Qed.

End AgentTurns.

Section AgentTurnsExamples.
Import PaperResearchAgent.

Lemma process_user_input_flag_witness :
  exists self' response,
    process_user_input failing_analysis (init (FormattedPaper := nat)) "X"
    = (self', (response, true))
    /\ state self' = SEARCHING.
Proof.
  eexists _, _. split; [reflexivity|].
  eapply (process_user_input_flag failing_analysis
            (init (FormattedPaper := nat)) _ "X" _ true);
    reflexivity.
Defined.

Lemma process_user_input_object_reply_witness :
  exists self' response,
    process_user_input happy_analysis (init (FormattedPaper := nat))
      "transformer attention models"
    = (self', (response, true))
    /\ state self' = SEARCHING
    /\ collected_info self'
       = info_dict (PStr "transformer attention") (PStr ">=2021") (PStr "30").
Proof.
  destruct (process_user_input_object_reply happy_analysis
              (init (FormattedPaper := nat)) "transformer attention models"
              happy_reply eq_refl eq_refl)
    as (self' & response & ready & Hturn & Hyes & _).
  destruct (Hyes eq_refl) as (-> & Hstate & Hinfo).
  exists self', response. split; [exact Hturn|]. split; [exact Hstate|].
  exact Hinfo.
Defined.

End AgentTurnsExamples.

(** ** Dialogue agent: the analysis call and the search *)

Section AnalysisCall.
Import PaperResearchAgent.

Variable LLM_PROVIDER OPENAI_API_KEY ANTHROPIC_API_KEY : string.
Variable openai_chat anthropic_messages : AnalysisPrompt -> result string.
Variable json_loads : string -> result json.

Local Abbreviation analyse :=
  (_call_llm_for_analysis LLM_PROVIDER OPENAI_API_KEY ANTHROPIC_API_KEY
     openai_chat anthropic_messages json_loads).
Local Abbreviation analyse_body :=
  (call_llm_body LLM_PROVIDER OPENAI_API_KEY ANTHROPIC_API_KEY
     openai_chat anthropic_messages json_loads).

(** A checked key is in the object afterwards, the keys that were in it
    stay, and an object comes from an object only. *)
Lemma backfill_object key v reply reply' d' :
  PyJson.backfill key v reply = Ok reply' ->
  reply' = JObject d' ->
  exists d,
    reply = JObject d
    /\ is_Some (d' !! key)
    /\ forall key', is_Some (d !! key') -> is_Some (d' !! key').
Proof.
  unfold PyJson.backfill. intros Hfill ->.
  destruct reply as [d|items|v0].
  - simpl in Hfill. exists d. split; [reflexivity|].
    destruct (bool_decide (d !! key = None)) eqn:Hmissing; simpl in Hfill;
      injection Hfill as <-.
    + split; [rewrite lookup_insert_eq; eauto|].
      intros key' Hkey'. destruct (decide (key = key')) as [->|Hne].
      * rewrite lookup_insert_eq. eauto.
      * rewrite lookup_insert_ne by exact Hne. exact Hkey'.
    + apply bool_decide_eq_false in Hmissing. split; [|exact (fun _ H => H)].
      destruct (d !! key); [eauto|contradiction].
  - simpl in Hfill. destruct (bool_decide (PStr key ∉ items));
      simpl in Hfill; discriminate Hfill.
  - destruct v0 as [| | |s]; simpl in Hfill; try discriminate Hfill.
    destruct (negb (PyJson.contains s key)); simpl in Hfill;
      discriminate Hfill.
Qed.

Lemma fallback_analysis_keys :
  is_Some (fallback_analysis !! "sufficient")
  /\ is_Some (fallback_analysis !! "extracted_query")
  /\ is_Some (fallback_analysis !! "year_filter")
  /\ is_Some (fallback_analysis !! "max_results")
  /\ is_Some (fallback_analysis !! "question").
Proof. repeat split; vm_compute; eauto. Qed.

(** X16: [_call_llm_for_analysis] raises nothing, whatever the provider
    does; and when what it returns is an object, the five keys are in it:
    [sufficient], [extracted_query], [year_filter], [max_results] and
    [question]. *)
Theorem call_llm_for_analysis_complete (prompt : AnalysisPrompt) :
  exists reply,
    analyse prompt = Ok reply
    /\ forall d, reply = JObject d ->
         is_Some (d !! "sufficient")
         /\ is_Some (d !! "extracted_query")
         /\ is_Some (d !! "year_filter")
         /\ is_Some (d !! "max_results")
         /\ is_Some (d !! "question").
Proof.
  unfold _call_llm_for_analysis.
  destruct (analyse_body prompt) as [reply|e] eqn:Hbody.
  2:{ eexists. split; [reflexivity|]. intros d [= <-].
      apply fallback_analysis_keys. }
  exists reply. split; [reflexivity|]. intros d5 ->.
  unfold call_llm_body in Hbody.
  destruct (if String.eqb LLM_PROVIDER "openai" then _ else _) as [r0|e];
    simpl in Hbody; [|discriminate Hbody].
  destruct (PyJson.backfill "sufficient" (PBool false) r0) as [r1|e] eqn:H1;
    simpl in Hbody; [|discriminate Hbody].
  destruct (PyJson.backfill "extracted_query" (PStr EmptyString) r1)
    as [r2|e] eqn:H2; simpl in Hbody; [|discriminate Hbody].
  destruct (PyJson.backfill "year_filter" (PStr EmptyString) r2)
    as [r3|e] eqn:H3; simpl in Hbody; [|discriminate Hbody].
  destruct (PyJson.backfill "max_results" (PStr "25") r3)
    as [r4|e] eqn:H4; simpl in Hbody; [|discriminate Hbody].
  destruct (PyJson.backfill "question" (PStr EmptyString) r4)
    as [r5|e] eqn:H5; simpl in Hbody; [|discriminate Hbody].
  injection Hbody as ->.
  destruct (backfill_object _ _ _ _ _ H5 eq_refl) as (d4 & -> & K5 & P5).
  destruct (backfill_object _ _ _ _ _ H4 eq_refl) as (d3 & -> & K4 & P4).
  destruct (backfill_object _ _ _ _ _ H3 eq_refl) as (d2 & -> & K3 & P3).
  destruct (backfill_object _ _ _ _ _ H2 eq_refl) as (d1 & -> & K2 & P2).
  destruct (backfill_object _ _ _ _ _ H1 eq_refl) as (d0 & -> & K1 & P1).
  repeat split; auto.
Qed.

(** The configurations and failures that end in the fall-back dictionary. *)
Lemma call_llm_for_analysis_fallback (prompt : AnalysisPrompt) :
  (LLM_PROVIDER <> "openai" /\ LLM_PROVIDER <> "anthropic")
  \/ (LLM_PROVIDER = "openai"
      /\ (OPENAI_API_KEY = EmptyString
          \/ exists e, openai_chat prompt = Raise e))
  \/ (LLM_PROVIDER = "anthropic"
      /\ (ANTHROPIC_API_KEY = EmptyString
          \/ exists e, anthropic_messages prompt = Raise e)) ->
  analyse prompt = Ok (JObject fallback_analysis).
Proof.
  unfold _call_llm_for_analysis, call_llm_body.
  intros [[Hopenai Hanthropic] | [[-> Hfail] | [-> Hfail]]].
  - apply String.eqb_neq in Hopenai, Hanthropic.
    rewrite Hopenai, Hanthropic. reflexivity.
  - simpl String.eqb. cbv iota. destruct Hfail as [-> | [e He]]; [reflexivity|].
    destruct (negb (PyStr.truthy OPENAI_API_KEY)); [reflexivity|].
    rewrite He. reflexivity.
  - simpl String.eqb. cbv iota. destruct Hfail as [-> | [e He]]; [reflexivity|].
    destruct (negb (PyStr.truthy ANTHROPIC_API_KEY)); [reflexivity|].
    rewrite He. reflexivity.
Qed.

(** X17: when the provider configured is neither ["openai"] nor
    ["anthropic"], or its key is empty, or its call raises, a turn in
    [COLLECTING_INFO] ends in [SEARCHING] with an empty query collected: the
    text of the user is not used. *)
Theorem process_user_input_without_provider {FormattedPaper : Type}
    (self : t FormattedPaper) (user_input : string) :
  state self = COLLECTING_INFO ->
  (LLM_PROVIDER <> "openai" /\ LLM_PROVIDER <> "anthropic")
  \/ (LLM_PROVIDER = "openai"
      /\ (OPENAI_API_KEY = EmptyString
          \/ exists e, forall prompt, openai_chat prompt = Raise e))
  \/ (LLM_PROVIDER = "anthropic"
      /\ (ANTHROPIC_API_KEY = EmptyString
          \/ exists e, forall prompt, anthropic_messages prompt = Raise e)) ->
  exists self',
    process_user_input analyse self user_input
    = (self',
       (ConfirmSearch (PStr EmptyString) (PStr EmptyString) (PStr "25"), true))
    /\ collected_info self' !! "query" = Some (PStr EmptyString)
    /\ state self' = SEARCHING.
Proof.
  intros Hstate Hconf. unfold process_user_input.
  replace (state (append_history self "user" (UserText user_input)))
    with COLLECTING_INFO by (symmetry; exact Hstate).
  unfold _collect_information.
  rewrite call_llm_for_analysis_fallback.
  - eexists. split; [reflexivity|]. split; reflexivity.
  - destruct Hconf as [H | [[H [Hk | [e He]]] | [H [Hk | [e He]]]]]; eauto 8.
Qed.

End AnalysisCall.

Section AnalysisCallExamples.
Import PaperResearchAgent.

(** With the local provider configured, the analysis asks no provider. *)
Lemma process_user_input_without_provider_witness :
  exists self',
    process_user_input
      (_call_llm_for_analysis "ollama" EmptyString EmptyString
         (fun _ => Raise RequestException) (fun _ => Raise RequestException)
         array_json_loads)
      (init (FormattedPaper := nat)) "graph neural networks since 2020"
    = (self',
       (ConfirmSearch (PStr EmptyString) (PStr EmptyString) (PStr "25"), true))
    /\ collected_info self' !! "query" = Some (PStr EmptyString)
    /\ state self' = SEARCHING.
Proof.
  apply process_user_input_without_provider; [reflexivity|].
  left. split; discriminate.
Defined.

End AnalysisCallExamples.

Section ExecuteSearchMore.
Import PaperResearchAgent.
Context {Paper FormattedPaper : Type}.

Variable DEFAULT_PER_PAGE MAX_PER_PAGE : Z.
Variable transport : Request -> result (Response Paper).
Variable format_paper_info : Paper -> result FormattedPaper.

Local Abbreviation attempt :=
  (search_attempt DEFAULT_PER_PAGE MAX_PER_PAGE transport format_paper_info).
Local Abbreviation run :=
  (execute_search DEFAULT_PER_PAGE MAX_PER_PAGE transport format_paper_info).

Lemma map_result_length {A B : Type} (f : A -> result B) (l : list A)
    (ys : list B) :
  map_result f l = Ok ys -> length ys = length l.
Proof.
  revert ys. induction l as [|x l IH]; intros ys; simpl.
  - intros [= <-]. reflexivity.
  - destruct (f x) as [y|e]; simpl; [|discriminate].
    destruct (map_result f l) as [ys'|e]; simpl; [|discriminate].
    intros [= <-]. simpl. rewrite (IH ys' eq_refl). reflexivity.
Qed.

Lemma execute_search_leaves_searching (self self' : t FormattedPaper)
    (fuel : nat) (papers : list FormattedPaper) :
  run fuel self = Some (self', papers) -> state self' <> SEARCHING.
Proof.
  unfold execute_search.
  destruct (bool_decide (state self ≠ SEARCHING)) eqn:Hstate.
  - intros [= <- _]. apply bool_decide_eq_true in Hstate. exact Hstate.
  - destruct (attempt fuel self) as [[formatted|e]|]; [| |discriminate];
      intros [= <- _]; discriminate.
Qed.

(** X18: once [execute_search] has returned, every further call returns the
    empty list and changes nothing in the agent: the records of the search
    are returned once. *)
Theorem execute_search_second_call (self self' : t FormattedPaper)
    (fuel : nat) (papers : list FormattedPaper) :
  run fuel self = Some (self', papers) ->
  forall fuel', run fuel' self' = Some (self', []).
Proof.
  intros Hrun fuel'. apply execute_search_leaves_searching in Hrun.
  unfold execute_search. rewrite bool_decide_eq_true_2 by exact Hrun.
  reflexivity.
Qed.

(** X19: when more than 200 records are asked for, [execute_search] returns
    no more records than were asked for, whatever the service sends. *)
Theorem execute_search_within_count (self self' : t FormattedPaper)
    (fuel : nat) (papers : list FormattedPaper) (max_results : Z) :
  PyVal.to_int (default (PStr "25") (collected_info self !! "max_results"))
  = Ok max_results ->
  200 < max_results ->
  run fuel self = Some (self', papers) ->
  Z.of_nat (length papers) <= max_results.
Proof.
  intros Hcount Hmany. unfold execute_search.
  destruct (bool_decide (state self ≠ SEARCHING)).
  { intros [= _ <-]. simpl. lia. }
  unfold search_attempt. rewrite Hcount.
  destruct (getitem (collected_info self) "query") as [query|e]; simpl.
  2:{ intros [= _ <-]. simpl. lia. }
  replace (200 <? max_results) with true by (symmetry; apply Z.ltb_lt; lia).
  unfold OpenAlexSearch.get_all_papers.
  destruct (OpenAlexSearch.get_all_papers_loop _ _ _ _ _ _ _ _ _ _ _ _ _)
    as [[sent [fetched|e]]|] eqn:Hloop; simpl; [| |discriminate].
  2:{ intros [= _ <-]. simpl. lia. }
  apply loop_cap_bound in Hloop; [|lia|simpl; lia].
  destruct (map_result format_paper_info fetched) as [formatted|e] eqn:Hmap.
  2:{ intros [= _ <-]. simpl. lia. }
  intros [= _ <-]. rewrite (map_result_length _ _ _ Hmap). exact Hloop.
Qed.


End ExecuteSearchMore.

Section ExecuteSearchMoreExamples.
Import PaperResearchAgent.

Lemma execute_search_second_call_witness :
  execute_search 25 200 (mock_transport three_pages) format_nat 7
    (set_state (set_search_results searching_agent [1; 2; 3; 4; 5]%nat)
       COMPLETED)
  = Some (set_state (set_search_results searching_agent [1; 2; 3; 4; 5]%nat)
            COMPLETED, []).
Proof.
  apply (execute_search_second_call 25 200 (mock_transport three_pages)
           format_nat searching_agent _ 301%nat [1; 2; 3; 4; 5]%nat).
  vm_compute. reflexivity.
Defined.

(** 300 records are on offer and 201 are asked for. *)
Lemma execute_search_within_count_witness :
  execute_search 25 200 (mock_transport two_full_pages) format_nat 202
    searching_agent_201
  = Some (set_state (set_search_results searching_agent_201 (seq 0 201))
            COMPLETED, seq 0 201)
  /\ Z.of_nat (length (seq 0 201)) <= 201.
Proof.
  assert (Hrun :
    execute_search 25 200 (mock_transport two_full_pages) format_nat 202
      searching_agent_201
    = Some (set_state (set_search_results searching_agent_201 (seq 0 201))
              COMPLETED, seq 0 201))
    by (vm_compute; reflexivity).
  split; [exact Hrun|].
  apply (execute_search_within_count 25 200 (mock_transport two_full_pages)
           format_nat searching_agent_201
           (set_state (set_search_results searching_agent_201 (seq 0 201))
              COMPLETED)
           202%nat (seq 0 201) 201);
    [vm_compute; reflexivity|lia|exact Hrun].
Defined.


End ExecuteSearchMoreExamples.

(** ** Projection of the records *)

Section FormatPaperInfo.
Import PyObj OpenAlexFormat.

Lemma bind_raises {A B : Type} (r : result A) (k : A -> result B) :
  (forall a, r = Ok a -> exists e, k a = Raise e) ->
  exists e, bind r k = Raise e.
Proof. destruct r as [a|e]; simpl; eauto. Qed.

Lemma bind_ok {A B : Type} (r : result A) (k : A -> result B) (b : B) :
  bind r k = Ok b -> exists a, r = Ok a /\ k a = Ok b.
Proof. destruct r as [a|e]; simpl; [eauto|discriminate]. Qed.

Lemma get_not_a_dict (v : jvalue) (key : string) (dflt : jvalue) :
  is_dict v = false -> get v key dflt = Raise AttributeError.
Proof. destruct v; simpl; [reflexivity|reflexivity|discriminate]. Qed.

Lemma get_dict (v : jvalue) (key : string) (dflt r : jvalue) :
  get v key dflt = Ok r ->
  exists items, v = JDict items /\ r = default dflt (lookup key items).
Proof.
  destruct v as [| |items]; simpl; try discriminate.
  intros [= <-]. eauto.
Qed.

(** A record whose [open_access] or [primary_location] is there and is no
    dict (null, as the service sends it for some records) is rejected. *)
Lemma format_paper_info_field_not_a_dict (paper : jvalue) (key : string)
    (v : jvalue) :
  key = "open_access" \/ key = "primary_location" ->
  get paper key (JDict []) = Ok v ->
  is_dict v = false ->
  exists e, format_paper_info paper = Raise e.
Proof.
  intros Hkey Hget Hv. unfold format_paper_info.
  destruct Hkey as [-> | ->].
  - do 5 (apply bind_raises; intros ? _).
    apply bind_raises. intros oa Hoa. rewrite Hget in Hoa.
    injection Hoa as <-. rewrite get_not_a_dict by exact Hv.
    simpl. eauto.
  - do 15 (apply bind_raises; intros ? _).
    apply bind_raises. intros loc Hloc. rewrite Hget in Hloc.
    injection Hloc as <-. rewrite get_not_a_dict by exact Hv.
    simpl. eauto.
Qed.

Lemma author_name_shape (authorship : jvalue) :
  authorship_shape authorship = true
  <-> exists name, author_name authorship = Ok name.
Proof.
  unfold author_name, authorship_shape.
  destruct authorship as [v|l|items]; simpl;
    [split; [discriminate|intros [? [=]]]..|].
  destruct (default (JDict []) (lookup "author" items)) as [v|l|author];
    simpl; split; eauto; try discriminate; intros [? [=]].
Qed.

Lemma authors_shape (authorships : list jvalue) :
  forallb authorship_shape authorships = true
  <-> exists names,
        map_result author_name authorships = Ok names
        /\ length names = length authorships.
Proof.
  induction authorships as [|a l IH]; simpl.
  - split; [eauto|reflexivity].
  - rewrite andb_true_iff, IH, author_name_shape. split.
    + intros [[name ->] [names [-> Hlen]]]. simpl.
      exists (name :: names). simpl. rewrite Hlen. split; reflexivity.
    + intros [names [Hmap Hlen]].
      destruct (author_name a) as [name|e]; simpl in Hmap; [|discriminate].
      destruct (map_result author_name l) as [names'|e] eqn:Hrest;
        simpl in Hmap; [|discriminate].
      injection Hmap as <-. simpl in Hlen. split; [eauto|].
      exists names'. split; [reflexivity|lia].
Qed.

(** X21: [format_paper_info] returns exactly on the records of
    [paper_shape]: a dict whose [authorships] (if any) can be iterated and
    holds dicts whose [author] (if any) is a dict, whose [doi] is falsy or
    a string, and whose [open_access] and [primary_location] (if any) are
    dicts; on every other value it raises.  When it returns there is one
    author name for each authorship. *)
Theorem format_paper_info_shape (paper : jvalue) :
  if paper_shape paper
  then exists info,
         format_paper_info paper = Ok info
         /\ forall authorships,
              (authorships <-! get paper "authorships" (JList []) ;;
               iter authorships) = Ok authorships ->
              length (PaperInfo.authors info) = length authorships
  else exists e, format_paper_info paper = Raise e.
Proof.
  destruct paper as [v|l|items]; simpl; [eauto..|].
  unfold format_paper_info. simpl.
  destruct (iter (default (JList []) (lookup "authorships" items)))
    as [authorships|e]; simpl; [|eauto].
  destruct (forallb authorship_shape authorships) eqn:Hauthors; simpl.
  2:{ destruct (map_result author_name authorships) as [names|e] eqn:Hmap;
        simpl; [|eauto].
      rewrite (proj2 (authors_shape authorships)) in Hauthors;
        [discriminate|].
      exists names. split; [exact Hmap|].
      exact (map_result_length _ _ _ Hmap). }
  apply authors_shape in Hauthors. destruct Hauthors as [names [-> Hlen]].
  simpl.
  destruct (truthy (default JNone (lookup "doi" items))) eqn:Hdoi; simpl.
  - destruct (default JNone (lookup "doi" items)) as [[| | |s]|l|d]; simpl;
      eauto.
    all: destruct (default (JDict []) (lookup "open_access" items))
      as [v|l'|oa]; simpl; eauto.
    all: destruct (truthy (default JNone (lookup "is_oa" oa))); simpl.
    all: destruct (default (JDict []) (lookup "primary_location" items))
      as [v|l'|loc]; simpl; eauto.
    all: eexists; split; [reflexivity|]; simpl; intros ? [= <-]; exact Hlen.
  - destruct (default (JDict []) (lookup "open_access" items))
      as [v|l'|oa]; simpl; eauto.
    all: destruct (truthy (default JNone (lookup "is_oa" oa))); simpl.
    all: destruct (default (JDict []) (lookup "primary_location" items))
      as [v|l'|loc]; simpl; eauto.
    all: eexists; split; [reflexivity|]; simpl; intros ? [= <-]; exact Hlen.
Qed.

Lemma remove_from_absent (old s : string) :
  PyJson.contains s old = false -> remove_from old 0 s = s.
Proof.
  induction s as [|c s IH]; [reflexivity|].
  cbn [PyJson.contains remove_from]. intros Habsent.
  apply orb_false_iff in Habsent. destruct Habsent as [-> Hrest].
  rewrite (IH Hrest). reflexivity.
Qed.

Lemma remove_from_skip (old p rest : string) :
  remove_from old (String.length p) (p +:+ rest) = remove_from old 0 rest.
Proof.
  induction p as [|c p IH]; [reflexivity|].
  change (String c p +:+ rest) with (String c (p +:+ rest)).
  exact IH.
Qed.

Lemma prefix_append (p rest : string) : String.prefix p (p +:+ rest) = true.
Proof.
  induction p as [|c p IH]; [apply prefix_empty|].
  change (String c p +:+ rest) with (String c (p +:+ rest)).
  cbn [String.prefix]. destruct (ascii_dec c c) as [_|Hne];
    [exact IH|contradiction].
Qed.

Lemma remove_leading (c : ascii) (old rest : string) :
  remove (String c old) (String c old +:+ rest) = remove (String c old) rest.
Proof.
  unfold remove.
  change (String c old +:+ rest) with (String c (old +:+ rest)) at 1.
  cbn [remove_from].
  change (String c (old +:+ rest)) with (String c old +:+ rest).
  rewrite prefix_append. cbn [String.length Nat.pred].
  apply remove_from_skip.
Qed.

Lemma remove_doi_prefix (rest : string) :
  remove DOI_PREFIX (DOI_PREFIX +:+ rest) = remove DOI_PREFIX rest.
Proof. apply remove_leading. Qed.

(** X22: the record returned has a [pdf_url] only when its [open_access]
    flag is truthy. *)
Theorem format_paper_info_pdf_url (paper : jvalue) (info : PaperInfo.t) :
  format_paper_info paper = Ok info ->
  PaperInfo.pdf_url info <> JNone ->
  truthy (PaperInfo.open_access info) = true.
Proof.
  unfold format_paper_info. intros Hinfo.
  do 5 (apply bind_ok in Hinfo; destruct Hinfo as (? & _ & Hinfo)).
  apply bind_ok in Hinfo. destruct Hinfo as (open_access & _ & Hinfo).
  apply bind_ok in Hinfo. destruct Hinfo as (is_oa & His_oa & Hinfo).
  apply bind_ok in Hinfo. destruct Hinfo as (pdf_url & Hpdf & Hinfo).
  do 6 (apply bind_ok in Hinfo; destruct Hinfo as (? & _ & Hinfo)).
  apply bind_ok in Hinfo. destruct Hinfo as (flag & Hflag & Hinfo).
  do 2 (apply bind_ok in Hinfo; destruct Hinfo as (? & _ & Hinfo)).
  injection Hinfo as <-. simpl.
  destruct (truthy is_oa) eqn:Htruthy.
  2:{ injection Hpdf as <-. intros Hnone. exfalso. exact (Hnone eq_refl). }
  intros _.
  apply get_dict in His_oa. destruct His_oa as (items & -> & ->).
  simpl in Hflag. injection Hflag as <-.
  destruct (lookup "is_oa" items) as [v|]; [exact Htruthy|discriminate].
Qed.

(** X23: of the [doi] of a record, a string, the projection takes out the
    resolver prefix: a DOI without the prefix is kept as it is, and of a DOI
    that starts with the prefix the rest is kept (when the prefix does not occur again in it). *)
Theorem format_paper_info_doi (paper : jvalue) (info : PaperInfo.t)
    (s : string) :
  format_paper_info paper = Ok info ->
  get paper "doi" JNone = Ok (JVal (PStr s)) ->
  (PyJson.contains s DOI_PREFIX = false ->
   PaperInfo.doi info = JVal (PStr s))
  /\ (forall rest,
        s = DOI_PREFIX +:+ rest ->
        PyJson.contains rest DOI_PREFIX = false ->
        PaperInfo.doi info = JVal (PStr rest)).
Proof.
  unfold format_paper_info. intros Hinfo Hget.
  do 3 (apply bind_ok in Hinfo; destruct Hinfo as (? & _ & Hinfo)).
  apply bind_ok in Hinfo. destruct Hinfo as (doi0 & Hdoi0 & Hinfo).
  apply bind_ok in Hinfo. destruct Hinfo as (doi & Hdoi & Hinfo).
  do 12 (apply bind_ok in Hinfo; destruct Hinfo as (? & _ & Hinfo)).
  injection Hinfo as <-. simpl.
  rewrite Hget in Hdoi0. injection Hdoi0 as <-.
  assert (Hremoved : doi = JVal (PStr (remove DOI_PREFIX s))).
  { destruct s as [|c s]; simpl in Hdoi; injection Hdoi as <-; reflexivity. }
  rewrite Hremoved. split.
  - intros Habsent. unfold remove.
    rewrite (remove_from_absent _ _ Habsent). reflexivity.
  - intros rest -> Habsent. rewrite remove_doi_prefix. unfold remove.
    rewrite (remove_from_absent _ _ Habsent). reflexivity.
Qed.

Lemma map_result_raises {A B : Type} (f : A -> result B) (l : list A)
    (x : A) (e : exn) :
  x ∈ l -> f x = Raise e -> exists e', map_result f l = Raise e'.
Proof.
  intros Hin Hx. induction Hin as [x l|x y l Hin IH]; simpl.
  - rewrite Hx. simpl. eauto.
  - destruct (f y) as [b|e1]; simpl; [|eauto].
    destruct (IH Hx) as [e' ->]. simpl. eauto.
Qed.

Section Composition.
Import PaperResearchAgent.

Variable DEFAULT_PER_PAGE MAX_PER_PAGE : Z.
Variable transport : Request -> result (Response jvalue).

(** X24: when at most 200 records are asked for and the page of the service
    holds one record whose [open_access] or [primary_location] is there and
    is no dict (null, say), the whole search is lost: [execute_search]
    returns the empty list and only moves the agent to [COMPLETED]. *)
Theorem execute_search_record_rejected (self : t PaperInfo.t) (fuel : nat)
    (max_results : Z) (paper : jvalue) (key : string) (v : jvalue) :
  state self = SEARCHING ->
  PyVal.to_int (default (PStr "25") (collected_info self !! "max_results"))
  = Ok max_results ->
  max_results <= 200 ->
  (forall req resp,
     transport req = Ok resp -> paper ∈ default [] (resp_results resp)) ->
  key = "open_access" \/ key = "primary_location" ->
  get paper key (JDict []) = Ok v ->
  is_dict v = false ->
  execute_search DEFAULT_PER_PAGE MAX_PER_PAGE transport format_paper_info
    fuel self
  = Some (set_state self COMPLETED, []).
Proof.
  intros Hstate Hcount Hfew Hpage Hkey Hget Hv. unfold execute_search.
  rewrite bool_decide_eq_false_2
    by (rewrite Hstate; intros H; apply H; reflexivity).
  unfold search_attempt. rewrite Hcount.
  destruct (getitem (collected_info self) "query") as [query|e]; simpl;
    [|reflexivity].
  replace (200 <? max_results) with false by (symmetry; apply Z.ltb_ge; lia).
  unfold OpenAlexSearch.search_papers.
  destruct (OpenAlexSearch.search_params _ _ _ _ _ _ _ _ _) as [params|e];
    simpl; [|reflexivity].
  destruct (transport params) as [resp|e] eqn:Hresp; simpl; [|reflexivity].
  destruct (format_paper_info_field_not_a_dict paper key v Hkey Hget Hv)
    as [e He].
  destruct (map_result_raises format_paper_info _ paper e
              (Hpage params resp Hresp) He) as [e' ->].
  reflexivity.
Qed.

End Composition.

End FormatPaperInfo.

Section FormatPaperInfoExamples.
Import PyObj OpenAlexFormat PaperResearchAgent.

Example format_paper_info_examples :
  format_paper_info sample_paper
  = Ok {| PaperInfo.id := JVal (PStr "https://openalex.org/W1");
          PaperInfo.title := JVal (PStr "Graph neural networks");
          PaperInfo.authors :=
            [JVal (PStr "A. Author"); JVal (PStr "Unknown");
             JVal (PStr "Unknown")];
          PaperInfo.publication_year := JVal (PInt 2021);
          PaperInfo.publication_date := JNone;
          PaperInfo.doi := JVal (PStr "10.1000/xyz");
          PaperInfo.abstract := JVal (PStr EmptyString);
          PaperInfo.citation_count := JVal (PInt 12);
          PaperInfo.pdf_url := JVal (PStr "https://example.org/w1.pdf");
          PaperInfo.open_access := JVal (PBool true);
          PaperInfo.primary_location :=
            JVal (PStr "https://example.org/w1") |}
  /\ format_paper_info paper_without_location = Raise AttributeError
  /\ format_paper_info (JList []) = Raise AttributeError.
Proof. repeat split. Qed.

Lemma format_paper_info_pdf_url_witness :
  exists info,
    format_paper_info sample_paper = Ok info
    /\ truthy (PaperInfo.open_access info) = true.
Proof.
  eexists. split; [reflexivity|].
  apply (format_paper_info_pdf_url sample_paper); [reflexivity|discriminate].
Defined.

Lemma format_paper_info_doi_witness :
  exists info,
    format_paper_info sample_paper = Ok info
    /\ PaperInfo.doi info = JVal (PStr "10.1000/xyz").
Proof.
  eexists. split; [reflexivity|].
  apply (format_paper_info_doi sample_paper _ "https://doi.org/10.1000/xyz");
    reflexivity.
Defined.

Lemma execute_search_record_rejected_witness :
  execute_search 25 200 one_page_transport format_paper_info 1
    searching_agent_25
  = Some (set_state searching_agent_25 COMPLETED, []).
Proof.
  apply (execute_search_record_rejected 25 200 one_page_transport
           searching_agent_25 1 25 paper_without_location
           "primary_location" JNone);
    [reflexivity|reflexivity|lia| |right; reflexivity|reflexivity|reflexivity].
  intros req resp [= <-]. simpl. right. left.
Defined.

End FormatPaperInfoExamples.

(** ** The summary of a search *)

Section SearchSummaryFacts.
Import PyObj SearchSummary PaperResearchAgent.

Lemma join_cases (sep : string) (items : list jvalue) :
  match join sep items with
  | Ok _ => Forall (fun name => is_str name = true) items
  | Raise e => e = TypeError /\ Exists (fun name => is_str name = false) items
  end.
Proof.
  induction items as [|item rest IH]; [constructor|].
  cbn [join].
  destruct item as [[| | |s]|l|d];
    try (split; [reflexivity|left; reflexivity]).
  destruct rest as [|item' rest'].
  - constructor; [reflexivity|constructor].
  - destruct (join sep (item' :: rest')) as [joined|e]; simpl.
    + constructor; [reflexivity|exact IH].
    + destruct IH as [-> IH]. split; [reflexivity|right; exact IH].
Qed.

Lemma entry_cases (i : Z) (paper : PaperInfo.t) :
  match entry i paper with
  | Ok e => named paper /\ entry_number e = i
  | Raise e => e = TypeError /\ unnamed paper
  end.
Proof.
  unfold entry, named, unnamed.
  pose proof (join_cases ", " (take 3 (PaperInfo.authors paper))) as Hjoin.
  destruct (join ", " (take 3 (PaperInfo.authors paper))); simpl;
    [split; [exact Hjoin|reflexivity]|exact Hjoin].
Qed.

Lemma entries_cases (papers : list PaperInfo.t) (i : Z) :
  match entries i papers with
  | Ok es =>
      Forall named papers
      /\ map entry_number es = seqZ i (Z.of_nat (length papers))
  | Raise e => e = TypeError /\ Exists unnamed papers
  end.
Proof.
  revert i. induction papers as [|paper rest IH]; intros i.
  - simpl. split; [constructor|reflexivity].
  - cbn [entries]. pose proof (entry_cases i paper) as Hentry.
    destruct (entry i paper) as [e|ex]; cbn [bind].
    2:{ destruct Hentry as [-> Hentry]. split; [reflexivity|left; exact Hentry]. }
    specialize (IH (i + 1)).
    destruct (entries (i + 1) rest) as [es|ex]; cbn [bind map].
    2:{ destruct IH as [-> IH]. split; [reflexivity|right; exact IH]. }
    destruct Hentry as [Hnamed Hnumber]. destruct IH as [Hrest Hnumbers].
    split; [constructor; assumption|].
    rewrite Hnumber, Hnumbers.
    rewrite (seqZ_cons i (Z.of_nat (length (paper :: rest))))
      by (simpl length; lia).
    replace (Z.pred (Z.of_nat (length (paper :: rest))))
      with (Z.of_nat (length rest)) by (simpl length; lia).
    replace (Z.succ i) with (i + 1) by lia.
    reflexivity.
Qed.

(** X25: [get_search_summary] raises, a [TypeError], exactly when one of
    the first five records kept has, among its first three authors, one that
    is no string; when it returns for a non-empty list it tells the number
    of all the records kept and has one entry for each of the first five,
    numbered from 1. *)
Theorem get_search_summary_cases (self : t PaperInfo.t) :
  match get_search_summary self with
  | Raise e =>
      e = TypeError /\ Exists unnamed (take 5 (search_results self))
  | Ok NoResults => search_results self = []
  | Ok (Results count top) =>
      search_results self <> []
      /\ count = length (search_results self)
      /\ map entry_number top
         = seqZ 1 (Z.of_nat (Nat.min 5 (length (search_results self))))
      /\ Forall named (take 5 (search_results self))
  end.
Proof.
  unfold get_search_summary.
  destruct (search_results self) as [|paper rest] eqn:Hresults;
    [reflexivity|].
  pose proof (entries_cases (take 5 (paper :: rest)) 1) as Hentries.
  destruct (entries 1 (take 5 (paper :: rest))) as [top|e]; simpl bind;
    [|exact Hentries].
  destruct Hentries as [Hnamed Hnumbers].
  split; [discriminate|]. split; [reflexivity|].
  split; [|exact Hnamed].
  rewrite Hnumbers, length_take. reflexivity.
Qed.

End SearchSummaryFacts.

(** ** The sessions of the web API *)

Section Sessions.
Import PaperResearchAgent SearchSummary App.

Variable new_llm_extractor : result unit.
Variable call_analysis : AnalysisPrompt -> result json.
Variable DEFAULT_PER_PAGE MAX_PER_PAGE : Z.
Variable transport : Request -> result (Response jvalue).

Local Abbreviation chat := (App.chat new_llm_extractor call_analysis).
Local Abbreviation search :=
  (App.search DEFAULT_PER_PAGE MAX_PER_PAGE transport).
Local Abbreviation run :=
  (execute_search DEFAULT_PER_PAGE MAX_PER_PAGE transport
     OpenAlexFormat.format_paper_info).

Lemma execute_search_not_searching (self : agent) (fuel : nat) :
  state self <> SEARCHING -> run fuel self = Some (self, []).
Proof.
  intros Hstate. unfold execute_search.
  rewrite bool_decide_eq_true_2 by exact Hstate. reflexivity.
Qed.

Lemma is_new_false (sessions : gmap string agent) (session_id : option string) :
  is_new sessions session_id = false ->
  exists id a,
    session_id = Some id /\ PyStr.truthy id = true /\ sessions !! id = Some a.
Proof.
  unfold is_new. destruct session_id as [id|]; [|discriminate].
  intros Hknown. apply orb_false_iff in Hknown.
  destruct Hknown as [Htruthy Hin].
  apply negb_false_iff in Htruthy. apply bool_decide_eq_false in Hin.
  destruct (sessions !! id) as [a|] eqn:Hlookup; [|contradiction].
  exists id, a. split; [reflexivity|]. split; [exact Htruthy|exact Hlookup].
Qed.

(** X26: a reply of [chat] names the session sent, when that is a known
    one, and else the identifier drawn; the session named is stored, every
    other session is as it was, and the collected information is in the
    reply exactly when the search is to be run.  The only exception [chat]
    lets through is that of the construction of an agent for a new
    session, and then the sessions are as they were. *)
Theorem chat_session (uuid4 : string) (sessions sessions' : gmap string agent)
    (session_id : option string) (message : string)
    (out : outcome ChatReply) :
  chat uuid4 sessions session_id message = (sessions', out) ->
  (forall r, out = Reply r ->
     (if is_new sessions session_id
      then chat_session_id r = uuid4
      else session_id = Some (chat_session_id r))
     /\ is_Some (sessions' !! chat_session_id r)
     /\ (forall id, id <> chat_session_id r ->
           sessions' !! id = sessions !! id)
     /\ (is_Some (chat_collected_info r) <-> chat_should_search r = true))
  /\ (forall status_code, out <> HTTPException status_code)
  /\ (forall e, out = Unhandled e ->
        sessions' = sessions
        /\ is_new sessions session_id = true
        /\ new_llm_extractor = Raise e).
Proof.
  unfold App.chat.
  assert (Hflag : forall (flag : bool) (info : gmap string pyval),
            is_Some (if flag then Some info else None) <-> flag = true).
  { intros [|] info; split; eauto; [intros [? [=]]|discriminate]. }
  destruct (is_new sessions session_id) eqn:Hnew.
  - unfold new_agent.
    destruct new_llm_extractor as [[]|e]; simpl.
    + destruct (process_user_input call_analysis init message)
        as [a [response flag]].
      intros [= <- <-]. split; [|split; [discriminate|discriminate]].
      intros r [= <-]. simpl. split; [reflexivity|].
      split; [rewrite lookup_insert_eq; eauto|].
      split; [|apply Hflag].
      intros id Hid. rewrite lookup_insert_ne by congruence. reflexivity.
    + intros [= <- <-]. split; [discriminate|]. split; [discriminate|].
      intros e' [= <-]. split; [reflexivity|]. split; reflexivity.
  - destruct (is_new_false _ _ Hnew) as (id & a & -> & _ & Hlookup).
    simpl. rewrite Hlookup. simpl.
    destruct (process_user_input call_analysis a message)
      as [a' [response flag]].
    intros [= <- <-]. split; [|split; [discriminate|discriminate]].
    intros r [= <-]. simpl. split; [reflexivity|].
    split; [rewrite lookup_insert_eq; eauto|].
    split; [|apply Hflag].
    intros id' Hid. rewrite lookup_insert_ne by congruence. reflexivity.
Qed.

(** X27: an identifier that is not a session is answered with status 404
    by [search] and by [reset_session], the sessions staying as they are;
    [chat] does not adopt it: its reply names the identifier drawn and the
    identifier sent is still no session (unless it is the one drawn). *)
Theorem unknown_session (sessions : gmap string agent) (id : string) :
  sessions !! id = None ->
  (forall fuel, search fuel sessions id = Some (sessions, HTTPException 404))
  /\ reset_session sessions id = (sessions, HTTPException 404)
  /\ (forall uuid4 message sessions' r,
        chat uuid4 sessions (Some id) message = (sessions', Reply r) ->
        chat_session_id r = uuid4
        /\ (uuid4 <> id -> sessions' !! id = None)).
Proof.
  intros Hunknown. split; [|split].
  - intros fuel. unfold App.search. rewrite Hunknown. reflexivity.
  - unfold reset_session. rewrite Hunknown. reflexivity.
  - intros uuid4 message sessions' r. unfold App.chat, is_new.
    rewrite (bool_decide_eq_true_2 _ Hunknown), orb_true_r.
    unfold new_agent. destruct new_llm_extractor as [[]|e]; simpl;
      [|discriminate].
    destruct (process_user_input call_analysis init message)
      as [a [response flag]].
    intros [= <- <-]. simpl. split; [reflexivity|].
    intros Hne. rewrite lookup_insert_ne by exact Hne. exact Hunknown.
Qed.

(** X28: after [reset_session], a message to the session is answered as
    a message that opens a new session is: the same response, flag and
    collected information, and the same agent stored. *)
Theorem reset_session_then_chat (uuid4 : string)
    (sessions : gmap string agent) (id : string) (a : agent)
    (message : string) :
  sessions !! id = Some a ->
  PyStr.truthy id = true ->
  new_llm_extractor = Ok tt ->
  exists sessions1 sessions2 sessions3 r2 r3,
    reset_session sessions id = (sessions1, Reply id)
    /\ chat uuid4 sessions1 (Some id) message = (sessions2, Reply r2)
    /\ chat uuid4 sessions None message = (sessions3, Reply r3)
    /\ chat_session_id r2 = id
    /\ chat_session_id r3 = uuid4
    /\ chat_response r2 = chat_response r3
    /\ chat_should_search r2 = chat_should_search r3
    /\ chat_collected_info r2 = chat_collected_info r3
    /\ sessions2 !! id = sessions3 !! uuid4.
Proof.
  intros Hknown Htruthy Hnew.
  destruct (process_user_input call_analysis
              (init (FormattedPaper := PaperInfo.t)) message)
    as [a' [response flag]] eqn:Hturn.
  pose (info := if flag then Some (collected_info a') else None).
  exists (<[id := init]> sessions),
         (<[id := a']> (<[id := init]> sessions)),
         (<[uuid4 := a']> sessions),
         {| chat_session_id := id; chat_response := response;
            chat_should_search := flag; chat_collected_info := info |},
         {| chat_session_id := uuid4; chat_response := response;
            chat_should_search := flag; chat_collected_info := info |}.
  split; [unfold reset_session; rewrite Hknown; reflexivity|].
  split.
  { unfold App.chat, is_new. rewrite Htruthy, lookup_insert_eq.
    rewrite bool_decide_eq_false_2 by discriminate. simpl.
    rewrite lookup_insert_eq. simpl. rewrite Hturn. reflexivity. }
  split.
  { unfold App.chat, is_new, new_agent. rewrite Hnew. simpl.
    rewrite Hturn. reflexivity. }
  simpl. rewrite !lookup_insert_eq. repeat split.
Qed.

(** X29: when [search] has answered with status 500, the summary of the
    records stored having raised, every further [search] of the session
    is answered with status 500 as well and changes nothing. *)
Theorem search_failure_persists (fuel : nat)
    (sessions sessions' : gmap string agent) (id : string) :
  search fuel sessions id = Some (sessions', HTTPException 500) ->
  forall fuel',
    search fuel' sessions' id = Some (sessions', HTTPException 500).
Proof.
  unfold App.search.
  destruct (sessions !! id) as [a|]; [|discriminate].
  destruct (run fuel a) as [[a' results]|] eqn:Hrun; [|discriminate].
  destruct (get_search_summary a') as [summary|e] eqn:Hsummary;
    [discriminate|].
  intros [= <-] fuel'. rewrite lookup_insert_eq.
  rewrite execute_search_not_searching
    by exact (execute_search_leaves_searching _ _ _ _ _ _ _ _ Hrun).
  rewrite Hsummary, insert_insert_eq. reflexivity.
Qed.

(** X30: when [search] has answered with a reply, every further [search]
    of the session is answered with no records and the count 0, and with
    the summary of the first reply. *)
Theorem search_again (fuel : nat) (sessions sessions' : gmap string agent)
    (id : string) (r : SearchReply) :
  search fuel sessions id = Some (sessions', Reply r) ->
  forall fuel',
    search fuel' sessions' id
    = Some (sessions',
            Reply {| search_session_id := id;
                     App.search_results := [];
                     search_summary := search_summary r;
                     search_count := 0 |}).
Proof.
  unfold App.search.
  destruct (sessions !! id) as [a|]; [|discriminate].
  destruct (run fuel a) as [[a' results]|] eqn:Hrun; [|discriminate].
  destruct (get_search_summary a') as [summary|e] eqn:Hsummary;
    [|discriminate].
  intros [= <- <-] fuel'. rewrite lookup_insert_eq.
  rewrite execute_search_not_searching
    by exact (execute_search_leaves_searching _ _ _ _ _ _ _ _ Hrun).
  rewrite Hsummary, insert_insert_eq. reflexivity.
Qed.

End Sessions.

Section SessionsExamples.
Import PaperResearchAgent SearchSummary App.

Lemma chat_session_witness :
  exists sessions' r,
    App.chat (Ok tt) happy_analysis "u1" one_session (Some "s2")
      "transformers" = (sessions', Reply r)
    /\ chat_session_id r = "u1"
    /\ sessions' !! "s1" = one_session !! "s1".
Proof.
  destruct (App.chat (Ok tt) happy_analysis "u1" one_session (Some "s2")
              "transformers") as [sessions' out] eqn:Hchat.
  destruct (chat_session (Ok tt) happy_analysis "u1" one_session sessions'
              (Some "s2") "transformers" out Hchat) as (Hreply & _ & _).
  assert (Hout : exists r, out = Reply r).
  { vm_compute in Hchat. injection Hchat as _ <-. eauto. }
  destruct Hout as [r ->]. exists sessions', r.
  destruct (Hreply r eq_refl) as (Hid & _ & Hframe & _).
  change (is_new one_session (Some "s2")) with true in Hid.
  split; [reflexivity|]. split; [exact Hid|].
  apply Hframe. rewrite Hid. discriminate.
Defined.

Lemma unknown_session_witness :
  App.search 25 200 sample_transport 3 one_session "s9"
  = Some (one_session, HTTPException 404)
  /\ reset_session one_session "s9" = (one_session, HTTPException 404).
Proof.
  destruct (unknown_session (Ok tt) happy_analysis 25 200 sample_transport
              one_session "s9" ltac:(vm_compute; reflexivity))
    as (Hsearch & Hreset & _).
  split; [exact (Hsearch 3%nat)|exact Hreset].
Defined.

Lemma reset_session_then_chat_witness :
  exists sessions2 sessions3 r2 r3,
    App.chat (Ok tt) happy_analysis "u1"
      (reset_session one_session "s1").1 (Some "s1") "transformers"
    = (sessions2, Reply r2)
    /\ App.chat (Ok tt) happy_analysis "u1" one_session None "transformers"
       = (sessions3, Reply r3)
    /\ chat_response r2 = chat_response r3
    /\ sessions2 !! "s1" = sessions3 !! "u1".
Proof.
  destruct (reset_session_then_chat (Ok tt) happy_analysis "u1" one_session
              "s1" searching_agent_25 "transformers"
              ltac:(vm_compute; reflexivity) eq_refl eq_refl)
    as (sessions1 & sessions2 & sessions3 & r2 & r3
        & Hreset & Hchat2 & Hchat3 & _ & _ & Hresponse & _ & _ & Hstored).
  exists sessions2, sessions3, r2, r3. rewrite Hreset. simpl.
  split; [exact Hchat2|]. split; [exact Hchat3|].
  split; [exact Hresponse|exact Hstored].
Defined.

Lemma search_failure_persists_witness :
  App.search 25 200 unnamed_author_transport 7
    (one_session_after [unnamed_info]) "s1"
  = Some (one_session_after [unnamed_info], HTTPException 500).
Proof.
  apply (search_failure_persists 25 200 unnamed_author_transport 1
           one_session (one_session_after [unnamed_info]) "s1").
  vm_compute. reflexivity.
Defined.

Lemma search_again_witness :
  App.search 25 200 sample_transport 7 (one_session_after [sample_info]) "s1"
  = Some (one_session_after [sample_info],
          Reply {| search_session_id := "s1";
                   App.search_results := [];
                   search_summary := sample_summary;
                   search_count := 0 |}).
Proof.
  apply (search_again 25 200 sample_transport 1 one_session
           (one_session_after [sample_info]) "s1"
           {| search_session_id := "s1";
              App.search_results := [sample_info];
              search_summary := sample_summary;
              search_count := 1 |}).
  vm_compute. reflexivity.
Defined.

End SessionsExamples.
